(** * SQL Server health monitor: a shallow embedding of [sql_health_monitor.py]

    The script opens one pyodbc session per monitoring cycle, runs three fixed
    diagnostic queries, prints their result sets and, in continuous mode,
    repeats the cycle on a sleep interval until a deadline passes or the
    operator presses Ctrl+C.

    The embedding keeps the shape of the Python code.  Everything the script
    does to the outside is an effect on a [World] (wall clock, standard
    output, a trace of driver and sleep calls); every statement that can raise
    lives in a state-and-exception monad [M].  [except Exception] is the
    combinator [try_except_Exception]; [except KeyboardInterrupt] wraps the
    fuel-bounded [while] loop inside [monitor_continuous].  The two handlers
    differ exactly as Python's class hierarchy makes them differ. *)

From Stdlib Require Import ZArith List String Ascii Bool Lia.
From Stdlib Require Import DecimalString Permutation Sorted.
Import ListNotations.
Open Scope string_scope.
Open Scope Z_scope.

(** ** Python exceptions *)

(** [except Exception] catches every ordinary error (pyodbc.Error,
    AttributeError, TypeError, ValueError, ...); KeyboardInterrupt derives
    from BaseException and is not caught by it. *)
Inductive exn : Type :=
| PyException (cls : string) (msg : string)
| KeyboardInterrupt.

(** [str(e)], as interpolated by the f-string of the handler. *)
Definition str_exn (e : exn) : string :=
  match e with
  | PyException _ msg => msg
  | KeyboardInterrupt => ""
  end.

Inductive result (A : Type) : Type :=
| Ok (a : A)
| Raise (e : exn).
Arguments Ok {A} a.
Arguments Raise {A} e.

(** ** The world the script acts on *)

Inductive Query : Type := QCpu | QActive | QBlocking.

Inductive Event : Type :=
| EvConnect                 (* pyodbc.connect(conn_str) *)
| EvCursor                  (* conn.cursor() *)
| EvExecute (q : Query)     (* cursor.execute(query) and the fetch *)
| EvClose                   (* conn.close() *)
| EvSleep (secs : Z)        (* time.sleep(secs) entered *)
| EvInterrupt.              (* Ctrl+C delivered while sleeping *)

Record World : Type := mkWorld {
  clock : Z;                      (* time.time(), in seconds *)
  stdout : list string;           (* one entry per print call, oldest first *)
  trace : list (Z * Event)        (* outside calls with the time they started *)
}.

Definition M (A : Type) : Type := World -> result A * World.

Definition ret {A} (a : A) : M A := fun w => (Ok a, w).

Definition raise {A} (e : exn) : M A := fun w => (Raise e, w).

Definition bind {A B} (m : M A) (k : A -> M B) : M B :=
  fun w =>
    match m w with
    | (Ok a, w') => k a w'
    | (Raise e, w') => (Raise e, w')
    end.

Notation "x <- m ;; k" := (bind m (fun x => k))
  (at level 61, m at next level, right associativity).
Notation "m ;;; k" := (bind m (fun _ => k))
  (at level 61, right associativity).

Definition lift {A} (r : result A) : M A := fun w => (r, w).

(** [try: body / except Exception as e: handler e]. *)
Definition try_except_Exception (body : M unit) (handler : exn -> M unit) : M unit :=
  fun w =>
    match body w with
    | (Raise (PyException cls msg), w') => handler (PyException cls msg) w'
    | other => other
    end.

Definition print (s : string) : M unit :=
  fun w => (Ok tt, mkWorld (clock w) (stdout w ++ [s]) (trace w)).

Definition log (ev : Event) : M unit :=
  fun w => (Ok tt, mkWorld (clock w) (stdout w) (trace w ++ [(clock w, ev)])).

Definition tick (d : Z) : M unit :=
  fun w => (Ok tt, mkWorld (clock w + d) (stdout w) (trace w)).

(** [time.time()].  Time passes in the driver calls (by the latency of the
    server) and in [time.sleep]; printing and the script's own steps are
    taken to be instantaneous.  Statements about cycles "that take no time"
    say so with a zero latency. *)
Definition time_time : M Z := fun w => (Ok (clock w), w).

Fixpoint for_each {A} (xs : list A) (body : A -> M unit) : M unit :=
  match xs with
  | [] => ret tt
  | x :: rest => body x ;;; for_each rest body
  end.

(** ** Text *)

Definition nl : string := String (ascii_of_nat 10) EmptyString.

(** ["c" * n] *)
Fixpoint str_mul (c : string) (n : nat) : string :=
  match n with
  | O => ""
  | S k => c ++ str_mul c k
  end.

(** [str(z)] for a Python int. *)
Definition str_int (z : Z) : string := NilZero.string_of_int (Z.to_int z).

(** [str(v)] for a nullable integer column: NULL arrives as [None]. *)
Definition str_opt_int (v : option Z) : string :=
  match v with
  | Some z => str_int z
  | None => "None"
  end.

(** A string holds the UTF-8 bytes of a Python [str]; [len] counts code
    points, that is, the bytes that do not continue a multi-byte sequence. *)
Definition is_continuation (c : ascii) : bool :=
  match c with
  | Ascii _ _ _ _ _ _ b6 b7 => b7 && negb b6
  end.

Fixpoint py_len (s : string) : nat :=
  match s with
  | EmptyString => O
  | String c rest => if is_continuation c then py_len rest else S (py_len rest)
  end.

(** [format(s, "<n")]: left-justify in a field of width [n]. *)
Definition ljust (n : nat) (s : string) : string :=
  s ++ str_mul " " (n - py_len s).

(** [format(None, "<n")] is a TypeError. *)
Definition fmt_opt_str (n : nat) (v : option string) : result string :=
  match v with
  | Some s => Ok (ljust n s)
  | None =>
      Raise (PyException "TypeError"
               "unsupported format string passed to NoneType.__format__")
  end.

(** The same for a nullable integer column. *)
Definition fmt_opt_int (n : nat) (v : option Z) : result string :=
  match v with
  | Some z => Ok (ljust n (str_int z))
  | None =>
      Raise (PyException "TypeError"
               "unsupported format string passed to NoneType.__format__")
  end.

(** The text that reaches the terminal: every print call ends its line. *)
Fixpoint rendered (out : list string) : string :=
  match out with
  | [] => ""
  | s :: rest => s ++ nl ++ rendered rest
  end.

Fixpoint split_lines (cur : string) (s : string) : list string :=
  match s with
  | EmptyString => match cur with EmptyString => [] | _ => [cur] end
  | String c rest =>
      if Ascii.eqb c (ascii_of_nat 10)
      then cur :: split_lines "" rest
      else split_lines (cur ++ String c EmptyString) rest
  end.

(** The lines of the terminal output. *)
Definition lines_of (out : list string) : list string :=
  split_lines "" (rendered out).

(** ** The server *)

(** One record of the scheduler-monitor ring buffer after the three
    [record.value(..., 'int')] extractions; a missing XML node gives NULL. *)
Record RingRecord : Type := mkRing {
  rb_SystemIdle : option Z;
  rb_SQLProcessUtilization : option Z;
  rb_record_id : option Z
}.

(** One row of sys.dm_exec_requests, restricted to the columns the two
    queries read.  The column types are the server's: blocking_session_id
    and wait_type are the nullable ones. *)
Record Request : Type := mkRequest {
  r_session_id : Z;
  r_status : string;
  r_command : string;
  r_cpu_time : Z;
  r_total_elapsed_time : Z;
  r_reads : Z;
  r_writes : Z;
  r_blocking_session_id : option Z;
  r_wait_type : option string;
  r_wait_time : Z;
  r_wait_resource : string
}.

(** What the server does during one cycle: how long a driver call takes and,
    for each call, either its raw answer or the exception it raises.  A
    Ctrl+C that arrives while a call is in flight surfaces as
    [Raise KeyboardInterrupt] of that call. *)
Record Server : Type := mkServer {
  latency : Z;
  connect : result unit;
  cursor : result unit;
  ring_buffers : result (list RingRecord);
  requests_active : result (list Request);
  requests_blocking : result (list Request);
  close : result unit
}.

Record Env : Type := mkEnv {
  server_at : Z -> Server;            (* the server as seen at a given time *)
  strftime : Z -> string;             (* datetime.now() as %Y-%m-%d %H:%M:%S *)
  sleep_interrupt : Z -> option Z     (* a sleep entered at t: Ctrl+C after d s *)
}.

(** ** T-SQL pieces used by the three queries *)

Definition int_min : Z := -2147483648.
Definition int_max : Z := 2147483647.

(** Error 8115 of the server, as pyodbc hands it on. *)
Definition overflow_error : exn :=
  PyException "pyodbc.DataError"
    "Arithmetic overflow error converting expression to data type int.".

(** [a - b] on the type int: NULL is absorbing, and a difference outside the
    32-bit range is an error, never a wrapped value. *)
Definition sql_sub (a b : option Z) : result (option Z) :=
  match a, b with
  | Some x, Some y =>
      if (int_min <=? x - y) && (x - y <=? int_max)
      then Ok (Some (x - y))
      else Raise overflow_error
  | _, _ => Ok None
  end.

(** Ordering of a nullable int key: NULL sorts below every value. *)
Definition key_lt (a b : option Z) : bool :=
  match a, b with
  | None, Some _ => true
  | Some x, Some y => x <? y
  | _, _ => false
  end.

(** [SELECT TOP 1 ... ORDER BY record_id DESC] over the scanned records. *)
Fixpoint top1_record_id_desc (tbl : list RingRecord) : option RingRecord :=
  match tbl with
  | [] => None
  | r :: rest =>
      match top1_record_id_desc rest with
      | None => Some r
      | Some best =>
          if key_lt (rb_record_id r) (rb_record_id best) then Some best else Some r
      end
  end.

(** [ORDER BY cpu_time DESC]: rows of equal cpu_time keep the order in which
    the scan of the view produced them, which the server does not fix. *)
Fixpoint insert_cpu_desc (r : Request) (sorted : list Request) : list Request :=
  match sorted with
  | [] => [r]
  | x :: rest =>
      if r_cpu_time x <? r_cpu_time r
      then r :: x :: rest
      else x :: insert_cpu_desc r rest
  end.

Fixpoint order_by_cpu_time_desc (rows : list Request) : list Request :=
  match rows with
  | [] => []
  | r :: rest => insert_cpu_desc r (order_by_cpu_time_desc rest)
  end.

(** ** Result rows (pyodbc.Row, one record per query) *)

Record CpuRow : Type := mkCpuRow {
  SQL_CPU_Usage : option Z;
  SystemIdle : option Z;
  Other_Process_CPU : option Z
}.

Record ActiveRow : Type := mkActiveRow {
  q_session_id : Z;
  q_status : string;
  q_command : string;
  q_cpu_time : Z;
  q_elapsed_sec : Z;
  q_reads : Z;
  q_writes : Z;
  q_blocking_session_id : option Z;
  q_wait_type : option string
}.

Record BlockingRow : Type := mkBlockingRow {
  b_blocking_session_id : Z;
  b_session_id : Z;
  b_wait_type : option string;
  b_wait_sec : Z;
  b_wait_resource : string
}.

(** The select list of the CPU query on the chosen record. *)
Definition cpu_select (r : RingRecord) : result CpuRow :=
  match sql_sub (Some 100) (rb_SystemIdle r) with
  | Raise e => Raise e
  | Ok d =>
      match sql_sub d (rb_SQLProcessUtilization r) with
      | Raise e => Raise e
      | Ok other =>
          Ok (mkCpuRow (rb_SQLProcessUtilization r) (rb_SystemIdle r) other)
      end
  end.

(** The CPU query followed by [cursor.fetchone()]: [None] on an empty result. *)
Definition cpu_query (tbl : list RingRecord) : result (option CpuRow) :=
  match top1_record_id_desc tbl with
  | None => Ok None
  | Some r =>
      match cpu_select r with
      | Ok row => Ok (Some row)
      | Raise e => Raise e
      end
  end.

(** Integer division of T-SQL truncates toward zero. *)
Definition active_select (r : Request) : ActiveRow :=
  mkActiveRow (r_session_id r) (r_status r) (r_command r) (r_cpu_time r)
    (Z.quot (r_total_elapsed_time r) 1000) (r_reads r) (r_writes r)
    (r_blocking_session_id r) (r_wait_type r).

Definition active_query (tbl : list Request) : list ActiveRow :=
  map active_select
    (order_by_cpu_time_desc (filter (fun r => 50 <? r_session_id r) tbl)).

(** The select list of the blocking query, on a request whose
    blocking_session_id is the integer [b]. *)
Definition blocking_row (r : Request) (b : Z) : BlockingRow :=
  mkBlockingRow b (r_session_id r) (r_wait_type r)
    (Z.quot (r_wait_time r) 1000) (r_wait_resource r).

(** [WHERE blocking_session_id <> 0]: the rows a request contributes.  A
    NULL id does not pass, since [NULL <> 0] is not true. *)
Definition blocking_select (r : Request) : list BlockingRow :=
  match r_blocking_session_id r with
  | Some b => if b =? 0 then [] else [blocking_row r b]
  | None => []
  end.

Definition blocking_query (tbl : list Request) : list BlockingRow :=
  flat_map blocking_select tbl.

(** ** The functions of [sql_health_monitor.py] *)

Definition get_connection (srv : Server) : M unit :=
  log EvConnect ;;;
  tick (latency srv) ;;;
  lift (connect srv).

Definition conn_cursor (srv : Server) : M unit :=
  log EvCursor ;;;
  lift (cursor srv).

Definition conn_close (srv : Server) : M unit :=
  log EvClose ;;;
  lift (close srv).

Definition get_cpu_usage (srv : Server) : M (option CpuRow) :=
  log (EvExecute QCpu) ;;;
  tick (latency srv) ;;;
  tbl <- lift (ring_buffers srv) ;;
  lift (cpu_query tbl).

Definition get_active_queries (srv : Server) : M (list ActiveRow) :=
  log (EvExecute QActive) ;;;
  tick (latency srv) ;;;
  tbl <- lift (requests_active srv) ;;
  ret (active_query tbl).

Definition get_blocking (srv : Server) : M (list BlockingRow) :=
  log (EvExecute QBlocking) ;;;
  tick (latency srv) ;;;
  tbl <- lift (requests_blocking srv) ;;
  ret (blocking_query tbl).

Definition display_header (env : Env) : M unit :=
  print (str_mul "=" 80) ;;;
  print "SQL SERVER HEALTH MONITOR" ;;;
  now <- time_time ;;
  print ("Time: " ++ strftime env now) ;;;
  print (str_mul "=" 80).

(** [cpu.<name>]: attribute access on the fetched row, or on [None]. *)
Definition getattr {A} (cpu : option CpuRow) (name : string) (field : CpuRow -> A) : M A :=
  match cpu with
  | Some row => ret (field row)
  | None =>
      raise (PyException "AttributeError"
               ("'NoneType' object has no attribute '" ++ name ++ "'"))
  end.

Definition display_cpu (cpu : option CpuRow) : M unit :=
  print (nl ++ "[CPU]") ;;;
  sql <- getattr cpu "SQL_CPU_Usage" SQL_CPU_Usage ;;
  print ("SQL Server:  " ++ str_opt_int sql ++ "%") ;;;
  other <- getattr cpu "Other_Process_CPU" Other_Process_CPU ;;
  print ("Other:       " ++ str_opt_int other ++ "%") ;;;
  idle <- getattr cpu "SystemIdle" SystemIdle ;;
  print ("Idle:        " ++ str_opt_int idle ++ "%").

Definition queries_header : string :=
  ljust 10 "Session" ++ " " ++ ljust 12 "Status" ++ " " ++ ljust 20 "Command"
  ++ " " ++ ljust 10 "CPU(ms)" ++ " " ++ ljust 10 "Time(s)" ++ " "
  ++ ljust 10 "Blocking".

(** The line of one request; a NULL blocking_session_id cannot be
    formatted in a column. *)
Definition queries_line (q : ActiveRow) : result string :=
  match fmt_opt_int 10 (q_blocking_session_id q) with
  | Raise e => Raise e
  | Ok blk =>
      Ok (ljust 10 (str_int (q_session_id q)) ++ " " ++ ljust 12 (q_status q)
          ++ " " ++ ljust 20 (q_command q) ++ " "
          ++ ljust 10 (str_int (q_cpu_time q)) ++ " "
          ++ ljust 10 (str_int (q_elapsed_sec q)) ++ " " ++ blk)
  end.

Definition display_queries (queries : list ActiveRow) : M unit :=
  print (nl ++ "[ACTIVE QUERIES]") ;;;
  match queries with
  | [] => print "No active queries"
  | _ =>
      print queries_header ;;;
      print (str_mul "-" 80) ;;;
      for_each queries (fun q => line <- lift (queries_line q) ;; print line)
  end.

Definition blocking_header : string :=
  ljust 10 "Blocker" ++ " " ++ ljust 10 "Blocked" ++ " " ++ ljust 20 "Wait Type"
  ++ " " ++ ljust 10 "Wait(s)" ++ " " ++ ljust 30 "Resource".

Definition blocking_line (b : BlockingRow) : result string :=
  match fmt_opt_str 20 (b_wait_type b) with
  | Raise e => Raise e
  | Ok wt =>
      Ok (ljust 10 (str_int (b_blocking_session_id b)) ++ " "
          ++ ljust 10 (str_int (b_session_id b)) ++ " " ++ wt ++ " "
          ++ ljust 10 (str_int (b_wait_sec b)) ++ " "
          ++ ljust 30 (b_wait_resource b))
  end.

Definition display_blocking (blocking : list BlockingRow) : M unit :=
  print (nl ++ "[BLOCKING]") ;;;
  match blocking with
  | [] => print "No blocking detected"
  | _ =>
      print blocking_header ;;;
      print (str_mul "-" 80) ;;;
      for_each blocking (fun b => line <- lift (blocking_line b) ;; print line)
  end.

(** The statements inside the [try] of [monitor_once]. *)
Definition cycle_body (env : Env) (srv : Server) : M unit :=
  get_connection srv ;;;
  conn_cursor srv ;;;
  display_header env ;;;
  cpu <- get_cpu_usage srv ;;
  display_cpu cpu ;;;
  queries <- get_active_queries srv ;;
  display_queries queries ;;;
  blocking <- get_blocking srv ;;
  display_blocking blocking ;;;
  conn_close srv.

Definition error_line (e : exn) : string := nl ++ "[ERROR] " ++ str_exn e.

(** A cycle talks to the server as it is when the cycle starts. *)
Definition monitor_once (env : Env) : M unit :=
  fun w =>
    try_except_Exception
      (cycle_body env (server_at env (clock w)))
      (fun e => print (error_line e))
      w.

(** [time.sleep(secs)]: a negative length is a ValueError; a Ctrl+C that
    falls inside the wait ends it early with KeyboardInterrupt. *)
Definition time_sleep (env : Env) (secs : Z) : M unit :=
  log (EvSleep secs) ;;;
  if secs <? 0
  then raise (PyException "ValueError" "sleep length must be non-negative")
  else
    fun w =>
      match sleep_interrupt env (clock w) with
      | Some d =>
          if (0 <=? d) && (d <? secs)
          then (tick d ;;; log EvInterrupt ;;; raise KeyboardInterrupt) w
          else tick secs w
      | None => tick secs w
      end.

Definition refreshing_line (interval : Z) : string :=
  nl ++ "Refreshing in " ++ str_int interval ++ " seconds...".

(** The body of the [while] loop. *)
Definition loop_body (env : Env) (interval : Z) : M unit :=
  monitor_once env ;;;
  print (refreshing_line interval) ;;;
  time_sleep env interval.

(** [while time.time() < end_time: ...]; [fuel] bounds the iterations, and
    [None] means the bound was reached with the loop still running. *)
Fixpoint while_loop (env : Env) (interval end_time : Z) (fuel : nat) (w : World)
  : option (result unit * World) :=
  if clock w <? end_time then
    match fuel with
    | O => None
    | S fuel' =>
        match loop_body env interval w with
        | (Ok _, w') => while_loop env interval end_time fuel' w'
        | (Raise e, w') => Some (Raise e, w')
        end
    end
  else Some (Ok tt, w).

Definition starting_line (interval duration : Z) : string :=
  "Starting continuous monitoring (every " ++ str_int interval ++ "s for "
  ++ str_int duration ++ "s)".

Definition stopped_line : string := nl ++ nl ++ "Monitoring stopped by user".

Definition monitor_continuous (env : Env) (interval duration : Z) (fuel : nat)
  (w : World) : option (result unit * World) :=
  match (print (starting_line interval duration) ;;;
         print ("Press Ctrl+C to stop" ++ nl) ;;;
         now <- time_time ;;
         ret (now + duration)) w with
  | (Raise e, w1) => Some (Raise e, w1)
  | (Ok end_time, w1) =>
      match while_loop env interval end_time fuel w1 with
      | Some (Raise KeyboardInterrupt, w2) => Some (print stopped_line w2)
      | other => other
      end
  end.

(** ** Sample environments *)

Module Sample.

Definition w0 : World := mkWorld 0 [] [].

Definition req (sid cpu blk : Z) (wt : option string) : Request :=
  mkRequest sid "running" "SELECT" cpu 12345 1 2 (Some blk) wt 5500 "KEY: 1".

Definition requests : list Request :=
  [req 51 5 0 None; req 12 7 0 None; req 60 9 51 (Some "LCK_M_S")].

Definition healthy : Server :=
  mkServer 0 (Ok tt) (Ok tt) (Ok [mkRing (Some 70) (Some 20) (Some 1)])
    (Ok requests) (Ok requests) (Ok tt).

Definition pyodbc_error : exn :=
  PyException "pyodbc.OperationalError" "08001: server not reachable".

Definition unreachable : Server :=
  mkServer 0 (Raise pyodbc_error) (Ok tt) (Ok []) (Ok []) (Ok []) (Ok tt).

Definition no_ring_record : Server :=
  mkServer 0 (Ok tt) (Ok tt) (Ok []) (Ok requests) (Ok requests) (Ok tt).

Definition active_fails : Server :=
  mkServer 0 (Ok tt) (Ok tt) (Ok [mkRing (Some 70) (Some 20) (Some 1)])
    (Raise pyodbc_error) (Ok requests) (Ok tt).

Definition ctrl_c_in_query : Server :=
  mkServer 0 (Ok tt) (Ok tt) (Ok [mkRing (Some 70) (Some 20) (Some 1)])
    (Raise KeyboardInterrupt) (Ok requests) (Ok tt).

(** A healthy server two seconds away: every driver round trip takes 2 s. *)
Definition slow : Server :=
  mkServer 2 (Ok tt) (Ok tt) (Ok [mkRing (Some 70) (Some 20) (Some 1)])
    (Ok requests) (Ok requests) (Ok tt).

Definition stamp (t : Z) : string := "2024-12-23 10:00:00".

Definition env_of (srv : Server) : Env := mkEnv (fun _ => srv) stamp (fun _ => None).

(** Healthy server; the operator presses Ctrl+C at t = 7, two seconds into
    the sleep entered at t = 5. *)
Definition env_interrupt_at_7 : Env :=
  mkEnv (fun _ => healthy) stamp (fun t => if t =? 5 then Some 2 else None).

(** The server is unreachable until t = 5 and healthy afterwards. *)
Definition env_recovering : Env :=
  mkEnv (fun t => if t <? 5 then unreachable else healthy) stamp (fun _ => None).

End Sample.

(** ** Blocks of output *)

Definition header_block (env : Env) (now : Z) : list string :=
  [str_mul "=" 80; "SQL SERVER HEALTH MONITOR"; "Time: " ++ strftime env now;
   str_mul "=" 80].

Definition cpu_block (row : CpuRow) : list string :=
  [nl ++ "[CPU]";
   "SQL Server:  " ++ str_opt_int (SQL_CPU_Usage row) ++ "%";
   "Other:       " ++ str_opt_int (Other_Process_CPU row) ++ "%";
   "Idle:        " ++ str_opt_int (SystemIdle row) ++ "%"].

(** What a computation added to standard output and to the trace. *)
Definition printed (w w' : World) (out : list string) : Prop :=
  stdout w' = (stdout w ++ out)%list.

Definition traced (w w' : World) (evs : list (Z * Event)) : Prop :=
  trace w' = (trace w ++ evs)%list.

(** ** Vocabulary of the statements *)

Definition no_attribute_error : exn :=
  PyException "AttributeError"
    "'NoneType' object has no attribute 'SQL_CPU_Usage'".

Definition cpu_desc (a b : Request) : Prop := r_cpu_time b <= r_cpu_time a.

Definition not_stop (s : string) : Prop := s <> stopped_line.

(** Events of a cycle after the connection attempt. *)
Definition inner_event (te : Z * Event) : Prop :=
  match snd te with
  | EvCursor | EvExecute _ | EvClose => True
  | _ => False
  end.

Definition benign (te : Z * Event) : Prop := snd te <> EvInterrupt.

Definition is_connect (te : Z * Event) : bool :=
  match snd te with
  | EvConnect => true
  | _ => false
  end.

(** [w'] comes from [w] by printing lines other than the stop message, by
    calls that satisfy [P] and by a number of driver round trips. *)
Definition evolves (P : Z * Event -> Prop) (lat : Z) (w w' : World) : Prop :=
  exists out evs k,
    stdout w' = (stdout w ++ out)%list /\
    trace w' = (trace w ++ evs)%list /\
    clock w' = clock w + Z.of_nat k * lat /\
    Forall not_stop out /\
    Forall P evs.

Definition frames {A} (P : Z * Event -> Prop) (lat : Z) (m : M A) : Prop :=
  forall w, evolves P lat w (snd (m w)).

(** The computation never ends in KeyboardInterrupt. *)
Definition calm {A} (m : M A) : Prop :=
  forall w, fst (m w) <> Raise KeyboardInterrupt.

(** The statements of a cycle after the session is open. *)
Definition cycle_rest (env : Env) (srv : Server) : M unit :=
  conn_cursor srv ;;;
  display_header env ;;;
  cpu <- get_cpu_usage srv ;;
  display_cpu cpu ;;;
  queries <- get_active_queries srv ;;
  display_queries queries ;;;
  blocking <- get_blocking srv ;;
  display_blocking blocking ;;;
  conn_close srv.

(** One cycle: the connection attempt at the time the cycle starts, then
    calls on the open session; nothing it prints is the stop message. *)
Definition cycle_shape (lat : Z) (w w' : World) : Prop :=
  exists out evs k,
    stdout w' = (stdout w ++ out)%list /\
    trace w' = (trace w ++ (clock w, EvConnect) :: evs)%list /\
    clock w' = clock w + Z.of_nat k * lat /\
    Forall not_stop out /\
    Forall inner_event evs.

(** No driver call of the cycle is cut short by a Ctrl+C. *)
Definition quiet_server (srv : Server) : Prop :=
  connect srv <> Raise KeyboardInterrupt /\
  cursor srv <> Raise KeyboardInterrupt /\
  ring_buffers srv <> Raise KeyboardInterrupt /\
  requests_active srv <> Raise KeyboardInterrupt /\
  requests_blocking srv <> Raise KeyboardInterrupt /\
  close srv <> Raise KeyboardInterrupt.

(** The world in which the loop starts: the two announcement lines are out. *)
Definition announced (interval duration : Z) (w : World) : World :=
  mkWorld (clock w)
    (stdout w ++ [starting_line interval duration; "Press Ctrl+C to stop" ++ nl])
    (trace w).

(** What a stretch of the loop leaves behind: lines other than the stop
    message, and a trace whose only possible [EvInterrupt] is its last event,
    stamped with the final time, in which case the stretch ended in
    KeyboardInterrupt. *)
Definition loop_trace_ok (r : result unit) (w w' : World) : Prop :=
  exists out evs,
    stdout w' = (stdout w ++ out)%list /\
    trace w' = (trace w ++ evs)%list /\
    Forall not_stop out /\
    (Forall benign evs \/
     (r = Raise KeyboardInterrupt /\
      exists pre, evs = (pre ++ [(clock w', EvInterrupt)])%list /\
                  Forall benign pre)).

(** The outside calls of one cycle, in program order. *)
Definition cycle_calls : list Event :=
  [EvConnect; EvCursor; EvExecute QCpu; EvExecute QActive;
   EvExecute QBlocking; EvClose].

(** Since the trace was [t0], the first [n] calls of a cycle were made. *)
Definition called (t0 : list (Z * Event)) (n : nat) (w : World) : Prop :=
  exists es, trace w = (t0 ++ es)%list /\ map snd es = firstn n cycle_calls.

(** Hoare triples over [M]: the postcondition sees the result. *)
Definition hoare {A} (Pre : World -> Prop) (m : M A)
  (Post : result A -> World -> Prop) : Prop :=
  forall w, Pre w -> Post (fst (m w)) (snd (m w)).

(** How far a cycle got, and how it ended: the close call is the last one,
    and a cycle that reaches it ends as the close call does. *)
Definition cycle_post (srv : Server) (t0 : list (Z * Event))
  (r : result unit) (w : World) : Prop :=
  exists n, called t0 n w /\ (1 <= n <= 6)%nat /\
            (r = Ok tt -> n = 6%nat) /\ (n = 6%nat -> r = close srv).

(** The times at which connections were attempted. *)
Definition connect_times (evs : list (Z * Event)) : list Z :=
  map fst (filter is_connect evs).

Definition value_error : exn :=
  PyException "ValueError" "sleep length must be non-negative".

Definition type_error : exn :=
  PyException "TypeError"
    "unsupported format string passed to NoneType.__format__".

(** The exception of a result, if it is one. *)
Definition failure_of {A} (r : result A) : option exn :=
  match r with
  | Ok _ => None
  | Raise e => Some e
  end.

(** How the call at position [i] of [cycle_calls] fails, if it does.  The
    CPU query fails when the server raises and when the residual share
    overflows. *)
Definition call_failure (srv : Server) (i : nat) : option exn :=
  match i with
  | 0%nat => failure_of (connect srv)
  | 1%nat => failure_of (cursor srv)
  | 2%nat =>
      match ring_buffers srv with
      | Raise e => Some e
      | Ok tbl => failure_of (cpu_query tbl)
      end
  | 3%nat => failure_of (requests_active srv)
  | 4%nat => failure_of (requests_blocking srv)
  | 5%nat => failure_of (close srv)
  | _ => None
  end.

(** The first [n] calls of the cycle were made and none of them failed. *)
Definition cycle_reached (srv : Server) (t0 : list (Z * Event)) (n : nat)
  (w : World) : Prop :=
  called t0 n w /\ (forall i, (i < n)%nat -> call_failure srv i = None).

(** The cycle made [n] calls; one that failed is the last of them, and the
    cycle ends in its exception. *)
Definition cycle_verdict (srv : Server) (t0 : list (Z * Event))
  (r : result unit) (w : World) : Prop :=
  exists n, called t0 n w /\ (1 <= n <= 6)%nat /\
            (forall i e, (i < n)%nat -> call_failure srv i = Some e ->
                         n = S i /\ r = Raise e).

(** The display functions that run before call [i] do not raise:
    [display_cpu] is given a row, no row of the active-queries table has a
    NULL blocking_session_id and no row of the blocking table a NULL
    wait_type. *)
Definition displays_pass (srv : Server) (i : nat) : Prop :=
  ((3 <= i)%nat ->
   exists tbl row, ring_buffers srv = Ok tbl /\ cpu_query tbl = Ok (Some row)) /\
  ((4 <= i)%nat ->
   exists ra, requests_active srv = Ok ra /\
              Forall (fun q => q_blocking_session_id q <> None) (active_query ra)) /\
  ((5 <= i)%nat ->
   exists rk, requests_blocking srv = Ok rk /\
              Forall (fun b => b_wait_type b <> None) (blocking_query rk)).

(** ** The entry point *)

(** The terminal as [main] sees it: the world of the monitor, and what
    [input] wrote as a prompt (no newline follows a prompt), each with the
    number of print calls made before it. *)
Record Console : Type := mkConsole {
  con_world : World;
  con_prompts : list (nat * string)
}.

(** [input(prompt)]: the prompt is written, then a line is read; [line] is
    what the call returns, or the exception it raises (EOFError at end of
    input, KeyboardInterrupt on Ctrl+C). *)
Definition input (prompt : string) (line : result string) (c : Console)
  : result string * Console :=
  (line,
   mkConsole (con_world c)
     (con_prompts c ++ [(List.length (stdout (con_world c)), prompt)])).

(** A computation of the monitor, run at the console. *)
Definition at_console (m : M unit) (c : Console) : result unit * Console :=
  (fst (m (con_world c)), mkConsole (snd (m (con_world c))) (con_prompts c)).

Section Main.

(** Python's [str.strip()]. *)
Variable strip : string -> string.

Definition main (env : Env) (line : result string) (fuel : nat) (c : Console)
  : option (result unit * Console) :=
  let c1 :=
    snd (at_console (print "SQL Server Health Monitor" ;;;
                     print "1. Single snapshot" ;;;
                     print "2. Continuous monitoring (60 seconds)") c) in
  match input (nl ++ "Select option (1 or 2): ") line c1 with
  | (Raise e, c2) => Some (Raise e, c2)
  | (Ok text, c2) =>
      let choice := strip text in
      if String.eqb choice "1" then Some (at_console (monitor_once env) c2)
      else if String.eqb choice "2" then
        match monitor_continuous env 5 60 fuel (con_world c2) with
        | Some (r, w') => Some (r, mkConsole w' (con_prompts c2))
        | None => None
        end
      else Some (at_console (print "Invalid choice") c2)
  end.

End Main.

(** A strip for the samples.  It drops, at both ends, the ASCII characters
    that [str.isspace] accepts (tab to carriage return, the four separators
    28 to 31, and the blank), as [str.strip()] does on ASCII text. *)
Definition is_space (c : ascii) : bool :=
  let n := nat_of_ascii c in
  ((9 <=? n) && (n <=? 13) || (28 <=? n) && (n <=? 32))%nat.

Fixpoint lstrip_spaces (s : string) : string :=
  match s with
  | String c rest => if is_space c then lstrip_spaces rest else s
  | EmptyString => EmptyString
  end.

Fixpoint rev_string (acc s : string) : string :=
  match s with
  | String c rest => rev_string (String c acc) rest
  | EmptyString => acc
  end.

Definition strip_spaces (s : string) : string :=
  rev_string "" (lstrip_spaces (rev_string "" (lstrip_spaces s))).

(** The three menu lines. *)
Definition menu : list string :=
  ["SQL Server Health Monitor"; "1. Single snapshot";
   "2. Continuous monitoring (60 seconds)"].

(** ** The connection test script, [test_connection.py] *)

Module TestConnection.

(** The driver calls of the script. *)
Inductive Call : Type :=
| Connect             (* pyodbc.connect(connection_string) *)
| Cursor              (* conn.cursor() *)
| SelectVersion       (* SELECT @@VERSION and fetchone *)
| SelectDatabases     (* the query on sys.databases *)
| Close.              (* conn.close() *)

Record Terminal : Type := mkTerminal {
  out : list string;          (* one entry per print call, oldest first *)
  calls : list Call           (* driver calls, oldest first *)
}.

Definition T (A : Type) : Type := Terminal -> result A * Terminal.

Definition ret {A} (a : A) : T A := fun t => (Ok a, t).

Definition raise {A} (e : exn) : T A := fun t => (Raise e, t).

Definition bind {A B} (m : T A) (k : A -> T B) : T B :=
  fun t =>
    match m t with
    | (Ok a, t') => k a t'
    | (Raise e, t') => (Raise e, t')
    end.

Definition lift {A} (r : result A) : T A := fun t => (r, t).

Definition print (s : string) : T unit :=
  fun t => (Ok tt, mkTerminal (out t ++ [s]) (calls t)).

Definition call (c : Call) : T unit :=
  fun t => (Ok tt, mkTerminal (out t) (calls t ++ [c])).

(** One row of sys.databases as the loop reads it: the name, [str] of the
    creation date, and state_desc, which is the nullable column. *)
Record Db : Type := mkDb {
  DatabaseName : string;
  Created : string;
  Status : option string
}.

(** What the server does during the test: each driver call either answers
    or raises.  [version] is the row of the version query, if any, reduced
    to its first column; [databases] are the rows the loop receives, and
    [fetch_failure] the exception, if any, that the cursor raises when asked
    for the row after them. *)
Record Server : Type := mkServer {
  connect : result unit;
  cursor : result unit;
  version : result (option string);
  databases : result (list Db);
  fetch_failure : option exn;
  close : result unit
}.

(** The classes of pyodbc that derive from [pyodbc.Error]. *)
Definition is_pyodbc_error (cls : string) : bool :=
  existsb (String.eqb cls)
    ["pyodbc.Error"; "pyodbc.InterfaceError"; "pyodbc.DatabaseError";
     "pyodbc.DataError"; "pyodbc.OperationalError"; "pyodbc.IntegrityError";
     "pyodbc.InternalError"; "pyodbc.ProgrammingError";
     "pyodbc.NotSupportedError"].

Definition server : string := "localhost".
Definition database : string := "master".

Definition connection_string : string :=
  "DRIVER={SQL Server};" ++ "SERVER=" ++ server ++ ";" ++ "DATABASE="
  ++ database ++ ";" ++ "Trusted_Connection=yes;".

Definition banner : list string :=
  [str_mul "=" 70; "SQL Server Connection Test"; str_mul "=" 70;
   "Server: " ++ server; "Database: " ++ database;
   "Authentication: Windows (Trusted Connection)"; str_mul "-" 70].

Definition databases_header : string :=
  ljust 30 "Database Name" ++ " | " ++ ljust 20 "Created" ++ " | "
  ++ ljust 10 "Status".

(** The line of one database; a NULL status cannot be formatted. *)
Definition database_line (row : Db) : result string :=
  match fmt_opt_str 10 (Status row) with
  | Raise e => Raise e
  | Ok st =>
      Ok (ljust 30 (DatabaseName row) ++ " | " ++ ljust 20 (Created row)
          ++ " | " ++ st)
  end.

(** [version[0]]: subscripting the fetched row, or [None]. *)
Definition first_column (row : option string) : T string :=
  match row with
  | Some v => ret v
  | None =>
      raise (PyException "TypeError" "'NoneType' object is not subscriptable")
  end.

(** [for row in cursor: print(...)]. *)
Fixpoint for_rows (rows : list Db) (failure : option exn) : T unit :=
  match rows with
  | [] => match failure with
          | Some e => raise e
          | None => ret tt
          end
  | row :: rest =>
      bind (lift (database_line row)) (fun line =>
      bind (print line) (fun _ => for_rows rest failure))
  end.

(** The statements inside the [try]. *)
Definition attempt (srv : Server) : T unit :=
  bind (print "Attempting connection...") (fun _ =>
  bind (call Connect) (fun _ =>
  bind (lift (connect srv)) (fun _ =>
  bind (call Cursor) (fun _ =>
  bind (lift (cursor srv)) (fun _ =>
  bind (call SelectVersion) (fun _ =>
  bind (lift (version srv)) (fun row =>
  bind (print (nl ++ "✓ CONNECTION SUCCESSFUL!")) (fun _ =>
  bind (print (str_mul "-" 70)) (fun _ =>
  bind (print "SQL Server Version:") (fun _ =>
  bind (first_column row) (fun v =>
  bind (print v) (fun _ =>
  bind (print (str_mul "-" 70)) (fun _ =>
  bind (call SelectDatabases) (fun _ =>
  bind (lift (databases srv)) (fun rows =>
  bind (print (nl ++ "Databases on this server:")) (fun _ =>
  bind (print databases_header) (fun _ =>
  bind (print (str_mul "-" 70)) (fun _ =>
  bind (for_rows rows (fetch_failure srv)) (fun _ =>
  bind (call Close) (fun _ =>
  bind (lift (close srv)) (fun _ =>
  bind (print (nl ++ "✓ Connection closed successfully")) (fun _ =>
  print (str_mul "=" 70))))))))))))))))))))))).

(** What [except pyodbc.Error as e] prints. *)
Definition failure_block (msg : string) : list string :=
  [nl ++ "✗ CONNECTION FAILED!"; "Error: " ++ msg;
   nl ++ "Troubleshooting tips:";
   "1. Is SQL Server running? Check services.msc";
   "2. Try different server names: 'localhost', '(local)', '.\SQLEXPRESS'";
   "3. Is Windows Authentication enabled on SQL Server?";
   "4. Do you have permission to connect?";
   "5. Is TCP/IP enabled in SQL Server Configuration Manager?"].

Definition unexpected_line (msg : string) : string :=
  nl ++ "✗ Unexpected error: " ++ msg.

Fixpoint print_all (ls : list string) : T unit :=
  match ls with
  | [] => ret tt
  | l :: rest => bind (print l) (fun _ => print_all rest)
  end.

(** The two [except] clauses, in order; KeyboardInterrupt matches neither. *)
Definition handle (e : exn) : T unit :=
  match e with
  | PyException cls msg =>
      if is_pyodbc_error cls then print_all (failure_block msg)
      else print (unexpected_line msg)
  | KeyboardInterrupt => raise KeyboardInterrupt
  end.

Definition test_connection (srv : Server) : T unit :=
  bind (print_all banner) (fun _ =>
  fun t =>
    match attempt srv t with
    | (Raise e, t') => handle e t'
    | other => other
    end).

(** The order of the driver calls in the script. *)
Definition script_calls : list Call :=
  [Connect; Cursor; SelectVersion; SelectDatabases; Close].

Definition t0 : Terminal := mkTerminal [] [].

Definition master_db : Db := mkDb "master" "2003-04-08 09:13:36.390000" (Some "ONLINE").

Definition restoring_db : Db := mkDb "sales" "2024-12-01 08:00:00" None.

Definition healthy : Server :=
  mkServer (Ok tt) (Ok tt) (Ok (Some "Microsoft SQL Server 2022"))
    (Ok [master_db]) None (Ok tt).

Definition refused : Server :=
  mkServer (Raise (PyException "pyodbc.OperationalError" "08001: refused"))
    (Ok tt) (Ok None) (Ok []) None (Ok tt).

End TestConnection.

(** ** Basic facts *)

Ltac unfold_monad :=
  unfold bind, ret, raise, lift, print, log, tick, time_time in *.

Ltac unfold_cycle :=
  unfold monitor_once, try_except_Exception, cycle_body, get_connection,
    conn_cursor, conn_close, get_cpu_usage, get_active_queries, get_blocking,
    display_header, display_cpu, getattr in *.

(** Closes a goal with a hypothesis that a string or an event is among
    finitely many others, all different from it at some constructor. *)
Ltac refute_membership :=
  repeat match goal with
         | H : In _ _ |- _ => simpl in H
         | H : _ \/ _ |- _ => destruct H as [H|H]
         | H : False |- _ => destruct H
         | H : _ = _ |- _ => discriminate H
         | H : _ = _ |- _ => vm_compute in H; discriminate H
         end.

Lemma app_assoc1 {A} (l : list A) (x : A) (r : list A) :
  ((l ++ [x]) ++ r = l ++ x :: r)%list.
Proof. now rewrite <- app_assoc. Qed.

Lemma world_eta (w : World) :
  mkWorld (clock w) (stdout w ++ []) (trace w) = w.
Proof. destruct w; simpl; now rewrite app_nil_r. Qed.

Lemma for_each_print {A} (f : A -> string) (xs : list A) (w : World) :
  for_each xs (fun x => print (f x)) w
  = (Ok tt, mkWorld (clock w) (stdout w ++ map f xs) (trace w)).
Proof.
  revert w; induction xs as [|x xs IH]; intros w; simpl.
  - unfold ret. now rewrite world_eta.
  - unfold bind at 1. unfold print at 1. rewrite IH. simpl.
    now rewrite app_assoc1.
Qed.

Lemma sql_sub_some (x y : Z) (r : option Z) :
  sql_sub (Some x) (Some y) = Ok r -> r = Some (x - y).
Proof.
  unfold sql_sub. destruct (_ && _); [|discriminate]. now intros [= <-].
Qed.

Lemma cpu_select_fields (r : RingRecord) (row : CpuRow) :
  cpu_select r = Ok row ->
  SQL_CPU_Usage row = rb_SQLProcessUtilization r /\
  SystemIdle row = rb_SystemIdle r /\
  exists d, sql_sub (Some 100) (rb_SystemIdle r) = Ok d /\
            sql_sub d (rb_SQLProcessUtilization r) = Ok (Other_Process_CPU row).
Proof.
  unfold cpu_select.
  destruct (sql_sub (Some 100) (rb_SystemIdle r)) as [d|e] eqn:E1; [|discriminate].
  destruct (sql_sub d (rb_SQLProcessUtilization r)) as [o|e] eqn:E2; [|discriminate].
  intros [= <-]; simpl. split; [reflexivity|]. split; [reflexivity|].
  exists d. split; [reflexivity | exact E2].
Qed.

Lemma get_cpu_usage_row (srv : Server) (w w' : World) (row : CpuRow) :
  get_cpu_usage srv w = (Ok (Some row), w') ->
  exists tbl r, ring_buffers srv = Ok tbl /\
                top1_record_id_desc tbl = Some r /\ cpu_select r = Ok row.
Proof.
  unfold get_cpu_usage. unfold_monad. simpl.
  destruct (ring_buffers srv) as [tbl|e] eqn:Etbl; [|discriminate].
  unfold cpu_query.
  destruct (top1_record_id_desc tbl) as [r|] eqn:Etop; [|discriminate].
  destruct (cpu_select r) as [row'|e] eqn:E; [|discriminate].
  intros [= <- _]. exists tbl, r. repeat split; assumption || reflexivity.
Qed.

Lemma display_cpu_some (row : CpuRow) (w : World) :
  display_cpu (Some row) w
  = (Ok tt, mkWorld (clock w) (stdout w ++ cpu_block row) (trace w)).
Proof.
  unfold display_cpu, getattr, cpu_block. unfold_monad. simpl.
  now rewrite !app_assoc1.
Qed.

(** ** The CPU sample *)

(** C2: every row that [get_cpu_usage] returns carries the residual share
    computed as [100 - SystemIdle - SQLProcessUtilization] on the type int;
    when idle and SQL share are the integers [i] and [s], the Other column is
    exactly [100 - i - s], and [display_cpu] prints the section title followed
    by the three labelled lines SQL Server, Other, Idle with these values.
    For idle = 70 and SQL share = 20 the lines read 20%, 10% and 70%. *)
Theorem cpu_other_is_residual (srv : Server) (w w' : World) (row : CpuRow) (i s : Z) :
  get_cpu_usage srv w = (Ok (Some row), w') ->
  SystemIdle row = Some i ->
  SQL_CPU_Usage row = Some s ->
  Other_Process_CPU row = Some (100 - i - s) /\
  display_cpu (Some row) w'
  = (Ok tt,
     mkWorld (clock w')
       (stdout w' ++ [nl ++ "[CPU]";
                      "SQL Server:  " ++ str_int s ++ "%";
                      "Other:       " ++ str_int (100 - i - s) ++ "%";
                      "Idle:        " ++ str_int i ++ "%"])
       (trace w')) /\
  (i = 70 -> s = 20 ->
   lines_of (cpu_block row)
   = [""; "[CPU]"; "SQL Server:  20%"; "Other:       10%"; "Idle:        70%"]).
Proof.
  intros Hget Hi Hs.
  destruct (get_cpu_usage_row _ _ _ _ Hget) as (tbl & r & _ & _ & Hsel).
  destruct (cpu_select_fields _ _ Hsel) as (Es & Ei & d & Hd & Ho).
  rewrite Hi in Ei. rewrite Hs in Es. rewrite <- Ei in Hd. rewrite <- Es in Ho.
  apply sql_sub_some in Hd. subst d. apply sql_sub_some in Ho.
  assert (Hother : Other_Process_CPU row = Some (100 - i - s)) by exact Ho.
  split; [exact Hother|]. split.
  - rewrite display_cpu_some. unfold cpu_block.
    now rewrite Hi, Hs, Hother.
  - intros -> ->. unfold cpu_block. rewrite Hi, Hs, Hother. reflexivity.
Qed.

Lemma cpu_other_is_residual_witness :
  let row := mkCpuRow (Some 20) (Some 70) (Some 10) in
  Other_Process_CPU row = Some (100 - 70 - 20) /\
  lines_of (cpu_block row)
  = [""; "[CPU]"; "SQL Server:  20%"; "Other:       10%"; "Idle:        70%"].
Proof.
  intro row.
  destruct (cpu_other_is_residual Sample.healthy Sample.w0
              (snd (get_cpu_usage Sample.healthy Sample.w0)) row 70 20
              eq_refl eq_refl eq_refl) as (H1 & _ & H3).
  split; [exact H1 | exact (H3 eq_refl eq_refl)].
Defined.

(** ** Empty result sets *)

(** C6: on an empty result set [display_queries] prints the section title and
    the line "No active queries", and [display_blocking] prints its title and
    "No blocking detected"; in both cases nothing else is printed, so no
    column header row appears among the lines of the output. *)
Theorem empty_result_sets_print_placeholder (w : World) :
  (display_queries [] w
   = (Ok tt, mkWorld (clock w)
               (stdout w ++ [nl ++ "[ACTIVE QUERIES]"; "No active queries"])
               (trace w)) /\
   In "No active queries"
      (lines_of [nl ++ "[ACTIVE QUERIES]"; "No active queries"]) /\
   ~ In queries_header
      (lines_of [nl ++ "[ACTIVE QUERIES]"; "No active queries"])) /\
  (display_blocking [] w
   = (Ok tt, mkWorld (clock w)
               (stdout w ++ [nl ++ "[BLOCKING]"; "No blocking detected"])
               (trace w)) /\
   In "No blocking detected"
      (lines_of [nl ++ "[BLOCKING]"; "No blocking detected"]) /\
   ~ In blocking_header
      (lines_of [nl ++ "[BLOCKING]"; "No blocking detected"])).
Proof.
  split; (split; [|split]).
  - unfold display_queries. unfold_monad. simpl. now rewrite app_assoc1.
  - vm_compute. tauto.
  - vm_compute. intros [H|[H|[H|[]]]]; discriminate H.
  - unfold display_blocking. unfold_monad. simpl. now rewrite app_assoc1.
  - vm_compute. tauto.
  - vm_compute. intros [H|[H|[H|[]]]]; discriminate H.
Qed.

(** ** One monitoring cycle *)

Lemma cycle_body_connect_fails (env : Env) (srv : Server) (w : World) (e : exn) :
  connect srv = Raise e ->
  cycle_body env srv w
  = (Raise e, mkWorld (clock w + latency srv) (stdout w)
                (trace w ++ [(clock w, EvConnect)])).
Proof.
  destruct srv as [lat c cu rb ra rk cl]. simpl. intros ->.
  unfold cycle_body, get_connection. unfold_monad. reflexivity.
Qed.

Lemma cycle_body_active_fails
  (env : Env) (srv : Server) (w : World) (tbl : list RingRecord) (row : CpuRow)
  (e : exn) :
  connect srv = Ok tt ->
  cursor srv = Ok tt ->
  ring_buffers srv = Ok tbl ->
  cpu_query tbl = Ok (Some row) ->
  requests_active srv = Raise e ->
  cycle_body env srv w
  = (Raise e,
     mkWorld (clock w + latency srv + latency srv + latency srv)
       (stdout w ++ header_block env (clock w + latency srv) ++ cpu_block row)
       (trace w ++ [(clock w, EvConnect); (clock w + latency srv, EvCursor);
                    (clock w + latency srv, EvExecute QCpu);
                    (clock w + latency srv + latency srv, EvExecute QActive)])).
Proof.
  destruct srv as [lat c cu rb ra rk cl]. simpl. intros -> -> -> Hq ->.
  unfold_cycle. unfold_monad. simpl. rewrite Hq. simpl.
  now rewrite <- !app_assoc.
Qed.

Lemma cycle_body_absent_sample
  (env : Env) (srv : Server) (w : World) (tbl : list RingRecord) :
  connect srv = Ok tt ->
  cursor srv = Ok tt ->
  ring_buffers srv = Ok tbl ->
  cpu_query tbl = Ok None ->
  cycle_body env srv w
  = (Raise (PyException "AttributeError"
              "'NoneType' object has no attribute 'SQL_CPU_Usage'"),
     mkWorld (clock w + latency srv + latency srv)
       (stdout w ++ header_block env (clock w + latency srv) ++ [nl ++ "[CPU]"])
       (trace w ++ [(clock w, EvConnect); (clock w + latency srv, EvCursor);
                    (clock w + latency srv, EvExecute QCpu)])).
Proof.
  destruct srv as [lat c cu rb ra rk cl]. simpl. intros -> -> -> Hq.
  unfold_cycle. unfold_monad. simpl. rewrite Hq. simpl.
  now rewrite <- !app_assoc.
Qed.

(** C7: when opening the session raises, whatever the exception, the only
    outside call of the cycle is the connection attempt; no query is executed
    in that cycle. *)
Theorem connect_failure_calls_no_query (env : Env) (w : World) (e : exn) :
  connect (server_at env (clock w)) = Raise e ->
  trace (snd (monitor_once env w)) = (trace w ++ [(clock w, EvConnect)])%list /\
  forall t q, In (t, EvExecute q) (trace (snd (monitor_once env w))) ->
              In (t, EvExecute q) (trace w).
Proof.
  intros H.
  assert (Htr : trace (snd (monitor_once env w))
                = (trace w ++ [(clock w, EvConnect)])%list).
  { unfold monitor_once, try_except_Exception.
    rewrite (cycle_body_connect_fails env _ w e H). destruct e; reflexivity. }
  split; [exact Htr|].
  intros t q Hin. rewrite Htr in Hin. apply in_app_or in Hin.
  destruct Hin as [Hin|[Hin|[]]]; [exact Hin | discriminate Hin].
Qed.

Lemma connect_failure_calls_no_query_witness :
  trace (snd (monitor_once (Sample.env_of Sample.unreachable) Sample.w0))
  = [(0, EvConnect)].
Proof.
  exact (proj1 (connect_failure_calls_no_query
                  (Sample.env_of Sample.unreachable) Sample.w0
                  Sample.pyodbc_error eq_refl)).
Defined.

(** C8: when the session opens, the CPU query returns a row and the second
    query raises, the header block and the CPU block are on standard output
    in that order, after whatever was printed before; the handler only
    appends to them (the error line, for an ordinary exception). *)
Theorem partial_output_survives_second_query
  (env : Env) (w : World) (tbl : list RingRecord) (row : CpuRow) (e : exn) :
  let srv := server_at env (clock w) in
  connect srv = Ok tt ->
  cursor srv = Ok tt ->
  ring_buffers srv = Ok tbl ->
  cpu_query tbl = Ok (Some row) ->
  requests_active srv = Raise e ->
  printed w (snd (monitor_once env w))
    (header_block env (clock w + latency srv) ++ cpu_block row
     ++ match e with
        | PyException _ _ => [error_line e]
        | KeyboardInterrupt => []
        end) /\
  traced w (snd (monitor_once env w))
    [(clock w, EvConnect); (clock w + latency srv, EvCursor);
     (clock w + latency srv, EvExecute QCpu);
     (clock w + latency srv + latency srv, EvExecute QActive)].
Proof.
  intros srv Hc Hcu Hrb Hq Hra. unfold printed, traced.
  unfold monitor_once, try_except_Exception. fold srv.
  rewrite (cycle_body_active_fails env srv w tbl row e Hc Hcu Hrb Hq Hra).
  destruct e; unfold print; cbn [snd stdout trace];
    rewrite <- ?app_assoc; split; reflexivity.
Qed.

Lemma partial_output_survives_second_query_witness :
  printed Sample.w0
    (snd (monitor_once (Sample.env_of Sample.active_fails) Sample.w0))
    (header_block (Sample.env_of Sample.active_fails) 0
     ++ cpu_block (mkCpuRow (Some 20) (Some 70) (Some 10))
     ++ [error_line Sample.pyodbc_error]).
Proof.
  exact (proj1 (partial_output_survives_second_query
                  (Sample.env_of Sample.active_fails) Sample.w0
                  [mkRing (Some 70) (Some 20) (Some 1)]
                  (mkCpuRow (Some 20) (Some 70) (Some 10))
                  Sample.pyodbc_error eq_refl eq_refl eq_refl eq_refl eq_refl)).
Defined.

(** C10: when the CPU query has no row to return, [display_cpu] prints the
    section title and then fails on the absent row; the cycle ends normally
    with one error line, the two remaining queries are not executed and
    their sections are not printed, whatever they would have returned, and
    the session is not closed. *)
Theorem absent_cpu_sample_aborts_cycle
  (env : Env) (w : World) (tbl : list RingRecord) :
  let srv := server_at env (clock w) in
  connect srv = Ok tt ->
  cursor srv = Ok tt ->
  ring_buffers srv = Ok tbl ->
  cpu_query tbl = Ok None ->
  let out := (header_block env (clock w + latency srv)
              ++ [(nl ++ "[CPU]")%string; error_line no_attribute_error])%list in
  let evs := [(clock w, EvConnect); (clock w + latency srv, EvCursor);
              (clock w + latency srv, EvExecute QCpu)] in
  monitor_once env w
  = (Ok tt, mkWorld (clock w + latency srv + latency srv)
              (stdout w ++ out) (trace w ++ evs)) /\
  ~ In (nl ++ "[ACTIVE QUERIES]") out /\
  ~ In (nl ++ "[BLOCKING]") out /\
  (forall t, ~ In (t, EvExecute QActive) evs) /\
  (forall t, ~ In (t, EvExecute QBlocking) evs) /\
  (forall t, ~ In (t, EvClose) evs).
Proof.
  intros srv Hc Hcu Hrb Hq out evs.
  split.
  { unfold monitor_once, try_except_Exception. fold srv.
    rewrite (cycle_body_absent_sample env srv w tbl Hc Hcu Hrb Hq).
    unfold print, out. cbn [clock stdout trace].
    now rewrite <- !app_assoc. }
  subst out evs. unfold header_block.
  repeat split; unfold not; intros; refute_membership.
Qed.

Lemma absent_cpu_sample_aborts_cycle_witness :
  fst (monitor_once (Sample.env_of Sample.no_ring_record) Sample.w0) = Ok tt /\
  trace (snd (monitor_once (Sample.env_of Sample.no_ring_record) Sample.w0))
  = [(0, EvConnect); (0, EvCursor); (0, EvExecute QCpu)].
Proof.
  pose proof (proj1 (absent_cpu_sample_aborts_cycle
                       (Sample.env_of Sample.no_ring_record) Sample.w0 []
                       eq_refl eq_refl eq_refl eq_refl)) as H.
  rewrite H. split; reflexivity.
Defined.

(** ** The active-queries result set *)

Lemma insert_cpu_desc_perm (r : Request) (l : list Request) :
  Permutation (r :: l) (insert_cpu_desc r l).
Proof.
  induction l as [|x l IH]; simpl; [constructor; constructor|].
  destruct (r_cpu_time x <? r_cpu_time r); [apply Permutation_refl|].
  eapply perm_trans; [apply perm_swap|]. now constructor.
Qed.

Lemma order_by_cpu_time_desc_perm (l : list Request) :
  Permutation l (order_by_cpu_time_desc l).
Proof.
  induction l as [|r l IH]; simpl; [constructor|].
  eapply perm_trans; [|apply insert_cpu_desc_perm]. now constructor.
Qed.

Lemma insert_cpu_desc_sorted (r : Request) (l : list Request) :
  StronglySorted cpu_desc l -> StronglySorted cpu_desc (insert_cpu_desc r l).
Proof.
  induction 1 as [|x l Hs IH Hx]; simpl.
  - repeat constructor.
  - destruct (r_cpu_time x <? r_cpu_time r) eqn:E.
    + apply Z.ltb_lt in E. constructor; [now constructor|].
      constructor; [unfold cpu_desc; lia|].
      eapply Forall_impl; [|exact Hx]. unfold cpu_desc. intros; lia.
    + apply Z.ltb_ge in E. constructor; [exact IH|].
      eapply Permutation_Forall; [apply insert_cpu_desc_perm|].
      constructor; [exact E | exact Hx].
Qed.

Lemma order_by_cpu_time_desc_sorted (l : list Request) :
  StronglySorted cpu_desc (order_by_cpu_time_desc l).
Proof.
  induction l as [|r l IH]; simpl; [constructor|].
  now apply insert_cpu_desc_sorted.
Qed.

Lemma active_select_sorted (l : list Request) :
  StronglySorted cpu_desc l ->
  StronglySorted (fun a b => q_cpu_time b <= q_cpu_time a) (map active_select l).
Proof.
  induction 1 as [|x l Hs IH Hx]; simpl; constructor; [exact IH|].
  apply Forall_map. exact Hx.
Qed.

Lemma get_active_queries_rows (srv : Server) (w w' : World) (rows : list ActiveRow) :
  get_active_queries srv w = (Ok rows, w') ->
  exists tbl, requests_active srv = Ok tbl /\ rows = active_query tbl.
Proof.
  unfold get_active_queries. unfold_monad. simpl.
  destruct (requests_active srv) as [tbl|e]; [|discriminate].
  intros [= <- _]. now exists tbl.
Qed.

(** C5: every row that [get_active_queries] returns has a session id above
    50, the reserved range of system sessions; the rows are exactly the
    selected requests, in non-increasing order of cpu_time.  Rows of equal
    cpu_time have no position of their own: two scans of the same requests
    can come back in two different orders. *)
Theorem active_queries_filtered_and_ordered
  (srv : Server) (w w' : World) (rows : list ActiveRow) :
  get_active_queries srv w = (Ok rows, w') ->
  Forall (fun q => 50 < q_session_id q) rows /\
  StronglySorted (fun a b => q_cpu_time b <= q_cpu_time a) rows /\
  (exists tbl,
      requests_active srv = Ok tbl /\
      Permutation rows
        (map active_select (filter (fun r => 50 <? r_session_id r) tbl))) /\
  (exists scan1 scan2,
      Permutation scan1 scan2 /\ active_query scan1 <> active_query scan2).
Proof.
  intros H. destruct (get_active_queries_rows _ _ _ _ H) as (tbl & Htbl & ->).
  unfold active_query.
  set (sel := filter (fun r => 50 <? r_session_id r) tbl).
  assert (Hperm : Permutation (map active_select (order_by_cpu_time_desc sel))
                    (map active_select sel)).
  { apply Permutation_map, Permutation_sym, order_by_cpu_time_desc_perm. }
  split; [|split; [|split]].
  - eapply Permutation_Forall; [apply Permutation_sym, Hperm|].
    apply Forall_map. subst sel. apply Forall_forall. intros r Hr.
    apply filter_In in Hr. destruct Hr as [_ Hr]. simpl. now apply Z.ltb_lt.
  - apply active_select_sorted, order_by_cpu_time_desc_sorted.
  - exists tbl. split; [exact Htbl | exact Hperm].
  - exists [Sample.req 51 5 0 None; Sample.req 52 5 0 None],
           [Sample.req 52 5 0 None; Sample.req 51 5 0 None].
    split; [apply perm_swap | vm_compute; discriminate].
Qed.

Lemma active_queries_filtered_and_ordered_witness :
  let rows := active_query Sample.requests in
  Forall (fun q => 50 < q_session_id q) rows /\
  StronglySorted (fun a b => q_cpu_time b <= q_cpu_time a) rows.
Proof.
  intro rows.
  destruct (active_queries_filtered_and_ordered Sample.healthy Sample.w0
              (snd (get_active_queries Sample.healthy Sample.w0)) rows eq_refl)
    as (H1 & H2 & _).
  split; [exact H1 | exact H2].
Defined.

(** ** What a computation may do to the world *)

Section Frames.

Variable P : Z * Event -> Prop.
Variable lat : Z.

Lemma evolves_refl (w : World) : evolves P lat w w.
Proof.
  exists [], [], 0%nat. rewrite !app_nil_r. simpl.
  repeat split; auto; lia.
Qed.

Lemma evolves_trans (w1 w2 w3 : World) :
  evolves P lat w1 w2 -> evolves P lat w2 w3 -> evolves P lat w1 w3.
Proof.
  intros (o1 & e1 & k1 & Ho1 & He1 & Hc1 & Hn1 & Hp1)
         (o2 & e2 & k2 & Ho2 & He2 & Hc2 & Hn2 & Hp2).
  exists (o1 ++ o2)%list, (e1 ++ e2)%list, (k1 + k2)%nat.
  rewrite Ho2, Ho1, He2, He1, Hc2, Hc1, !app_assoc.
  repeat split; try apply Forall_app; auto.
  rewrite Nat2Z.inj_add. ring.
Qed.

Lemma frames_ret {A} (a : A) : frames P lat (ret a).
Proof. intros w. apply evolves_refl. Qed.

Lemma frames_raise {A} (e : exn) : frames P lat (@raise A e).
Proof. intros w. apply evolves_refl. Qed.

Lemma frames_lift {A} (r : result A) : frames P lat (lift r).
Proof. intros w. apply evolves_refl. Qed.

Lemma frames_time_time : frames P lat time_time.
Proof. intros w. apply evolves_refl. Qed.

Lemma frames_bind {A B} (m : M A) (k : A -> M B) :
  frames P lat m -> (forall a, frames P lat (k a)) -> frames P lat (bind m k).
Proof.
  intros Hm Hk w. unfold bind. specialize (Hm w).
  destruct (m w) as [[a|e] w1]; simpl in *; [|exact Hm].
  eapply evolves_trans; [exact Hm | apply Hk].
Qed.

Lemma frames_print (s : string) : not_stop s -> frames P lat (print s).
Proof.
  intros Hs w. exists [s], [], 0%nat. simpl. rewrite app_nil_r.
  repeat split; auto; lia.
Qed.

Lemma frames_log (ev : Event) :
  (forall t, P (t, ev)) -> frames P lat (log ev).
Proof.
  intros Hev w. exists [], [(clock w, ev)], 0%nat. simpl. rewrite app_nil_r.
  repeat split; auto; lia.
Qed.

Lemma frames_tick : frames P lat (tick lat).
Proof.
  intros w. exists [], [], 1%nat. unfold tick.
  cbn [snd clock stdout trace]. rewrite !app_nil_r.
  repeat split; auto. lia.
Qed.

Lemma frames_for_each {A} (xs : list A) (body : A -> M unit) :
  (forall x, frames P lat (body x)) -> frames P lat (for_each xs body).
Proof.
  intros Hb. induction xs as [|x xs IH]; simpl.
  - apply frames_ret.
  - apply frames_bind; auto.
Qed.

Lemma frames_try (body : M unit) (handler : exn -> M unit) :
  frames P lat body -> (forall e, frames P lat (handler e)) ->
  frames P lat (try_except_Exception body handler).
Proof.
  intros Hb Hh w. unfold try_except_Exception. specialize (Hb w).
  destruct (body w) as [[u|[cls msg|]] w1]; simpl in *; try exact Hb.
  eapply evolves_trans; [exact Hb | apply Hh].
Qed.

End Frames.

Lemma evolves_weaken (P Q : Z * Event -> Prop) (lat : Z) (w w' : World) :
  (forall te, P te -> Q te) -> evolves P lat w w' -> evolves Q lat w w'.
Proof.
  intros HPQ (o & e & k & Ho & He & Hc & Hn & Hp).
  exists o, e, k. repeat split; auto. eapply Forall_impl; eauto.
Qed.

Lemma calm_ret {A} (a : A) : calm (ret a).
Proof. intros w; discriminate. Qed.

Lemma calm_print (s : string) : calm (print s).
Proof. intros w; discriminate. Qed.

Lemma calm_log (ev : Event) : calm (log ev).
Proof. intros w; discriminate. Qed.

Lemma calm_tick (d : Z) : calm (tick d).
Proof. intros w; discriminate. Qed.

Lemma calm_time_time : calm time_time.
Proof. intros w; discriminate. Qed.

Lemma calm_lift {A} (r : result A) : r <> Raise KeyboardInterrupt -> calm (lift r).
Proof. intros H w; exact H. Qed.

Lemma calm_raise {A} (cls msg : string) : calm (@raise A (PyException cls msg)).
Proof. intros w; discriminate. Qed.

Lemma calm_bind {A B} (m : M A) (k : A -> M B) :
  calm m -> (forall a, calm (k a)) -> calm (bind m k).
Proof.
  intros Hm Hk w. unfold bind. specialize (Hm w).
  destruct (m w) as [[a|e] w1]; simpl in *; [apply Hk|].
  intros [= ->]. now apply Hm.
Qed.

Lemma calm_for_each {A} (xs : list A) (body : A -> M unit) :
  (forall x, calm (body x)) -> calm (for_each xs body).
Proof.
  intros Hb. induction xs as [|x xs IH]; simpl.
  - apply calm_ret.
  - apply calm_bind; auto.
Qed.

(** ** No line of a cycle is the stop message *)

Lemma not_stop_first (c : ascii) (s : string) :
  c <> ascii_of_nat 10 -> not_stop (String c s).
Proof. intros Hc [= E]. now apply Hc. Qed.

Lemma not_stop_second (c : ascii) (s : string) :
  c <> ascii_of_nat 10 -> not_stop (nl ++ String c s).
Proof. intros Hc [= E]. now apply Hc. Qed.

Lemma str_int_head (z : Z) :
  exists c s, str_int z = String c s /\ c <> ascii_of_nat 10.
Proof.
  unfold str_int, NilZero.string_of_int.
  destruct (Z.to_int z) as [d|d]; [destruct d|]; simpl;
    eexists; eexists; (split; [reflexivity|]);
    intros H; vm_compute in H; discriminate H.
Qed.

Lemma not_stop_ljust_int (n : nat) (z : Z) (rest : string) :
  not_stop (ljust n (str_int z) ++ rest).
Proof.
  destruct (str_int_head z) as (c & s & E & Hc).
  rewrite E. unfold ljust. simpl. now apply not_stop_first.
Qed.

Lemma not_stop_queries_line (q : ActiveRow) (line : string) :
  queries_line q = Ok line -> not_stop line.
Proof.
  unfold queries_line.
  destruct (fmt_opt_int 10 (q_blocking_session_id q)); [|discriminate].
  intros [= <-]. apply not_stop_ljust_int.
Qed.

Lemma not_stop_blocking_line (b : BlockingRow) (line : string) :
  blocking_line b = Ok line -> not_stop line.
Proof.
  unfold blocking_line. destruct (fmt_opt_str 20 (b_wait_type b)); [|discriminate].
  intros [= <-]. apply not_stop_ljust_int.
Qed.

Lemma not_stop_error_line (e : exn) : not_stop (error_line e).
Proof. unfold error_line. simpl. apply not_stop_second. discriminate. Qed.

Lemma not_stop_refreshing_line (interval : Z) : not_stop (refreshing_line interval).
Proof. unfold refreshing_line. simpl. apply not_stop_second. discriminate. Qed.

Ltac solve_not_stop :=
  first
    [ apply not_stop_error_line
    | apply not_stop_refreshing_line
    | simpl; apply not_stop_second; discriminate
    | simpl; apply not_stop_first; discriminate
    | vm_compute; discriminate ].

(** ** What the pieces of a cycle do *)

Section CycleFrames.

Variable P : Z * Event -> Prop.
Variable lat : Z.

Lemma frames_getattr {A} (cpu : option CpuRow) (name : string) (field : CpuRow -> A) :
  frames P lat (getattr cpu name field).
Proof. destruct cpu; [apply frames_ret | apply frames_raise]. Qed.

Lemma frames_display_header (env : Env) : frames P lat (display_header env).
Proof.
  unfold display_header.
  repeat (apply frames_bind; [|intros]);
    try apply frames_time_time; apply frames_print; solve_not_stop.
Qed.

Lemma frames_display_cpu (cpu : option CpuRow) : frames P lat (display_cpu cpu).
Proof.
  unfold display_cpu.
  repeat (apply frames_bind; [|intros]);
    try apply frames_getattr; apply frames_print; solve_not_stop.
Qed.

Lemma frames_display_queries (queries : list ActiveRow) :
  frames P lat (display_queries queries).
Proof.
  unfold display_queries. apply frames_bind; [apply frames_print; solve_not_stop|].
  intros _. destruct queries as [|q qs]; [apply frames_print; solve_not_stop|].
  repeat (apply frames_bind; [apply frames_print; solve_not_stop | intros _]).
  apply frames_for_each. intros x w. unfold bind, lift.
  destruct (queries_line x) as [line|e] eqn:E; [|apply evolves_refl].
  apply frames_print. eapply not_stop_queries_line; eauto.
Qed.

Lemma frames_display_blocking (blocking : list BlockingRow) :
  frames P lat (display_blocking blocking).
Proof.
  unfold display_blocking. apply frames_bind; [apply frames_print; solve_not_stop|].
  intros _. destruct blocking as [|b bs]; [apply frames_print; solve_not_stop|].
  repeat (apply frames_bind; [apply frames_print; solve_not_stop | intros _]).
  apply frames_for_each. intros x w. unfold bind, lift.
  destruct (blocking_line x) as [line|e] eqn:E; [|apply evolves_refl].
  apply frames_print. eapply not_stop_blocking_line; eauto.
Qed.

End CycleFrames.

Lemma cycle_body_unfold (env : Env) (srv : Server) :
  cycle_body env srv = (get_connection srv ;;; cycle_rest env srv).
Proof. reflexivity. Qed.

Lemma frames_cycle_rest (env : Env) (srv : Server) :
  frames inner_event (latency srv) (cycle_rest env srv).
Proof.
  unfold cycle_rest, conn_cursor, conn_close, get_cpu_usage,
    get_active_queries, get_blocking.
  repeat first [ apply frames_display_header
               | apply frames_display_cpu
               | apply frames_display_queries
               | apply frames_display_blocking
               | apply frames_log; intros; exact I
               | apply frames_tick
               | apply frames_lift
               | apply frames_ret
               | apply frames_bind; [|intros] ].
Qed.

Lemma cycle_body_shape (env : Env) (srv : Server) (w : World) :
  cycle_shape (latency srv) w (snd (cycle_body env srv w)).
Proof.
  rewrite cycle_body_unfold. unfold get_connection.
  unfold bind at 1. unfold bind at 1. unfold log at 1. unfold bind at 1.
  unfold tick at 1. unfold lift at 1. cbn [clock stdout trace].
  set (w1 := mkWorld (clock w + latency srv) (stdout w)
               (trace w ++ [(clock w, EvConnect)])).
  destruct (connect srv) as [u|e].
  - destruct (frames_cycle_rest env srv w1)
      as (out & evs & k & Ho & He & Hc & Hn & Hi).
    exists out, evs, (S k). rewrite Ho, He, Hc. subst w1. simpl stdout.
    simpl trace. simpl clock. rewrite app_assoc1.
    repeat split; auto. rewrite Nat2Z.inj_succ. ring.
  - exists [], [], 1%nat. subst w1. cbn [snd stdout trace clock].
    rewrite app_nil_r. repeat split; auto. lia.
Qed.

Lemma cycle_shape_print (lat : Z) (w w' : World) (s : string) :
  not_stop s -> cycle_shape lat w w' -> cycle_shape lat w (snd (print s w')).
Proof.
  intros Hs (out & evs & k & Ho & He & Hc & Hn & Hi).
  exists (out ++ [s])%list, evs, k. unfold print. cbn [snd stdout trace clock].
  rewrite Ho, app_assoc. repeat split; auto.
  apply Forall_app. split; auto.
Qed.

Lemma monitor_once_shape (env : Env) (w : World) :
  cycle_shape (latency (server_at env (clock w))) w (snd (monitor_once env w)).
Proof.
  unfold monitor_once, try_except_Exception.
  pose proof (cycle_body_shape env (server_at env (clock w)) w) as H.
  destruct (cycle_body env (server_at env (clock w)) w) as [[u|[cls msg|]] w1];
    simpl in H; try exact H.
  apply cycle_shape_print; [apply not_stop_error_line | exact H].
Qed.

(** Whatever happens in the cycle, [monitor_once] either returns or lets a
    KeyboardInterrupt through. *)
Lemma monitor_once_result (env : Env) (w : World) :
  fst (monitor_once env w) = Ok tt \/
  fst (monitor_once env w) = Raise KeyboardInterrupt.
Proof.
  unfold monitor_once, try_except_Exception.
  destruct (cycle_body env (server_at env (clock w)) w) as [[[]|[cls msg|]] w1];
    simpl; auto.
Qed.

(** ** Cycles that no Ctrl+C reaches *)

Lemma cpu_query_calm (tbl : list RingRecord) :
  cpu_query tbl <> Raise KeyboardInterrupt.
Proof.
  unfold cpu_query, cpu_select, sql_sub.
  destruct (top1_record_id_desc tbl) as [r|]; [|discriminate].
  destruct (rb_SystemIdle r) as [i|]; destruct (rb_SQLProcessUtilization r) as [s|];
    repeat match goal with
           | |- context [if ?b then _ else _] => destruct b
           end; discriminate.
Qed.

Lemma blocking_line_calm (b : BlockingRow) :
  blocking_line b <> Raise KeyboardInterrupt.
Proof.
  unfold blocking_line, fmt_opt_str. destruct (b_wait_type b); discriminate.
Qed.

Lemma queries_line_calm (q : ActiveRow) :
  queries_line q <> Raise KeyboardInterrupt.
Proof.
  unfold queries_line, fmt_opt_int.
  destruct (q_blocking_session_id q); discriminate.
Qed.

Lemma calm_getattr {A} (cpu : option CpuRow) (name : string) (field : CpuRow -> A) :
  calm (getattr cpu name field).
Proof. destruct cpu; [apply calm_ret | apply calm_raise]. Qed.

Lemma calm_display_header (env : Env) : calm (display_header env).
Proof.
  unfold display_header.
  repeat first [ apply calm_print | apply calm_time_time
               | apply calm_bind; [|intros] ].
Qed.

Lemma calm_display_cpu (cpu : option CpuRow) : calm (display_cpu cpu).
Proof.
  unfold display_cpu.
  repeat first [ apply calm_print | apply calm_getattr
               | apply calm_bind; [|intros] ].
Qed.

Lemma calm_display_queries (queries : list ActiveRow) : calm (display_queries queries).
Proof.
  unfold display_queries. apply calm_bind; [apply calm_print|]. intros _.
  destruct queries; [apply calm_print|].
  repeat (apply calm_bind; [apply calm_print | intros _]).
  apply calm_for_each. intros x. apply calm_bind.
  - apply calm_lift, queries_line_calm.
  - intros line. apply calm_print.
Qed.

Lemma calm_display_blocking (blocking : list BlockingRow) :
  calm (display_blocking blocking).
Proof.
  unfold display_blocking. apply calm_bind; [apply calm_print|]. intros _.
  destruct blocking; [apply calm_print|].
  repeat (apply calm_bind; [apply calm_print | intros _]).
  apply calm_for_each. intros x. apply calm_bind.
  - apply calm_lift, blocking_line_calm.
  - intros line. apply calm_print.
Qed.

Lemma calm_cycle_body (env : Env) (srv : Server) :
  quiet_server srv -> calm (cycle_body env srv).
Proof.
  intros (Hc & Hcu & Hrb & Hra & Hrk & Hcl).
  unfold cycle_body, get_connection, conn_cursor, conn_close, get_cpu_usage,
    get_active_queries, get_blocking.
  repeat first [ apply calm_display_header
               | apply calm_display_cpu
               | apply calm_display_queries
               | apply calm_display_blocking
               | apply calm_log
               | apply calm_tick
               | apply calm_ret
               | apply calm_lift; first [assumption | apply cpu_query_calm]
               | apply calm_bind; [|intros] ].
Qed.

Lemma monitor_once_quiet (env : Env) (w : World) :
  quiet_server (server_at env (clock w)) ->
  fst (monitor_once env w) = Ok tt.
Proof.
  intros Hq. destruct (monitor_once_result env w) as [H|H]; [exact H|].
  exfalso. revert H. unfold monitor_once, try_except_Exception.
  pose proof (calm_cycle_body env _ Hq w) as Hcalm.
  destruct (cycle_body env (server_at env (clock w)) w) as [[u|[cls msg|]] w1];
    simpl in *; try discriminate. intros _. now apply Hcalm.
Qed.

(** ** Sleeping *)

Lemma time_sleep_done (env : Env) (secs : Z) (w : World) :
  0 <= secs ->
  sleep_interrupt env (clock w) = None ->
  time_sleep env secs w
  = (Ok tt, mkWorld (clock w + secs) (stdout w)
              (trace w ++ [(clock w, EvSleep secs)])).
Proof.
  intros Hs Hi. unfold time_sleep. unfold_monad.
  destruct (secs <? 0) eqn:E; [apply Z.ltb_lt in E; lia|].
  cbn [clock stdout trace]. rewrite Hi. reflexivity.
Qed.

Lemma time_sleep_interrupted (env : Env) (secs d : Z) (w : World) :
  0 <= d < secs ->
  sleep_interrupt env (clock w) = Some d ->
  time_sleep env secs w
  = (Raise KeyboardInterrupt,
     mkWorld (clock w + d) (stdout w)
       (trace w ++ [(clock w, EvSleep secs); (clock w + d, EvInterrupt)])).
Proof.
  intros Hd Hi. unfold time_sleep. unfold_monad.
  destruct (secs <? 0) eqn:E; [apply Z.ltb_lt in E; lia|].
  cbn [clock stdout trace]. rewrite Hi.
  replace ((0 <=? d) && (d <? secs)) with true
    by (symmetry; apply andb_true_iff; split;
        [apply Z.leb_le | apply Z.ltb_lt]; lia).
  cbn [clock stdout trace]. now rewrite app_assoc1.
Qed.

(** A sleep prints nothing; it either leaves one [EvSleep] in the trace or,
    cut short by Ctrl+C, an [EvSleep] and the [EvInterrupt] that ended it. *)
Lemma time_sleep_cases (env : Env) (secs : Z) (w : World) :
  let r := fst (time_sleep env secs w) in
  let w' := snd (time_sleep env secs w) in
  stdout w' = stdout w /\
  ((r <> Raise KeyboardInterrupt /\
    trace w' = (trace w ++ [(clock w, EvSleep secs)])%list) \/
   (r = Raise KeyboardInterrupt /\
    trace w' = (trace w ++ [(clock w, EvSleep secs); (clock w', EvInterrupt)])%list)).
Proof.
  unfold time_sleep. unfold_monad.
  destruct (secs <? 0); [simpl; split; [reflexivity|left; split; [discriminate|reflexivity]]|].
  cbn [clock stdout trace].
  destruct (sleep_interrupt env (clock w)) as [d|];
    [destruct ((0 <=? d) && (d <? secs))|]; cbn [fst snd clock stdout trace];
    (split; [reflexivity|]).
  - right. split; [reflexivity|]. now rewrite app_assoc1.
  - left. split; [discriminate|reflexivity].
  - left. split; [discriminate|reflexivity].
Qed.

Lemma filter_connect_inner (evs : list (Z * Event)) :
  Forall inner_event evs -> filter is_connect evs = [].
Proof.
  induction 1 as [|[t ev] evs Hx Hs IH]; [reflexivity|].
  simpl. unfold inner_event, is_connect in *. simpl in *.
  destruct ev; try contradiction; exact IH.
Qed.

(** One iteration of the loop when no Ctrl+C arrives and the driver calls
    take no time: the cycle runs at the current time, by whatever branch, and
    the clock moves on by the interval. *)
Lemma loop_body_quiet (env : Env) (interval : Z) (w : World) :
  0 <= interval ->
  latency (server_at env (clock w)) = 0 ->
  quiet_server (server_at env (clock w)) ->
  sleep_interrupt env (clock w) = None ->
  exists w1 evs,
    loop_body env interval w = (Ok tt, w1) /\
    clock w1 = clock w + interval /\
    trace w1 = (trace w ++ evs)%list /\
    filter is_connect evs = [(clock w, EvConnect)].
Proof.
  intros Hi Hlat Hq Hs. unfold loop_body.
  pose proof (monitor_once_quiet env w Hq) as Hr.
  pose proof (monitor_once_shape env w) as (out & evs & k & Ho & He & Hc & Hn & Hin).
  rewrite Hlat, Z.mul_0_r, Z.add_0_r in Hc.
  unfold bind at 1. destruct (monitor_once env w) as [r wa].
  simpl in Hr, Ho, He, Hc. subst r.
  unfold bind at 1. unfold print at 1.
  set (wb := mkWorld (clock wa) (stdout wa ++ [refreshing_line interval]) (trace wa)).
  assert (Hsb : sleep_interrupt env (clock wb) = None) by (simpl; now rewrite Hc).
  rewrite (time_sleep_done env interval wb Hi Hsb).
  eexists. exists (((clock w, EvConnect) :: evs) ++ [(clock w, EvSleep interval)])%list.
  split; [reflexivity|]. subst wb. cbn [clock stdout trace].
  rewrite Hc, He. split; [reflexivity|]. split; [now rewrite app_assoc|].
  rewrite filter_app. simpl. now rewrite filter_connect_inner.
Qed.

(** ** The loop of [monitor_continuous] *)

Lemma while_loop_step (env : Env) (interval end_time : Z) (fuel : nat) (w w1 : World) :
  clock w < end_time ->
  loop_body env interval w = (Ok tt, w1) ->
  while_loop env interval end_time (S fuel) w
  = while_loop env interval end_time fuel w1.
Proof.
  intros Hlt Hb. simpl. rewrite Hb.
  now replace (clock w <? end_time) with true by (symmetry; now apply Z.ltb_lt).
Qed.

Lemma while_loop_raise (env : Env) (interval end_time : Z) (fuel : nat)
  (w w1 : World) (e : exn) :
  clock w < end_time ->
  loop_body env interval w = (Raise e, w1) ->
  while_loop env interval end_time (S fuel) w = Some (Raise e, w1).
Proof.
  intros Hlt Hb. simpl. rewrite Hb.
  now replace (clock w <? end_time) with true by (symmetry; now apply Z.ltb_lt).
Qed.

Lemma while_loop_stop (env : Env) (interval end_time : Z) (fuel : nat) (w : World) :
  end_time <= clock w ->
  while_loop env interval end_time fuel w = Some (Ok tt, w).
Proof.
  intros Hge. destruct fuel; simpl;
    now replace (clock w <? end_time) with false by (symmetry; now apply Z.ltb_ge).
Qed.

Lemma monitor_continuous_unfold (env : Env) (interval duration : Z) (fuel : nat)
  (w : World) :
  monitor_continuous env interval duration fuel w
  = match while_loop env interval (clock w + duration) fuel
            (announced interval duration w) with
    | Some (Raise KeyboardInterrupt, w2) => Some (print stopped_line w2)
    | other => other
    end.
Proof.
  unfold monitor_continuous, announced. unfold_monad. cbn [clock stdout trace].
  now rewrite app_assoc1.
Qed.

(** C3: [monitor_continuous] fixes the deadline at the start time plus the
    duration; each turn of the loop tests the clock against the deadline and,
    below it, runs one cycle, prints the refresh notice and sleeps for the
    interval.  With interval 5 and duration 12, cycles that take no time and
    no Ctrl+C, the run ends normally after exactly three cycles, started at
    t, t+5 and t+10, when the test at t+15 fails. *)
Theorem three_cycles_for_interval_5_duration_12
  (env : Env) (interval duration : Z) (fuel : nat) (w : World) :
  monitor_continuous env interval duration fuel w
  = match while_loop env interval (clock w + duration) fuel
            (announced interval duration w) with
    | Some (Raise KeyboardInterrupt, w2) => Some (print stopped_line w2)
    | other => other
    end /\
  (forall end_time f v,
      while_loop env interval end_time (S f) v
      = if clock v <? end_time
        then match (monitor_once env ;;;
                    print (refreshing_line interval) ;;;
                    time_sleep env interval) v with
             | (Ok _, v') => while_loop env interval end_time f v'
             | (Raise e, v') => Some (Raise e, v')
             end
        else Some (Ok tt, v)) /\
  (interval = 5 -> duration = 12 ->
   (forall t, latency (server_at env t) = 0) ->
   (forall t, quiet_server (server_at env t)) ->
   (forall t, sleep_interrupt env t = None) ->
   (3 <= fuel)%nat ->
   exists w' evs,
     monitor_continuous env interval duration fuel w = Some (Ok tt, w') /\
     clock w' = clock w + 15 /\
     trace w' = (trace w ++ evs)%list /\
     filter is_connect evs
     = [(clock w, EvConnect); (clock w + 5, EvConnect); (clock w + 10, EvConnect)]).
Proof.
  split; [apply monitor_continuous_unfold|]. split; [reflexivity|].
  intros -> -> Hlat Hq Hs Hfuel.
  rewrite monitor_continuous_unfold.
  set (w0 := announced 5 12 w).
  assert (Hc0 : clock w0 = clock w) by reflexivity.
  assert (Ht0 : trace w0 = trace w) by reflexivity.
  destruct (loop_body_quiet env 5 w0 ltac:(lia) (Hlat _) (Hq _) (Hs _))
    as (w1 & e1 & Hb1 & Hc1 & Ht1 & Hf1).
  destruct (loop_body_quiet env 5 w1 ltac:(lia) (Hlat _) (Hq _) (Hs _))
    as (w2 & e2 & Hb2 & Hc2 & Ht2 & Hf2).
  destruct (loop_body_quiet env 5 w2 ltac:(lia) (Hlat _) (Hq _) (Hs _))
    as (w3 & e3 & Hb3 & Hc3 & Ht3 & Hf3).
  destruct fuel as [|[|[|f]]]; try lia.
  rewrite (while_loop_step env 5 (clock w + 12) _ w0 w1 ltac:(lia) Hb1).
  rewrite (while_loop_step env 5 (clock w + 12) _ w1 w2 ltac:(lia) Hb2).
  rewrite (while_loop_step env 5 (clock w + 12) _ w2 w3 ltac:(lia) Hb3).
  rewrite (while_loop_stop env 5 (clock w + 12) _ w3 ltac:(lia)).
  exists w3, (e1 ++ e2 ++ e3)%list.
  split; [reflexivity|]. split; [lia|]. split.
  - rewrite Ht3, Ht2, Ht1, Ht0. now rewrite <- !app_assoc.
  - rewrite !filter_app, Hf1, Hf2, Hf3, Hc2, Hc1, Hc0. simpl.
    now replace (clock w + 5 + 5) with (clock w + 10) by lia.
Qed.

Lemma three_cycles_for_interval_5_duration_12_witness :
  exists w' evs,
    monitor_continuous (Sample.env_of Sample.healthy) 5 12 3 Sample.w0
    = Some (Ok tt, w') /\
    clock w' = 15 /\
    trace w' = evs /\
    filter is_connect evs = [(0, EvConnect); (5, EvConnect); (10, EvConnect)].
Proof.
  assert (Hq : forall t : Z,
             quiet_server (server_at (Sample.env_of Sample.healthy) t))
    by (intros t; repeat split; discriminate).
  exact (proj2 (proj2 (three_cycles_for_interval_5_duration_12
                         (Sample.env_of Sample.healthy) 5 12 3 Sample.w0))
           eq_refl eq_refl (fun _ => eq_refl) Hq (fun _ => eq_refl)
           (le_n 3)).
Defined.

(** ** Where a run can be interrupted *)

Lemma inner_event_benign (te : Z * Event) : inner_event te -> benign te.
Proof.
  destruct te as [t ev]. unfold inner_event, benign. simpl.
  destruct ev; try contradiction; discriminate.
Qed.

Lemma cycle_shape_benign (lat : Z) (w w' : World) :
  cycle_shape lat w w' ->
  exists out evs,
    stdout w' = (stdout w ++ out)%list /\ trace w' = (trace w ++ evs)%list /\
    Forall not_stop out /\ Forall benign evs.
Proof.
  intros (out & evs & k & Ho & He & _ & Hn & Hi).
  exists out, ((clock w, EvConnect) :: evs). repeat split; auto.
  constructor; [discriminate|].
  eapply Forall_impl; [apply inner_event_benign | exact Hi].
Qed.

Lemma loop_body_inv (env : Env) (interval : Z) (w : World)
  (r : result unit) (w' : World) :
  loop_body env interval w = (r, w') -> loop_trace_ok r w w'.
Proof.
  unfold loop_body, bind, print.
  destruct (cycle_shape_benign _ _ _ (monitor_once_shape env w))
    as (out & evs & Ho & He & Hn & Hb).
  destruct (monitor_once env w) as [[u|e] wa]; simpl in Ho, He.
  - set (wb := mkWorld (clock wa) (stdout wa ++ [refreshing_line interval]) (trace wa)).
    destruct (time_sleep_cases env interval wb) as (Hso & Hcases).
    destruct (time_sleep env interval wb) as [r1 wc]. simpl in Hso, Hcases.
    intros [= <- <-].
    exists (out ++ [refreshing_line interval])%list.
    assert (Hout : Forall not_stop (out ++ [refreshing_line interval])).
    { apply Forall_app. split; auto. constructor; auto.
      apply not_stop_refreshing_line. }
    destruct Hcases as [(Hr & Ht) | (Hr & Ht)].
    + exists (evs ++ [(clock wa, EvSleep interval)])%list.
      rewrite Hso, Ht, Ho, He, !app_assoc. repeat split; auto.
      left. apply Forall_app. split; auto. constructor; auto. discriminate.
    + exists (evs ++ [(clock wa, EvSleep interval); (clock wc, EvInterrupt)])%list.
      rewrite Hso, Ht, Ho, He, !app_assoc. repeat split; auto.
      right. split; [exact Hr|].
      exists (evs ++ [(clock wa, EvSleep interval)])%list.
      split; [now rewrite <- !app_assoc|].
      apply Forall_app. split; auto. constructor; auto. discriminate.
  - intros [= <- <-]. exists out, evs. repeat split; auto.
Qed.

Lemma loop_trace_ok_trans (r : result unit) (w w1 w' : World) :
  loop_trace_ok (Ok tt) w w1 -> loop_trace_ok r w1 w' -> loop_trace_ok r w w'.
Proof.
  intros (o1 & e1 & Ho1 & He1 & Hn1 & Hd1) (o2 & e2 & Ho2 & He2 & Hn2 & Hd2).
  destruct Hd1 as [Hb1 | (Habs & _)]; [|discriminate Habs].
  exists (o1 ++ o2)%list, (e1 ++ e2)%list.
  rewrite Ho2, Ho1, He2, He1, !app_assoc.
  repeat split; auto; [apply Forall_app; split; auto|].
  destruct Hd2 as [Hb2 | (Hr & pre & Hpre & Hbp)].
  - left. apply Forall_app. split; auto.
  - right. split; [exact Hr|]. exists (e1 ++ pre)%list.
    split; [now rewrite Hpre, app_assoc|]. apply Forall_app. split; auto.
Qed.

Lemma while_loop_inv (env : Env) (interval end_time : Z) (fuel : nat) :
  forall w r w',
    while_loop env interval end_time fuel w = Some (r, w') ->
    loop_trace_ok r w w'.
Proof.
  induction fuel as [|fuel IH]; intros w r w'; simpl;
    destruct (clock w <? end_time).
  - discriminate.
  - intros [= <- <-]. exists [], []. rewrite !app_nil_r. repeat split; auto.
  - destruct (loop_body env interval w) as [[[]|e] w1] eqn:Hb;
      apply loop_body_inv in Hb.
    + intros H. apply IH in H. eapply loop_trace_ok_trans; eauto.
    + intros [= <- <-]. exact Hb.
  - intros [= <- <-]. exists [], []. rewrite !app_nil_r. repeat split; auto.
Qed.

Lemma benign_no_interrupt (evs pre post : list (Z * Event)) (t : Z) :
  Forall benign evs -> evs <> (pre ++ (t, EvInterrupt) :: post)%list.
Proof.
  intros Hb ->. apply Forall_app in Hb. destruct Hb as [_ Hb].
  inversion Hb as [|x l Hx _]; subst. now apply Hx.
Qed.

Lemma interrupt_is_last (pre' pre post : list (Z * Event)) (c t : Z) :
  Forall benign pre' ->
  (pre' ++ [(c, EvInterrupt)] = pre ++ (t, EvInterrupt) :: post)%list ->
  post = [] /\ t = c /\ pre = pre'.
Proof.
  revert pre. induction pre' as [|a l IH]; intros pre Hb E.
  - destruct pre as [|b pre]; simpl in E.
    + injection E as -> <-. auto.
    + injection E as _ E. destruct pre; discriminate E.
  - inversion Hb as [|x l' Ha Hl]; subst.
    destruct pre as [|b pre]; simpl in E.
    + injection E as -> _. exfalso. now apply Ha.
    + injection E as -> E. destruct (IH pre Hl E) as (-> & -> & ->). auto.
Qed.

Lemma count_not_stop (out : list string) :
  Forall not_stop out -> count_occ string_dec out stopped_line = 0%nat.
Proof.
  intros H. apply count_occ_not_In. intros Hin.
  rewrite Forall_forall in H. now apply (H _ Hin).
Qed.

Lemma not_stop_announcement (interval duration : Z) :
  Forall not_stop [starting_line interval duration; "Press Ctrl+C to stop" ++ nl].
Proof.
  repeat constructor.
  - unfold starting_line. simpl. apply not_stop_first. discriminate.
  - simpl. apply not_stop_first. discriminate.
Qed.

Lemma interrupt_ends_trace
  (env : Env) (interval duration : Z) (fuel : nat) (w w' : World)
  (r : result unit) (pre post : list (Z * Event)) (t : Z) :
  monitor_continuous env interval duration fuel w = Some (r, w') ->
  trace w' = (trace w ++ pre ++ (t, EvInterrupt) :: post)%list ->
  r = Ok tt /\
  post = [] /\
  t = clock w' /\
  Forall benign pre /\
  exists added,
    stdout w' = (stdout w ++ added ++ [stopped_line])%list /\
    count_occ string_dec (added ++ [stopped_line]) stopped_line = 1%nat.
Proof.
  rewrite monitor_continuous_unfold.
  destruct (while_loop env interval (clock w + duration) fuel
              (announced interval duration w)) as [[r2 w2]|] eqn:Hloop;
    [|discriminate].
  apply while_loop_inv in Hloop.
  destruct Hloop as (out & evs & Ho & He & Hn & Hd).
  unfold announced in Ho, He. cbn [stdout trace] in Ho, He.
  assert (Hkey : forall wf, trace wf = trace w2 ->
            trace wf = (trace w ++ pre ++ (t, EvInterrupt) :: post)%list ->
            r2 = Raise KeyboardInterrupt /\ post = [] /\ t = clock w2 /\
            Forall benign pre).
  { intros wf E1 E2. rewrite E1, He in E2. apply app_inv_head in E2.
    destruct Hd as [Hb | (Hr & p & Hp & Hbp)].
    - exfalso. eapply benign_no_interrupt; eauto.
    - rewrite Hp in E2. destruct (interrupt_is_last _ _ _ _ _ Hbp E2)
        as (-> & -> & ->). auto. }
  destruct r2 as [u|[cls msg|]].
  - intros [= <- <-] Ht. destruct (Hkey w2 eq_refl Ht) as (Habs & _).
    discriminate Habs.
  - intros [= <- <-] Ht. destruct (Hkey w2 eq_refl Ht) as (Habs & _).
    discriminate Habs.
  - unfold print. intros [= <- <-] Ht. cbn [clock stdout trace] in *.
    destruct (Hkey w2 eq_refl Ht) as (_ & Hpost & Htc & Hpre).
    repeat split; auto.
    exists ([starting_line interval duration;
             ("Press Ctrl+C to stop" ++ nl)%string] ++ out)%list.
    split.
    + rewrite Ho. now rewrite <- !app_assoc.
    + rewrite count_occ_app, count_not_stop.
      * simpl. destruct (string_dec stopped_line stopped_line); [reflexivity|congruence].
      * apply Forall_app. split; [apply not_stop_announcement | exact Hn].
Qed.

(** The turn of the loop in which Ctrl+C arrives during the sleep: the cycle
    runs, the refresh notice is printed, the sleep is entered and cut short,
    and the loop ends there in KeyboardInterrupt. *)
Lemma loop_body_interrupted (env : Env) (interval d : Z) (w : World) :
  quiet_server (server_at env (clock w)) ->
  sleep_interrupt env (clock (snd (monitor_once env w))) = Some d ->
  0 <= d < interval ->
  let wa := snd (monitor_once env w) in
  loop_body env interval w
  = (Raise KeyboardInterrupt,
     mkWorld (clock wa + d) (stdout wa ++ [refreshing_line interval])
       (trace wa ++ [(clock wa, EvSleep interval); (clock wa + d, EvInterrupt)])).
Proof.
  intros Hq Hs Hd wa. subst wa. unfold loop_body.
  pose proof (monitor_once_quiet env w Hq) as Hr.
  unfold bind at 1. destruct (monitor_once env w) as [r wa].
  cbn [fst snd] in *. subst r.
  unfold bind at 1. unfold print at 1.
  set (wb := mkWorld (clock wa) (stdout wa ++ [refreshing_line interval]) (trace wa)).
  now rewrite (time_sleep_interrupted env interval d wb Hd Hs).
Qed.

Lemma while_loop_interrupted (env : Env) (interval end_time d : Z) :
  0 < interval ->
  (forall t, latency (server_at env t) = 0) ->
  (forall t, quiet_server (server_at env t)) ->
  0 <= d < interval ->
  forall (k fuel : nat) (w : World),
    (forall c, (c < k)%nat ->
               sleep_interrupt env (clock w + Z.of_nat c * interval) = None) ->
    sleep_interrupt env (clock w + Z.of_nat k * interval) = Some d ->
    clock w + Z.of_nat k * interval < end_time ->
    (k < fuel)%nat ->
    exists w' out evs,
      while_loop env interval end_time fuel w
      = Some (Raise KeyboardInterrupt, w') /\
      clock w' = clock w + Z.of_nat k * interval + d /\
      trace w' = (trace w ++ evs ++ [(clock w', EvInterrupt)])%list /\
      Forall benign evs /\
      connect_times evs
      = map (fun c => clock w + Z.of_nat c * interval) (seq 0 (S k)) /\
      (exists t, In (t, EvSleep interval) evs) /\
      stdout w' = (stdout w ++ out)%list /\
      Forall not_stop out.
Proof.
  intros Hi Hlat Hq Hd.
  induction k as [|k IH]; intros fuel w Hnone Hsome Hend Hfuel;
    (destruct fuel as [|fuel]; [lia|]).
  - cbn [Z.of_nat] in Hsome, Hend. rewrite Z.mul_0_l, Z.add_0_r in Hsome, Hend.
    destruct (cycle_shape_benign _ _ _ (monitor_once_shape env w))
      as (out0 & evs0 & Ho & He & Hn & Hb).
    destruct (monitor_once_shape env w) as (_ & es & c & _ & He' & Hc & _ & Hin).
    rewrite Hlat, Z.mul_0_r, Z.add_0_r in Hc.
    assert (Hs : sleep_interrupt env (clock (snd (monitor_once env w))) = Some d)
      by now rewrite Hc.
    rewrite (while_loop_raise env interval end_time fuel w _ KeyboardInterrupt
               Hend (loop_body_interrupted env interval d w (Hq _) Hs Hd)).
    set (wa := snd (monitor_once env w)) in *.
    eexists. exists (out0 ++ [refreshing_line interval])%list,
      (((clock w, EvConnect) :: es) ++ [(clock wa, EvSleep interval)])%list.
    split; [reflexivity|]. cbn [clock stdout trace].
    split; [rewrite Hc; cbn [Z.of_nat]; lia|].
    split; [rewrite He'; now rewrite <- !app_assoc|].
    split.
    { apply Forall_app. split.
      - constructor; [discriminate|].
        eapply Forall_impl; [apply inner_event_benign | exact Hin].
      - constructor; [discriminate | constructor]. }
    split.
    { unfold connect_times. rewrite filter_app. cbn [filter is_connect snd].
      rewrite filter_connect_inner by exact Hin. cbn. f_equal. lia. }
    split.
    { exists (clock wa). apply in_or_app. right. now left. }
    split; [rewrite Ho; now rewrite <- app_assoc|].
    apply Forall_app. split; [exact Hn|].
    constructor; [apply not_stop_refreshing_line | constructor].
  - rewrite Nat2Z.inj_succ in Hsome, Hend.
    assert (Hk : 0 <= Z.of_nat k * interval)
      by (apply Z.mul_nonneg_nonneg; lia).
    assert (Hlt : clock w < end_time) by lia.
    assert (Hs0 : sleep_interrupt env (clock w) = None).
    { rewrite <- (Hnone 0%nat ltac:(lia)). f_equal. cbn [Z.of_nat]. lia. }
    destruct (loop_body_quiet env interval w ltac:(lia) (Hlat _) (Hq _) Hs0)
      as (w1 & e1 & Hb & Hc1 & Ht1 & Hf1).
    rewrite (while_loop_step env interval end_time fuel w w1 Hlt Hb).
    destruct (loop_body_inv env interval w _ _ Hb)
      as (o1 & e1' & Ho1 & Ht1' & Hn1 & Hd1).
    assert (e1' = e1) by (rewrite Ht1 in Ht1'; now apply app_inv_head in Ht1').
    subst e1'.
    assert (Hb1 : Forall benign e1).
    { destruct Hd1 as [H | (Habs & _)]; [exact H | discriminate Habs]. }
    destruct (IH fuel w1) as (w' & out & evs & Hrun & Hc & Ht & Hbn & Hct & Hsl & Ho & Hn).
    + intros c Hcl. rewrite Hc1.
      rewrite <- (Hnone (S c) ltac:(lia)). f_equal. rewrite Nat2Z.inj_succ. lia.
    + rewrite Hc1. rewrite <- Hsome. f_equal. lia.
    + rewrite Hc1. lia.
    + lia.
    + exists w', (o1 ++ out)%list, (e1 ++ evs)%list.
      split; [exact Hrun|].
      split; [rewrite Hc, Hc1; lia|].
      split; [rewrite Ht, Ht1; now rewrite <- !app_assoc|].
      split; [apply Forall_app; now split|].
      split.
      { unfold connect_times in *. rewrite filter_app, map_app, Hf1, Hct.
        change (seq 0 (S (S k))) with (0%nat :: seq 1 (S k)).
        cbn [app map fst]. rewrite <- seq_shift, map_map.
        f_equal; [lia|]. apply map_ext. intros c.
        rewrite Hc1, Nat2Z.inj_succ. lia. }
      split.
      { destruct Hsl as (t & Hin). exists t. apply in_or_app. now right. }
      split; [rewrite Ho, Ho1; now rewrite <- app_assoc|].
      apply Forall_app. now split.
Qed.

(** C4: a Ctrl+C delivered during the sleep of [monitor_continuous] stops the
    loop at once.  In the turn of the loop in which it arrives the cycle has
    run, the refresh notice is out and the sleep is cut short: the loop ends
    there in KeyboardInterrupt with the interrupt as its last event.  A run
    whose first k sleeps pass and whose next sleep is interrupted after d
    seconds returns normally at that moment: k+1 cycles were started, on
    schedule, no call of a further cycle follows the interrupt, and the stop
    message is the last line printed and occurs exactly once among the lines
    of the run.  And in any run whatever that returns, an interrupt in the
    trace is its last event. *)
Theorem interrupt_in_sleep_stops_loop
  (env : Env) (interval duration : Z) (w : World) :
  (forall end_time fuel d,
      clock w < end_time ->
      quiet_server (server_at env (clock w)) ->
      let wa := snd (monitor_once env w) in
      sleep_interrupt env (clock wa) = Some d ->
      0 <= d < interval ->
      while_loop env interval end_time (S fuel) w
      = Some (Raise KeyboardInterrupt,
              mkWorld (clock wa + d) (stdout wa ++ [refreshing_line interval])
                (trace wa ++ [(clock wa, EvSleep interval);
                              (clock wa + d, EvInterrupt)]))) /\
  (forall (k fuel : nat) d,
      0 < interval ->
      (forall t, latency (server_at env t) = 0) ->
      (forall t, quiet_server (server_at env t)) ->
      (forall c, (c < k)%nat ->
                 sleep_interrupt env (clock w + Z.of_nat c * interval) = None) ->
      sleep_interrupt env (clock w + Z.of_nat k * interval) = Some d ->
      0 <= d < interval ->
      Z.of_nat k * interval < duration ->
      (k < fuel)%nat ->
      exists w' added evs,
        monitor_continuous env interval duration fuel w = Some (Ok tt, w') /\
        clock w' = clock w + Z.of_nat k * interval + d /\
        trace w' = (trace w ++ evs ++ [(clock w', EvInterrupt)])%list /\
        Forall benign evs /\
        connect_times evs
        = map (fun c => clock w + Z.of_nat c * interval) (seq 0 (S k)) /\
        stdout w' = (stdout w ++ added ++ [stopped_line])%list /\
        count_occ string_dec (added ++ [stopped_line]) stopped_line = 1%nat) /\
  (forall fuel w' r pre post t,
      monitor_continuous env interval duration fuel w = Some (r, w') ->
      trace w' = (trace w ++ pre ++ (t, EvInterrupt) :: post)%list ->
      r = Ok tt /\
      post = [] /\
      t = clock w' /\
      Forall benign pre /\
      exists added,
        stdout w' = (stdout w ++ added ++ [stopped_line])%list /\
        count_occ string_dec (added ++ [stopped_line]) stopped_line = 1%nat).
Proof.
  split; [|split].
  - intros end_time fuel d Hlt Hq wa Hs Hd.
    apply while_loop_raise; [exact Hlt|].
    now apply loop_body_interrupted.
  - intros k fuel d Hi Hlat Hq Hnone Hsome Hd Hdur Hfuel.
    rewrite monitor_continuous_unfold.
    destruct (while_loop_interrupted env interval (clock w + duration) d
                Hi Hlat Hq Hd k fuel (announced interval duration w))
      as (w' & out & evs & Hrun & Hc & Ht & Hbn & Hct & _ & Ho & Hn).
    + exact Hnone.
    + exact Hsome.
    + simpl. lia.
    + exact Hfuel.
    + rewrite Hrun. unfold print.
      eexists. exists ([starting_line interval duration;
                        ("Press Ctrl+C to stop" ++ nl)%string] ++ out)%list, evs.
      split; [reflexivity|]. cbn [clock stdout trace].
      split; [exact Hc|]. split; [exact Ht|]. split; [exact Hbn|].
      split; [exact Hct|]. split.
      * rewrite Ho. unfold announced. cbn [stdout]. now rewrite <- !app_assoc.
      * rewrite count_occ_app, count_not_stop.
        -- simpl. destruct (string_dec stopped_line stopped_line);
             [reflexivity|congruence].
        -- apply Forall_app. split; [apply not_stop_announcement | exact Hn].
  - intros fuel w' r pre post t. apply interrupt_ends_trace.
Qed.

Lemma interrupt_in_sleep_stops_loop_witness :
  exists w' added evs,
    monitor_continuous Sample.env_interrupt_at_7 5 12 5 Sample.w0
    = Some (Ok tt, w') /\
    clock w' = 7 /\
    trace w' = (evs ++ [(clock w', EvInterrupt)])%list /\
    Forall benign evs /\
    connect_times evs = [0; 5] /\
    stdout w' = (added ++ [stopped_line])%list /\
    count_occ string_dec (added ++ [stopped_line]) stopped_line = 1%nat.
Proof.
  assert (Hq : forall t : Z, quiet_server (server_at Sample.env_interrupt_at_7 t))
    by (intros t; repeat split; discriminate).
  assert (Hnone : forall c, (c < 1)%nat ->
            sleep_interrupt Sample.env_interrupt_at_7
              (clock Sample.w0 + Z.of_nat c * 5) = None)
    by (intros [|c] Hc; [reflexivity | lia]).
  exact (proj1 (proj2 (interrupt_in_sleep_stops_loop
                         Sample.env_interrupt_at_7 5 12 Sample.w0))
           1%nat 5%nat 2 eq_refl (fun _ => eq_refl) Hq Hnone eq_refl
           ltac:(lia) ltac:(reflexivity) ltac:(lia)).
Defined.

(** ** Errors inside a cycle *)

Lemma monitor_once_catches (env : Env) (w w1 : World) (cls msg : string) :
  cycle_body env (server_at env (clock w)) w = (Raise (PyException cls msg), w1) ->
  monitor_once env w
  = (Ok tt, mkWorld (clock w1) (stdout w1 ++ [nl ++ "[ERROR] " ++ msg]) (trace w1)).
Proof.
  intros H. unfold monitor_once, try_except_Exception. rewrite H. reflexivity.
Qed.

(** ** The calls of a cycle, in order *)

Lemma hoare_bind {A B} (Pre : World -> Prop) (m : M A) (k : A -> M B)
  (Mid : A -> World -> Prop) (Post : result B -> World -> Prop) :
  (forall w, Pre w ->
     match m w with
     | (Ok a, w1) => Mid a w1
     | (Raise e, w1) => Post (Raise e) w1
     end) ->
  (forall a, hoare (Mid a) (k a) Post) ->
  hoare Pre (bind m k) Post.
Proof.
  intros Hm Hk w Hw. unfold bind. specialize (Hm w Hw).
  destruct (m w) as [[a|e] w1]; [now apply Hk | exact Hm].
Qed.

Lemma frames_keep_trace {A} (m : M A) (lat : Z) :
  frames (fun _ => False) lat m -> forall w, trace (snd (m w)) = trace w.
Proof.
  intros H w. destruct (H w) as (o & e & k & _ & He & _ & _ & Hp).
  destruct e as [|x e]; [now rewrite app_nil_r in He|].
  inversion Hp; contradiction.
Qed.

Lemma firstn_snoc {A} (l : list A) (n : nat) (x : A) :
  nth_error l n = Some x -> firstn (S n) l = (firstn n l ++ [x])%list.
Proof.
  revert n. induction l as [|a l IH]; intros [|n] H; try discriminate.
  - now injection H as ->.
  - simpl in H. apply IH in H. simpl in *. now rewrite H.
Qed.

Lemma called_keep (t0 : list (Z * Event)) (n : nat) (w w' : World) :
  trace w' = trace w -> called t0 n w -> called t0 n w'.
Proof. intros E (es & Ht & Hm). exists es. now rewrite E. Qed.

Lemma called_next (t0 : list (Z * Event)) (n : nat) (w w' : World) (ev : Event) :
  trace w' = (trace w ++ [(clock w, ev)])%list ->
  nth_error cycle_calls n = Some ev ->
  called t0 n w -> called t0 (S n) w'.
Proof.
  intros E Hn (es & Ht & Hm). exists (es ++ [(clock w, ev)])%list.
  rewrite E, Ht, app_assoc, map_app, Hm. split; [reflexivity|].
  now rewrite (firstn_snoc _ _ _ Hn).
Qed.

Lemma get_connection_trace (srv : Server) (w : World) :
  trace (snd (get_connection srv w)) = (trace w ++ [(clock w, EvConnect)])%list.
Proof. reflexivity. Qed.

Lemma conn_cursor_trace (srv : Server) (w : World) :
  trace (snd (conn_cursor srv w)) = (trace w ++ [(clock w, EvCursor)])%list.
Proof. reflexivity. Qed.

Lemma get_cpu_usage_trace (srv : Server) (w : World) :
  trace (snd (get_cpu_usage srv w)) = (trace w ++ [(clock w, EvExecute QCpu)])%list.
Proof.
  unfold get_cpu_usage. unfold_monad. simpl.
  destruct (ring_buffers srv); reflexivity.
Qed.

Lemma get_active_queries_trace (srv : Server) (w : World) :
  trace (snd (get_active_queries srv w))
  = (trace w ++ [(clock w, EvExecute QActive)])%list.
Proof.
  unfold get_active_queries. unfold_monad. simpl.
  destruct (requests_active srv); reflexivity.
Qed.

Lemma get_blocking_trace (srv : Server) (w : World) :
  trace (snd (get_blocking srv w))
  = (trace w ++ [(clock w, EvExecute QBlocking)])%list.
Proof.
  unfold get_blocking. unfold_monad. simpl.
  destruct (requests_blocking srv); reflexivity.
Qed.

Section CycleCalls.

Variable env : Env.
Variable srv : Server.
Variable t0 : list (Z * Event).

Lemma cycle_step {A} (i j : nat) (m : M A) (k : A -> M unit) :
  (forall w, called t0 i w -> called t0 j (snd (m w))) ->
  (1 <= j < 6)%nat ->
  (forall a, hoare (called t0 j) (k a) (cycle_post srv t0)) ->
  hoare (called t0 i) (bind m k) (cycle_post srv t0).
Proof.
  intros Hm Hj Hk. apply hoare_bind with (Mid := fun _ => called t0 j); [|exact Hk].
  intros w Hw. specialize (Hm w Hw). destruct (m w) as [[a|e] w1]; [exact Hm|].
  exists j. split; [exact Hm|]. split; [lia|]. split; [discriminate | lia].
Qed.

Lemma cycle_body_calls :
  hoare (called t0 0) (cycle_body env srv) (cycle_post srv t0).
Proof.
  unfold cycle_body.
  apply cycle_step with (j := 1%nat); [|lia|intros _].
  { intros w. now apply called_next with (ev := EvConnect). }
  apply cycle_step with (j := 2%nat); [|lia|intros _].
  { intros w. now apply called_next with (ev := EvCursor). }
  apply cycle_step with (j := 2%nat); [|lia|intros _].
  { intros w. apply called_keep.
    apply (frames_keep_trace _ 0), frames_display_header. }
  apply cycle_step with (j := 3%nat); [|lia|intros cpu].
  { intros w. apply called_next with (ev := EvExecute QCpu);
      [apply get_cpu_usage_trace | reflexivity]. }
  apply cycle_step with (j := 3%nat); [|lia|intros _].
  { intros w. apply called_keep.
    apply (frames_keep_trace _ 0), frames_display_cpu. }
  apply cycle_step with (j := 4%nat); [|lia|intros queries].
  { intros w. apply called_next with (ev := EvExecute QActive);
      [apply get_active_queries_trace | reflexivity]. }
  apply cycle_step with (j := 4%nat); [|lia|intros _].
  { intros w. apply called_keep.
    apply (frames_keep_trace _ 0), frames_display_queries. }
  apply cycle_step with (j := 5%nat); [|lia|intros blocking].
  { intros w. apply called_next with (ev := EvExecute QBlocking);
      [apply get_blocking_trace | reflexivity]. }
  apply cycle_step with (j := 5%nat); [|lia|intros _].
  { intros w. apply called_keep.
    apply (frames_keep_trace _ 0), frames_display_blocking. }
  intros w Hw. exists 6%nat. split; [|split; [lia|split; reflexivity]].
  now apply called_next with (w := w) (ev := EvClose).
Qed.

End CycleCalls.

Lemma monitor_once_trace (env : Env) (w : World) :
  trace (snd (monitor_once env w))
  = trace (snd (cycle_body env (server_at env (clock w)) w)).
Proof.
  unfold monitor_once, try_except_Exception.
  destruct (cycle_body env (server_at env (clock w)) w) as [[u|[cls msg|]] w1];
    reflexivity.
Qed.

Lemma close_in_prefix (n : nat) :
  (n <= 6)%nat -> In EvClose (firstn n cycle_calls) -> n = 6%nat.
Proof.
  intros Hn Hin.
  destruct n as [|[|[|[|[|[|[|n]]]]]]]; try lia; simpl in Hin;
    refute_membership.
Qed.

(** ** A failed call is the last call *)

Lemma failure_of_raise {A} (r : result A) (e : exn) :
  failure_of r = Some e -> r = Raise e.
Proof. destruct r; simpl; [discriminate | now intros [= ->]]. Qed.

Lemma get_connection_failure (srv : Server) (w : World) (e : exn) :
  call_failure srv 0 = Some e -> fst (get_connection srv w) = Raise e.
Proof. simpl. intros H. apply failure_of_raise in H. exact H. Qed.

Lemma conn_cursor_failure (srv : Server) (w : World) (e : exn) :
  call_failure srv 1 = Some e -> fst (conn_cursor srv w) = Raise e.
Proof. simpl. intros H. apply failure_of_raise in H. exact H. Qed.

Lemma get_cpu_usage_failure (srv : Server) (w : World) (e : exn) :
  call_failure srv 2 = Some e -> fst (get_cpu_usage srv w) = Raise e.
Proof.
  unfold get_cpu_usage. unfold_monad. simpl.
  destruct (ring_buffers srv) as [tbl|e']; simpl.
  - intros H. apply failure_of_raise in H. now rewrite H.
  - now intros [= ->].
Qed.

Lemma get_active_queries_failure (srv : Server) (w : World) (e : exn) :
  call_failure srv 3 = Some e -> fst (get_active_queries srv w) = Raise e.
Proof.
  unfold get_active_queries. unfold_monad. simpl.
  destruct (requests_active srv); simpl; [discriminate | now intros [= ->]].
Qed.

Lemma get_blocking_failure (srv : Server) (w : World) (e : exn) :
  call_failure srv 4 = Some e -> fst (get_blocking srv w) = Raise e.
Proof.
  unfold get_blocking. unfold_monad. simpl.
  destruct (requests_blocking srv); simpl; [discriminate | now intros [= ->]].
Qed.

Section CycleVerdict.

Variable env : Env.
Variable srv : Server.
Variable t0 : list (Z * Event).

Lemma verdict_call {A} (i : nat) (m : M A) (k : A -> M unit) :
  (forall w, called t0 i w -> called t0 (S i) (snd (m w))) ->
  (forall w e, call_failure srv i = Some e -> fst (m w) = Raise e) ->
  (S i <= 5)%nat ->
  (forall a, hoare (cycle_reached srv t0 (S i)) (k a) (cycle_verdict srv t0)) ->
  hoare (cycle_reached srv t0 i) (bind m k) (cycle_verdict srv t0).
Proof.
  intros Hm Hf Hi Hk.
  apply hoare_bind with (Mid := fun _ => cycle_reached srv t0 (S i)); [|exact Hk].
  intros w (Hc & Hprev). specialize (Hm w Hc). specialize (Hf w).
  destruct (m w) as [[a|e'] w1]; simpl in Hm, Hf.
  - split; [exact Hm|]. intros j Hj.
    destruct (Nat.eq_dec j i) as [->|Hne]; [|apply Hprev; lia].
    destruct (call_failure srv i) as [e|] eqn:E; [|reflexivity].
    discriminate (Hf e eq_refl).
  - exists (S i). split; [exact Hm|]. split; [lia|]. intros j e Hj Hfail.
    destruct (Nat.eq_dec j i) as [->|Hne].
    + split; [reflexivity|]. now injection (Hf e Hfail) as ->.
    + rewrite Hprev in Hfail by lia. discriminate Hfail.
Qed.

Lemma verdict_show {A} (j : nat) (m : M A) (k : A -> M unit) :
  (forall w, called t0 j w -> called t0 j (snd (m w))) ->
  (1 <= j <= 5)%nat ->
  (forall a, hoare (cycle_reached srv t0 j) (k a) (cycle_verdict srv t0)) ->
  hoare (cycle_reached srv t0 j) (bind m k) (cycle_verdict srv t0).
Proof.
  intros Hm Hj Hk.
  apply hoare_bind with (Mid := fun _ => cycle_reached srv t0 j); [|exact Hk].
  intros w (Hc & Hprev). specialize (Hm w Hc).
  destruct (m w) as [[a|e'] w1]; simpl in Hm.
  - split; [exact Hm | exact Hprev].
  - exists j. split; [exact Hm|]. split; [lia|]. intros i e Hi Hfail.
    rewrite Hprev in Hfail by lia. discriminate Hfail.
Qed.

Lemma cycle_body_verdict :
  hoare (cycle_reached srv t0 0) (cycle_body env srv) (cycle_verdict srv t0).
Proof.
  unfold cycle_body.
  apply verdict_call; [| |lia|intros _].
  { intros w. now apply called_next with (ev := EvConnect). }
  { intros w e. apply get_connection_failure. }
  apply verdict_call; [| |lia|intros _].
  { intros w. now apply called_next with (ev := EvCursor). }
  { intros w e. apply conn_cursor_failure. }
  apply verdict_show; [|lia|intros _].
  { intros w. apply called_keep.
    apply (frames_keep_trace _ 0), frames_display_header. }
  apply verdict_call; [| |lia|intros cpu].
  { intros w. apply called_next with (ev := EvExecute QCpu);
      [apply get_cpu_usage_trace | reflexivity]. }
  { intros w e. apply get_cpu_usage_failure. }
  apply verdict_show; [|lia|intros _].
  { intros w. apply called_keep.
    apply (frames_keep_trace _ 0), frames_display_cpu. }
  apply verdict_call; [| |lia|intros queries].
  { intros w. apply called_next with (ev := EvExecute QActive);
      [apply get_active_queries_trace | reflexivity]. }
  { intros w e. apply get_active_queries_failure. }
  apply verdict_show; [|lia|intros _].
  { intros w. apply called_keep.
    apply (frames_keep_trace _ 0), frames_display_queries. }
  apply verdict_call; [| |lia|intros blocking].
  { intros w. apply called_next with (ev := EvExecute QBlocking);
      [apply get_blocking_trace | reflexivity]. }
  { intros w e. apply get_blocking_failure. }
  apply verdict_show; [|lia|intros _].
  { intros w. apply called_keep.
    apply (frames_keep_trace _ 0), frames_display_blocking. }
  intros w (Hc & Hprev). exists 6%nat.
  split; [now apply called_next with (w := w) (ev := EvClose)|].
  split; [lia|]. intros i e Hi Hfail.
  destruct (Nat.eq_dec i 5) as [->|Hne].
  - split; [reflexivity|]. simpl in Hfail. apply failure_of_raise in Hfail.
    exact Hfail.
  - rewrite Hprev in Hfail by lia. discriminate Hfail.
Qed.

End CycleVerdict.

(** The calls a cycle makes, and what a failed call means for the cycle. *)
Lemma cycle_body_failed_call_is_last (env : Env) (srv : Server) (w : World) :
  exists evs n,
    trace (snd (cycle_body env srv w)) = (trace w ++ evs)%list /\
    map snd evs = firstn n cycle_calls /\
    (1 <= n <= 6)%nat /\
    (forall i e, (i < n)%nat -> call_failure srv i = Some e ->
                 n = S i /\ fst (cycle_body env srv w) = Raise e).
Proof.
  destruct (cycle_body_verdict env srv (trace w) w)
    as (n & (es & Ht & Hm) & Hn & Hfail).
  - split; [exists []; now rewrite app_nil_r|]. intros i Hi. lia.
  - exists es, n. auto.
Qed.

(** * Further properties of the monitor *)

(** ** Which ring-buffer record is sampled *)



Lemma top1_none_iff (tbl : list RingRecord) :
  top1_record_id_desc tbl = None <-> tbl = [].
Proof.
  split; [|intros ->; reflexivity].
  destruct tbl as [|r rest]; [reflexivity|]. simpl.
  destruct (top1_record_id_desc rest) as [best|]; [|discriminate].
  destruct (key_lt (rb_record_id r) (rb_record_id best)); discriminate.
Qed.




(** X2: [get_cpu_usage] returns [None] exactly when the query succeeds on a
    ring buffer that holds no scheduler-monitor record. *)
Theorem cpu_sample_absent_iff_no_record (srv : Server) (w : World) :
  fst (get_cpu_usage srv w) = Ok None <-> ring_buffers srv = Ok [].
Proof.
  unfold get_cpu_usage. unfold_monad. simpl.
  destruct (ring_buffers srv) as [tbl|e]; simpl.
  - unfold cpu_query.
    destruct (top1_record_id_desc tbl) as [r|] eqn:E.
    + split.
      * destruct (cpu_select r); discriminate.
      * intros [= ->]. discriminate E.
    + apply top1_none_iff in E. subst tbl. split; reflexivity.
  - split; discriminate.
Qed.

Lemma cpu_sample_absent_iff_no_record_witness :
  fst (get_cpu_usage Sample.no_ring_record Sample.w0) = Ok None.
Proof.
  exact (proj2 (cpu_sample_absent_iff_no_record Sample.no_ring_record Sample.w0)
           eq_refl).
Defined.

(** ** The blocking result set *)

Lemma get_blocking_rows (srv : Server) (w w' : World) (rows : list BlockingRow) :
  get_blocking srv w = (Ok rows, w') ->
  exists tbl, requests_blocking srv = Ok tbl /\ rows = blocking_query tbl.
Proof.
  unfold get_blocking. unfold_monad. simpl.
  destruct (requests_blocking srv) as [tbl|e]; [|discriminate].
  intros [= <- _]. now exists tbl.
Qed.

(** X3: [get_blocking] reports a request if and only if its
    blocking_session_id is an integer other than 0 (a NULL id does not pass
    the WHERE clause), whatever its own session id (system sessions are not
    filtered out here); it keeps the server's order and reports waits in
    whole seconds. *)
Theorem blocking_rows_are_the_blocked_requests
  (srv : Server) (w w' : World) (rows : list BlockingRow) :
  get_blocking srv w = (Ok rows, w') ->
  exists tbl,
    requests_blocking srv = Ok tbl /\
    rows = flat_map blocking_select tbl /\
    Forall (fun b => b_blocking_session_id b <> 0) rows /\
    (forall r b, In r tbl -> r_blocking_session_id r = Some b -> b <> 0 ->
                 In (blocking_row r b) rows) /\
    (forall row, In row rows ->
       exists r b, In r tbl /\ r_blocking_session_id r = Some b /\ b <> 0 /\
                   row = blocking_row r b) /\
    (List.length rows <= List.length tbl)%nat.
Proof.
  intros H. destruct (get_blocking_rows _ _ _ _ H) as (tbl & Htbl & ->).
  exists tbl. unfold blocking_query.
  assert (Hsound : forall row, In row (flat_map blocking_select tbl) ->
            exists r b, In r tbl /\ r_blocking_session_id r = Some b /\ b <> 0 /\
                        row = blocking_row r b).
  { intros row Hin. apply in_flat_map in Hin. destruct Hin as (r & Hr & Hrow).
    unfold blocking_select in Hrow.
    destruct (r_blocking_session_id r) as [b|] eqn:Eb; [|contradiction].
    destruct (b =? 0) eqn:E0; [contradiction|]. apply Z.eqb_neq in E0.
    destruct Hrow as [<-|[]]. exists r, b. auto. }
  split; [exact Htbl|]. split; [reflexivity|]. split; [|split; [|split]].
  - apply Forall_forall. intros row Hin.
    destruct (Hsound row Hin) as (r & b & _ & _ & Hb & ->). exact Hb.
  - intros r b Hin Hb Hne. apply in_flat_map. exists r. split; [exact Hin|].
    unfold blocking_select. rewrite Hb. apply Z.eqb_neq in Hne. rewrite Hne.
    now left.
  - exact Hsound.
  - clear. induction tbl as [|r tbl IH]; [apply le_n|].
    cbn [flat_map]. rewrite length_app. unfold blocking_select at 1.
    destruct (r_blocking_session_id r) as [b|]; [destruct (b =? 0)|];
      cbn [List.length]; lia.
Qed.

Lemma blocking_rows_are_the_blocked_requests_witness :
  exists tbl,
    requests_blocking Sample.healthy = Ok tbl /\
    Forall (fun b => b_blocking_session_id b <> 0) (blocking_query tbl).
Proof.
  destruct (blocking_rows_are_the_blocked_requests Sample.healthy Sample.w0
              (snd (get_blocking Sample.healthy Sample.w0))
              (blocking_query Sample.requests) eq_refl)
    as (tbl & Htbl & Hrows & Hall & _).
  exists tbl. split; [exact Htbl|]. injection Htbl as <-. exact Hall.
Defined.

(** X4: the seconds columns are whole seconds rounded toward zero: for a
    non-negative time in milliseconds the reported value is the largest
    number of seconds not above it, and anything shorter than a second,
    of either sign, shows as 0. *)
Theorem seconds_are_truncated (r : Request) (b : Z) :
  (0 <= r_total_elapsed_time r ->
   1000 * q_elapsed_sec (active_select r) <= r_total_elapsed_time r
   < 1000 * q_elapsed_sec (active_select r) + 1000) /\
  (0 <= r_wait_time r ->
   1000 * b_wait_sec (blocking_row r b) <= r_wait_time r
   < 1000 * b_wait_sec (blocking_row r b) + 1000) /\
  (-1000 < r_total_elapsed_time r < 1000 -> q_elapsed_sec (active_select r) = 0) /\
  (-1000 < r_wait_time r < 1000 -> b_wait_sec (blocking_row r b) = 0).
Proof.
  assert (Hq : forall t, 0 <= t ->
            1000 * Z.quot t 1000 <= t < 1000 * Z.quot t 1000 + 1000).
  { intros t Ht. rewrite Z.quot_div_nonneg by lia.
    pose proof (Z.mul_div_le t 1000). pose proof (Z.mul_succ_div_gt t 1000).
    lia. }
  assert (Hs : forall t, -1000 < t < 1000 -> Z.quot t 1000 = 0).
  { intros t Ht. apply Z.quot_small_iff; lia. }
  unfold active_select, blocking_row. cbn [q_elapsed_sec b_wait_sec].
  split; [|split; [|split]]; intros H;
    first [apply Hq; exact H | apply Hs; exact H].
Qed.

Lemma seconds_are_truncated_witness :
  1000 * q_elapsed_sec (active_select (Sample.req 51 5 0 None))
  <= r_total_elapsed_time (Sample.req 51 5 0 None)
  < 1000 * q_elapsed_sec (active_select (Sample.req 51 5 0 None)) + 1000.
Proof.
  exact (proj1 (seconds_are_truncated (Sample.req 51 5 0 None) 0)
           ltac:(vm_compute; discriminate)).
Defined.

(** ** Column layout *)






(** ** The two tables *)

Lemma lines_exist {A} (f : A -> result string) (xs : list A) :
  Forall (fun x => exists l, f x = Ok l) xs ->
  exists ls, Forall2 (fun x l => f x = Ok l) xs ls.
Proof.
  induction 1 as [|x xs (l & Hx) Hxs (ls & IH)]; [exists []; constructor|].
  exists (l :: ls). now constructor.
Qed.

Lemma for_each_lines {A} (f : A -> result string) (xs : list A) (ls : list string) :
  Forall2 (fun x l => f x = Ok l) xs ls ->
  forall rest w,
    for_each (xs ++ rest) (fun x => line <- lift (f x) ;; print line) w
    = for_each rest (fun x => line <- lift (f x) ;; print line)
        (mkWorld (clock w) (stdout w ++ ls) (trace w)).
Proof.
  induction 1 as [|x l xs ls Hx Hxs IH]; intros rest w.
  - simpl. now rewrite world_eta.
  - simpl. unfold bind at 1. unfold bind at 1. unfold lift at 1. rewrite Hx.
    unfold print at 1. rewrite IH. cbn [clock stdout trace].
    now rewrite app_assoc1.
Qed.

Lemma queries_line_some (q : ActiveRow) :
  q_blocking_session_id q <> None -> exists line, queries_line q = Ok line.
Proof.
  unfold queries_line, fmt_opt_int.
  destruct (q_blocking_session_id q); [eexists; reflexivity | congruence].
Qed.

Lemma queries_line_null (q : ActiveRow) :
  q_blocking_session_id q = None -> queries_line q = Raise type_error.
Proof. unfold queries_line, fmt_opt_int. now intros ->. Qed.

Lemma queries_lines_exist (qs : list ActiveRow) :
  Forall (fun q => q_blocking_session_id q <> None) qs ->
  exists ls, Forall2 (fun q l => queries_line q = Ok l) qs ls.
Proof.
  intros H. apply lines_exist. eapply Forall_impl; [|exact H].
  intros q. apply queries_line_some.
Qed.

Lemma display_queries_start (rows : list ActiveRow) (w : World) :
  rows <> [] ->
  display_queries rows w
  = for_each rows (fun q => line <- lift (queries_line q) ;; print line)
      (mkWorld (clock w)
         (stdout w ++ [(nl ++ "[ACTIVE QUERIES]")%string; queries_header;
                       str_mul "-" 80])
         (trace w)).
Proof.
  intros Hne. destruct rows as [|r rs]; [congruence|].
  unfold display_queries. unfold bind at 1. unfold print at 1.
  unfold bind at 1. unfold print at 1. unfold bind at 1. unfold print at 1.
  cbn [clock stdout trace]. now rewrite !app_assoc1.
Qed.

(** X6: [display_queries] changes neither clock nor trace.  While every row
    has a blocking_session_id it prints the title, the header row, the
    separator and one line per row in the order of the result set; at the
    first row whose blocking_session_id is NULL it raises a TypeError
    (Python refuses to format None in a column), with the title, the
    header, the separator and the lines of the rows before it already
    printed and nothing after. *)
Theorem display_queries_prints_every_row
  (pre post : list ActiveRow) (w : World) :
  Forall (fun q => q_blocking_session_id q <> None) pre ->
  exists ls,
    Forall2 (fun q l => queries_line q = Ok l) pre ls /\
    (pre <> [] ->
     display_queries pre w
     = (Ok tt,
        mkWorld (clock w)
          (stdout w ++ (nl ++ "[ACTIVE QUERIES]")%string :: queries_header
                       :: str_mul "-" 80 :: ls)
          (trace w))) /\
    (forall q, q_blocking_session_id q = None ->
       display_queries (pre ++ q :: post) w
       = (Raise type_error,
          mkWorld (clock w)
            (stdout w ++ (nl ++ "[ACTIVE QUERIES]")%string :: queries_header
                         :: str_mul "-" 80 :: ls)
            (trace w))).
Proof.
  intros Hpre. destruct (queries_lines_exist pre Hpre) as (ls & Hls).
  exists ls. split; [exact Hls|]. split.
  - intros Hne. rewrite (display_queries_start pre w Hne).
    rewrite <- (app_nil_r pre), (for_each_lines _ _ _ Hls [] _).
    simpl. unfold ret. cbn [clock stdout trace]. now rewrite <- app_assoc.
  - intros q Hq.
    rewrite display_queries_start by (destruct pre; discriminate).
    rewrite (for_each_lines _ _ _ Hls (q :: post) _).
    simpl. unfold bind at 1. unfold bind at 1. unfold lift at 1.
    rewrite (queries_line_null q Hq). cbn [clock stdout trace].
    now rewrite <- app_assoc.
Qed.

Lemma display_queries_prints_every_row_witness :
  exists ls,
    Forall2 (fun q l => queries_line q = Ok l)
      [active_select (Sample.req 60 9 51 None)] ls /\
    fst (display_queries
           [active_select (Sample.req 60 9 51 None);
            active_select (mkRequest 55 "running" "SELECT" 7 100 1 2 None None
                             0 "");
            active_select (Sample.req 51 5 0 None)]
           Sample.w0)
    = Raise type_error.
Proof.
  destruct (display_queries_prints_every_row
              [active_select (Sample.req 60 9 51 None)]
              [active_select (Sample.req 51 5 0 None)] Sample.w0)
    as (ls & Hls & _ & Hbad).
  - repeat constructor. discriminate.
  - exists ls. split; [exact Hls|].
    change [active_select (Sample.req 60 9 51 None);
            active_select (mkRequest 55 "running" "SELECT" 7 100 1 2 None None
                             0 "");
            active_select (Sample.req 51 5 0 None)]
      with ([active_select (Sample.req 60 9 51 None)]
            ++ active_select (mkRequest 55 "running" "SELECT" 7 100 1 2 None
                                None 0 "")
            :: [active_select (Sample.req 51 5 0 None)])%list.
    now rewrite (Hbad (active_select (mkRequest 55 "running" "SELECT" 7 100 1 2
                                        None None 0 "")) eq_refl).
Defined.

Lemma blocking_line_some (b : BlockingRow) :
  b_wait_type b <> None -> exists line, blocking_line b = Ok line.
Proof.
  unfold blocking_line, fmt_opt_str.
  destruct (b_wait_type b); [eexists; reflexivity | congruence].
Qed.

Lemma blocking_line_null (b : BlockingRow) :
  b_wait_type b = None -> blocking_line b = Raise type_error.
Proof. unfold blocking_line, fmt_opt_str. now intros ->. Qed.

Lemma for_each_blocking (pre rest : list BlockingRow) (w : World) :
  Forall (fun x => b_wait_type x <> None) pre ->
  exists ls,
    Forall2 (fun x l => blocking_line x = Ok l) pre ls /\
    for_each (pre ++ rest) (fun b => line <- lift (blocking_line b) ;; print line) w
    = for_each rest (fun b => line <- lift (blocking_line b) ;; print line)
        (mkWorld (clock w) (stdout w ++ ls) (trace w)).
Proof.
  intros H. revert w. induction H as [|x pre Hx Hpre IH]; intros w.
  - exists []. split; [constructor|]. simpl. now rewrite world_eta.
  - destruct (blocking_line_some x Hx) as (line & Hline).
    destruct (IH (mkWorld (clock w) (stdout w ++ [line]) (trace w)))
      as (ls & Hls & Heq).
    exists (line :: ls). split; [now constructor|].
    simpl. unfold bind at 1. unfold bind at 1. unfold lift at 1.
    rewrite Hline. unfold print at 1. rewrite Heq.
    cbn [clock stdout trace]. now rewrite app_assoc1.
Qed.

(** X7: [display_blocking] formats wait_type in a 20-character column, which
    Python refuses for a NULL value.  When every row has a wait type, the
    title, header row, separator and one line per row are printed; at the
    first row whose wait_type is NULL a TypeError is raised, with the title,
    the header, the separator and the lines of the rows before it already
    printed and nothing after. *)
Theorem display_blocking_stops_at_null_wait_type
  (pre post : list BlockingRow) (w : World) :
  Forall (fun x => b_wait_type x <> None) pre ->
  exists ls,
    Forall2 (fun x l => blocking_line x = Ok l) pre ls /\
    (pre <> [] ->
     display_blocking pre w
     = (Ok tt,
        mkWorld (clock w)
          (stdout w ++ (nl ++ "[BLOCKING]")%string :: blocking_header
                       :: str_mul "-" 80 :: ls)
          (trace w))) /\
    (forall b, b_wait_type b = None ->
       display_blocking (pre ++ b :: post) w
       = (Raise type_error,
          mkWorld (clock w)
            (stdout w ++ (nl ++ "[BLOCKING]")%string :: blocking_header
                         :: str_mul "-" 80 :: ls)
            (trace w))).
Proof.
  intros Hpre.
  set (w3 := mkWorld (clock w)
               (stdout w ++ [(nl ++ "[BLOCKING]")%string; blocking_header;
                             str_mul "-" 80])
               (trace w)).
  assert (Hstart : forall rows, rows <> [] ->
            display_blocking rows w
            = for_each rows (fun b => line <- lift (blocking_line b) ;; print line) w3).
  { intros rows Hne. destruct rows as [|r rs]; [congruence|].
    unfold display_blocking. unfold bind at 1. unfold print at 1.
    unfold bind at 1. unfold print at 1. unfold bind at 1. unfold print at 1.
    subst w3. cbn [clock stdout trace]. now rewrite !app_assoc1. }
  destruct (for_each_blocking pre [] w3 Hpre) as (ls & Hls & Hok).
  exists ls. split; [exact Hls|]. split.
  - intros Hne. rewrite (Hstart pre Hne). rewrite app_nil_r in Hok.
    rewrite Hok. simpl. unfold ret. subst w3. cbn [clock stdout trace].
    now rewrite <- app_assoc.
  - intros b Hb.
    destruct (for_each_blocking pre (b :: post) w3 Hpre) as (ls' & Hls' & Hbad).
    assert (ls' = ls).
    { clear - Hls Hls'. revert ls' Hls'.
      induction Hls as [|x l pre ls Hx Hrest IH]; intros ls' Hls';
        inversion Hls'; subst; [reflexivity|].
      f_equal; [congruence | now apply IH]. }
    subst ls'. rewrite Hstart by (destruct pre; discriminate).
    rewrite Hbad. simpl. unfold bind at 1. unfold bind at 1. unfold lift at 1.
    rewrite (blocking_line_null b Hb). subst w3. cbn [clock stdout trace].
    now rewrite <- app_assoc.
Qed.

Lemma display_blocking_stops_at_null_wait_type_witness :
  fst (display_blocking
         (blocking_query [Sample.req 60 9 51 (Some "LCK_M_S");
                          Sample.req 61 1 60 None;
                          Sample.req 62 1 60 (Some "LCK_M_X")])
         Sample.w0)
  = Raise type_error.
Proof.
  destruct (display_blocking_stops_at_null_wait_type
              [blocking_row (Sample.req 60 9 51 (Some "LCK_M_S")) 51]
              [blocking_row (Sample.req 62 1 60 (Some "LCK_M_X")) 60]
              Sample.w0)
    as (ls & _ & _ & Hbad).
  - repeat constructor. discriminate.
  - change (blocking_query _) with
      ([blocking_row (Sample.req 60 9 51 (Some "LCK_M_S")) 51]
       ++ blocking_row (Sample.req 61 1 60 None) 60
       :: [blocking_row (Sample.req 62 1 60 (Some "LCK_M_X")) 60])%list.
    now rewrite (Hbad (blocking_row (Sample.req 61 1 60 None) 60) eq_refl).
Defined.

(** X8: the outside calls of a cycle are always an initial segment of
    connect, cursor, CPU query, active-queries query, blocking query, close,
    starting with the connection attempt: no call is made twice or out of
    order.  A call that fails is the last call of its cycle, so none is made
    after a failed one, and the body of the cycle ends in the exception of
    that call. *)
Theorem cycle_calls_in_program_order (env : Env) (w : World) :
  let srv := server_at env (clock w) in
  exists evs n,
    trace (snd (monitor_once env w)) = (trace w ++ evs)%list /\
    map snd evs = firstn n cycle_calls /\
    (1 <= n <= 6)%nat /\
    (forall i e, (i < n)%nat -> call_failure srv i = Some e ->
                 n = S i /\ fst (cycle_body env srv w) = Raise e).
Proof.
  intros srv. rewrite monitor_once_trace.
  exact (cycle_body_failed_call_is_last env srv w).
Qed.

(** X9: a cycle calls [conn.close()] only as its last step, after every other
    call and every display function went through: a cycle that ends normally
    has closed its session, and a cycle that fails anywhere before the close
    call leaves the session open. *)
Theorem session_closed_only_by_complete_cycle (env : Env) (w : World) :
  let srv := server_at env (clock w) in
  exists evs,
    trace (snd (monitor_once env w)) = (trace w ++ evs)%list /\
    (fst (cycle_body env srv w) = Ok tt -> map snd evs = cycle_calls) /\
    (In EvClose (map snd evs) ->
     map snd evs = cycle_calls /\ fst (cycle_body env srv w) = close srv) /\
    (forall e, fst (cycle_body env srv w) = Raise e ->
               close srv <> Raise e -> ~ In EvClose (map snd evs)).
Proof.
  intros srv. rewrite monitor_once_trace. fold srv.
  destruct (cycle_body_calls env srv (trace w) w)
    as (n & (es & Ht & Hm) & Hn & Hok & Hclose).
  { exists []. now rewrite app_nil_r. }
  exists es. split; [exact Ht|].
  assert (Hin : In EvClose (map snd es) -> n = 6%nat).
  { rewrite Hm. apply close_in_prefix. lia. }
  split; [|split].
  - intros Hr. now rewrite Hm, (Hok Hr).
  - intros H. specialize (Hin H). subst n. split; [exact Hm | now apply Hclose].
  - intros e He Hne H. specialize (Hin H). apply Hne.
    rewrite <- (Hclose Hin). exact He.
Qed.

Lemma session_closed_only_by_complete_cycle_witness :
  ~ In EvClose
      (map snd (trace (snd (monitor_once (Sample.env_of Sample.active_fails)
                              Sample.w0)))).
Proof.
  destruct (session_closed_only_by_complete_cycle
              (Sample.env_of Sample.active_fails) Sample.w0)
    as (evs & Ht & _ & _ & Hopen).
  simpl app in Ht. rewrite Ht.
  apply (Hopen Sample.pyodbc_error); [reflexivity | discriminate].
Defined.

(** ** A cycle in which nothing fails *)

Lemma blocking_lines_exist (bs : list BlockingRow) :
  Forall (fun x => b_wait_type x <> None) bs ->
  exists ls, Forall2 (fun x l => blocking_line x = Ok l) bs ls.
Proof.
  induction 1 as [|x bs Hx Hbs (ls & IH)]; [exists []; constructor|].
  destruct (blocking_line_some x Hx) as (line & Hline).
  exists (line :: ls). now constructor.
Qed.

Lemma for_each_blocking_lines (bs : list BlockingRow) (ls : list string) :
  Forall2 (fun x l => blocking_line x = Ok l) bs ls ->
  forall w,
    for_each bs (fun b => line <- lift (blocking_line b) ;; print line) w
    = (Ok tt, mkWorld (clock w) (stdout w ++ ls) (trace w)).
Proof.
  induction 1 as [|x line bs ls Hx Hbs IH]; intros w; simpl.
  - unfold ret. now rewrite world_eta.
  - unfold bind at 1. unfold bind at 1. unfold lift at 1. rewrite Hx.
    unfold print at 1. rewrite IH. cbn [clock stdout trace].
    now rewrite app_assoc1.
Qed.

Lemma display_blocking_total (bs : list BlockingRow) :
  Forall (fun x => b_wait_type x <> None) bs ->
  exists bl,
    forall v, display_blocking bs v
              = (Ok tt, mkWorld (clock v) (stdout v ++ bl) (trace v)).
Proof.
  intros H. destruct bs as [|b bs].
  - exists [(nl ++ "[BLOCKING]")%string; "No blocking detected"]. intros v.
    unfold display_blocking. unfold_monad. cbn [clock stdout trace].
    now rewrite app_assoc1.
  - destruct (blocking_lines_exist _ H) as (ls & Hls).
    exists ((nl ++ "[BLOCKING]")%string :: blocking_header :: str_mul "-" 80 :: ls).
    intros v. unfold display_blocking.
    unfold bind at 1. unfold print at 1. unfold bind at 1. unfold print at 1.
    unfold bind at 1. unfold print at 1.
    rewrite (for_each_blocking_lines _ _ Hls). cbn [clock stdout trace].
    now rewrite !app_assoc1.
Qed.

Lemma display_queries_total (qs : list ActiveRow) :
  Forall (fun q => q_blocking_session_id q <> None) qs ->
  exists ql,
    forall v, display_queries qs v
              = (Ok tt, mkWorld (clock v) (stdout v ++ ql) (trace v)).
Proof.
  intros H. destruct qs as [|q qs].
  - exists [(nl ++ "[ACTIVE QUERIES]")%string; "No active queries"]. intros v.
    unfold display_queries. unfold_monad. cbn [clock stdout trace].
    now rewrite app_assoc1.
  - destruct (queries_lines_exist _ H) as (ls & Hls).
    exists ((nl ++ "[ACTIVE QUERIES]")%string :: queries_header
            :: str_mul "-" 80 :: ls).
    intros v. rewrite display_queries_start by discriminate.
    rewrite <- (app_nil_r (q :: qs)), (for_each_lines _ _ _ Hls [] _).
    simpl. unfold ret. cbn [clock stdout trace]. now rewrite <- app_assoc.
Qed.

Lemma cycle_body_healthy
  (env : Env) (srv : Server) (w : World) (tbl : list RingRecord) (row : CpuRow)
  (ra rk : list Request) (ql bl : list string) :
  connect srv = Ok tt ->
  cursor srv = Ok tt ->
  ring_buffers srv = Ok tbl ->
  cpu_query tbl = Ok (Some row) ->
  requests_active srv = Ok ra ->
  (forall v, display_queries (active_query ra) v
             = (Ok tt, mkWorld (clock v) (stdout v ++ ql) (trace v))) ->
  requests_blocking srv = Ok rk ->
  (forall v, display_blocking (blocking_query rk) v
             = (Ok tt, mkWorld (clock v) (stdout v ++ bl) (trace v))) ->
  close srv = Ok tt ->
  let lat := latency srv in
  cycle_body env srv w
  = (Ok tt,
     mkWorld (clock w + lat + lat + lat + lat)
       (stdout w ++ header_block env (clock w + lat) ++ cpu_block row
        ++ ql ++ bl)
       (trace w ++ [(clock w, EvConnect); (clock w + lat, EvCursor);
                    (clock w + lat, EvExecute QCpu);
                    (clock w + lat + lat, EvExecute QActive);
                    (clock w + lat + lat + lat, EvExecute QBlocking);
                    (clock w + lat + lat + lat + lat, EvClose)])).
Proof.
  destruct srv as [lat c cu rb rqa rqb cl]. cbn [latency connect cursor
    ring_buffers requests_active requests_blocking close].
  intros -> -> -> Hq -> Hql -> Hbl ->.
  unfold cycle_body. unfold get_connection, conn_cursor, display_header,
    get_cpu_usage, get_active_queries, get_blocking, conn_close.
  unfold_monad.
  cbn [clock stdout trace latency connect cursor ring_buffers requests_active
       requests_blocking close].
  rewrite Hq. rewrite display_cpu_some. cbn [clock stdout trace].
  rewrite Hql. cbn [clock stdout trace].
  rewrite Hbl. cbn [clock stdout trace].
  unfold header_block. now rewrite <- !app_assoc.
Qed.

(** X10: when every call succeeds, the ring buffer yields a sample, every
    active request has a blocking_session_id and every blocking row has a
    wait type, a cycle makes its six calls, one driver round trip apart,
    returns normally and prints exactly the header block, the CPU block, the
    active-queries section and the blocking section, in this order, with no
    error line. *)
Theorem healthy_cycle_prints_four_sections
  (env : Env) (w : World) (tbl : list RingRecord) (row : CpuRow)
  (ra rk : list Request) :
  let srv := server_at env (clock w) in
  let lat := latency srv in
  connect srv = Ok tt ->
  cursor srv = Ok tt ->
  ring_buffers srv = Ok tbl ->
  cpu_query tbl = Ok (Some row) ->
  requests_active srv = Ok ra ->
  Forall (fun q => q_blocking_session_id q <> None) (active_query ra) ->
  requests_blocking srv = Ok rk ->
  Forall (fun b => b_wait_type b <> None) (blocking_query rk) ->
  close srv = Ok tt ->
  exists ql bl,
    (forall v, display_queries (active_query ra) v
               = (Ok tt, mkWorld (clock v) (stdout v ++ ql) (trace v))) /\
    (forall v, display_blocking (blocking_query rk) v
               = (Ok tt, mkWorld (clock v) (stdout v ++ bl) (trace v))) /\
    monitor_once env w
    = (Ok tt,
       mkWorld (clock w + lat + lat + lat + lat)
         (stdout w ++ header_block env (clock w + lat) ++ cpu_block row
          ++ ql ++ bl)
         (trace w ++ [(clock w, EvConnect); (clock w + lat, EvCursor);
                      (clock w + lat, EvExecute QCpu);
                      (clock w + lat + lat, EvExecute QActive);
                      (clock w + lat + lat + lat, EvExecute QBlocking);
                      (clock w + lat + lat + lat + lat, EvClose)])).
Proof.
  intros srv lat Hc Hcu Hrb Hq Hra Hbs Hrk Hwt Hcl.
  destruct (display_queries_total _ Hbs) as (ql & Hql).
  destruct (display_blocking_total _ Hwt) as (bl & Hbl).
  exists ql, bl. split; [exact Hql|]. split; [exact Hbl|].
  unfold monitor_once, try_except_Exception. fold srv.
  now rewrite (cycle_body_healthy env srv w tbl row ra rk ql bl
                 Hc Hcu Hrb Hq Hra Hql Hrk Hbl Hcl).
Qed.

Lemma healthy_cycle_prints_four_sections_witness :
  fst (monitor_once (Sample.env_of Sample.healthy) Sample.w0) = Ok tt /\
  map snd (trace (snd (monitor_once (Sample.env_of Sample.healthy) Sample.w0)))
  = cycle_calls.
Proof.
  destruct (healthy_cycle_prints_four_sections
              (Sample.env_of Sample.healthy) Sample.w0
              [mkRing (Some 70) (Some 20) (Some 1)]
              (mkCpuRow (Some 20) (Some 70) (Some 10))
              Sample.requests Sample.requests
              eq_refl eq_refl eq_refl eq_refl eq_refl
              ltac:(repeat constructor; discriminate) eq_refl
              ltac:(repeat constructor; discriminate) eq_refl)
    as (ql & bl & _ & _ & Hrun).
  rewrite Hrun. split; reflexivity.
Defined.

(** ** Ctrl+C while a cycle is running *)

Lemma failure_of_none_unit (r : result unit) : failure_of r = None -> r = Ok tt.
Proof. destruct r as [[]|e]; [reflexivity | discriminate]. Qed.

(** The first call of a cycle that fails, when the display functions before
    it pass: the cycle makes that call and no further one, and ends in the
    call's exception. *)
Lemma cycle_body_fails_at (env : Env) (srv : Server) (w : World) (i : nat)
  (e : exn) :
  (forall j, (j < i)%nat -> call_failure srv j = None) ->
  displays_pass srv i ->
  call_failure srv i = Some e ->
  fst (cycle_body env srv w) = Raise e /\
  called (trace w) (S i) (snd (cycle_body env srv w)).
Proof.
  intros Hprev (Hcpu & Hact & Hblk) Hfail.
  assert (Hdone : forall (r : result unit) (v : World) (es : list (Z * Event)),
            r = Raise e ->
            trace v = (trace w ++ es)%list ->
            map snd es = firstn (S i) cycle_calls ->
            fst (r, v) = Raise e /\ called (trace w) (S i) (snd (r, v))).
  { intros r v es -> Ht Hm. split; [reflexivity|]. now exists es. }
  destruct srv as [lat c cu rb ra rk cl].
  unfold cycle_body, get_connection, conn_cursor, get_cpu_usage,
    get_active_queries, get_blocking, conn_close.
  cbn [latency connect cursor ring_buffers requests_active requests_blocking
       close] in *.
  destruct i as [|i].
  { cbn in Hfail. apply failure_of_raise in Hfail. subst c.
    unfold_monad. cbn [clock stdout trace].
    eapply Hdone; [reflexivity | cbn [trace]; reflexivity | reflexivity]. }
  pose proof (failure_of_none_unit _ (Hprev 0%nat ltac:(lia))) as Hc.
  cbn [connect] in Hc. subst c.
  destruct i as [|i].
  { cbn in Hfail. apply failure_of_raise in Hfail. subst cu.
    unfold_monad. cbn [clock stdout trace].
    eapply Hdone; [reflexivity | cbn [trace]; rewrite <- !app_assoc; reflexivity
                  | reflexivity]. }
  pose proof (failure_of_none_unit _ (Hprev 1%nat ltac:(lia))) as Hcu.
  cbn [cursor] in Hcu. subst cu.
  destruct i as [|i].
  { cbn in Hfail. unfold display_header. unfold_monad.
    cbn [clock stdout trace].
    destruct rb as [tbl|e']; cbn [clock stdout trace].
    - apply failure_of_raise in Hfail. rewrite Hfail.
      eapply Hdone; [reflexivity | cbn [trace]; rewrite <- !app_assoc; reflexivity
                    | reflexivity].
    - injection Hfail as ->.
      eapply Hdone; [reflexivity | cbn [trace]; rewrite <- !app_assoc; reflexivity
                    | reflexivity]. }
  destruct (Hcpu ltac:(lia)) as (tbl & row & Hrb & Hq). subst rb.
  destruct i as [|i].
  { cbn in Hfail. apply failure_of_raise in Hfail. subst ra.
    unfold display_header. unfold_monad. cbn [clock stdout trace].
    rewrite Hq. rewrite display_cpu_some. cbn [clock stdout trace].
    eapply Hdone; [reflexivity | cbn [trace]; rewrite <- !app_assoc; reflexivity
                  | reflexivity]. }
  destruct (Hact ltac:(lia)) as (tra & Hra & Hnn). subst ra.
  destruct (display_queries_total _ Hnn) as (ql & Hql).
  destruct i as [|i].
  { cbn in Hfail. apply failure_of_raise in Hfail. subst rk.
    unfold display_header. unfold_monad. cbn [clock stdout trace].
    rewrite Hq. rewrite display_cpu_some. cbn [clock stdout trace].
    rewrite Hql. cbn [clock stdout trace].
    eapply Hdone; [reflexivity | cbn [trace]; rewrite <- !app_assoc; reflexivity
                  | reflexivity]. }
  destruct (Hblk ltac:(lia)) as (trk & Hrk & Hwt). subst rk.
  destruct (display_blocking_total _ Hwt) as (bl & Hbl).
  destruct i as [|i].
  { cbn in Hfail. apply failure_of_raise in Hfail. subst cl.
    unfold display_header. unfold_monad. cbn [clock stdout trace].
    rewrite Hq. rewrite display_cpu_some. cbn [clock stdout trace].
    rewrite Hql. cbn [clock stdout trace].
    rewrite Hbl. cbn [clock stdout trace].
    eapply Hdone; [reflexivity | cbn [trace]; rewrite <- !app_assoc; reflexivity
                  | reflexivity]. }
  discriminate Hfail.
Qed.

(** C9, as stated, fails: had an interrupt taken effect only at the sleep
    boundary, every run of positive duration whose first cycle has its
    second query cut short by Ctrl+C would still go on to the next query, to
    the close call or to the sleep.  On the sample server whose
    active-queries call raises KeyboardInterrupt the run stops with that
    query as its last call. *)
Lemma interrupt_in_query_ends_run_before_sleep :
  ~ (forall env interval duration fuel w tbl row r w',
        0 < duration ->
        connect (server_at env (clock w)) = Ok tt ->
        cursor (server_at env (clock w)) = Ok tt ->
        ring_buffers (server_at env (clock w)) = Ok tbl ->
        cpu_query tbl = Ok (Some row) ->
        requests_active (server_at env (clock w)) = Raise KeyboardInterrupt ->
        monitor_continuous env interval duration fuel w = Some (r, w') ->
        exists t ev,
          In (t, ev) (trace w') /\
          (ev = EvExecute QBlocking \/ ev = EvClose \/ ev = EvSleep interval)).
Proof.
  intros H.
  destruct (H (Sample.env_of Sample.ctrl_c_in_query) 5 60 (12%nat) Sample.w0
              [mkRing (Some 70) (Some 20) (Some 1)]
              (mkCpuRow (Some 20) (Some 70) (Some 10))
              (Ok tt)
              (mkWorld 0
                 ([starting_line 5 60; ("Press Ctrl+C to stop" ++ nl)%string]
                  ++ header_block (Sample.env_of Sample.ctrl_c_in_query) 0
                  ++ cpu_block (mkCpuRow (Some 20) (Some 70) (Some 10))
                  ++ [stopped_line])
                 [(0, EvConnect); (0, EvCursor); (0, EvExecute QCpu);
                  (0, EvExecute QActive)])
              eq_refl eq_refl eq_refl eq_refl eq_refl eq_refl
              ltac:(vm_compute; reflexivity)) as (t & ev & Hin & Hev).
  simpl in Hin.
  destruct Hev as [-> | [-> | ->]]; refute_membership.
Qed.

(** C9, amended: a KeyboardInterrupt raised by any driver call of a cycle
    (connect, cursor, one of the three queries, close) is acted upon at that
    point.  Whenever the cycle gets to the call, the call is the last event
    of the cycle; the cycle's handler does not run, so [monitor_once] ends as
    its body does, in KeyboardInterrupt; the loop ends there, in whichever
    iteration, without refresh notice or sleep; and a run interrupted in its
    first cycle returns normally with the stop message as its last line and
    the calls up to the interrupted one as its whole trace. *)
Theorem interrupt_in_cycle_ends_loop
  (env : Env) (w : World) (i : nat) (interval : Z) (fuel : nat) :
  let srv := server_at env (clock w) in
  (forall j, (j < i)%nat -> call_failure srv j = None) ->
  displays_pass srv i ->
  call_failure srv i = Some KeyboardInterrupt ->
  let w1 := snd (cycle_body env srv w) in
  (exists evs, trace w1 = (trace w ++ evs)%list /\
               map snd evs = firstn (S i) cycle_calls) /\
  monitor_once env w = (Raise KeyboardInterrupt, w1) /\
  (forall end_time,
      clock w < end_time ->
      while_loop env interval end_time (S fuel) w
      = Some (Raise KeyboardInterrupt, w1)) /\
  (forall duration,
      0 < duration ->
      let w2 := snd (cycle_body env srv (announced interval duration w)) in
      monitor_continuous env interval duration (S fuel) w
      = Some (Ok tt, mkWorld (clock w2) (stdout w2 ++ [stopped_line]) (trace w2)) /\
      exists evs, trace w2 = (trace w ++ evs)%list /\
                  map snd evs = firstn (S i) cycle_calls).
Proof.
  intros srv Hprev Hshow Hfail w1.
  assert (Hbody : forall v, clock v = clock w ->
            loop_body env interval v
            = (Raise KeyboardInterrupt, snd (cycle_body env srv v)) /\
            monitor_once env v
            = (Raise KeyboardInterrupt, snd (cycle_body env srv v)) /\
            called (trace v) (S i) (snd (cycle_body env srv v))).
  { intros v Hv.
    destruct (cycle_body_fails_at env srv v i _ Hprev Hshow Hfail) as (Hr & Hc).
    assert (Hm : monitor_once env v
                 = (Raise KeyboardInterrupt, snd (cycle_body env srv v))).
    { unfold monitor_once, try_except_Exception. rewrite Hv. fold srv.
      destruct (cycle_body env srv v) as [r v1]. simpl in Hr. now subst r. }
    split; [|split; [exact Hm | exact Hc]].
    unfold loop_body. unfold bind at 1. now rewrite Hm. }
  destruct (Hbody w eq_refl) as (Hloop & Hmon & Hcalled).
  split; [exact Hcalled|]. split; [exact Hmon|]. split.
  - intros end_time Hlt. now apply while_loop_raise.
  - intros duration Hd w2.
    destruct (Hbody (announced interval duration w) eq_refl)
      as (Hloop2 & _ & Hcalled2).
    split; [|exact Hcalled2].
    rewrite monitor_continuous_unfold.
    rewrite (while_loop_raise env interval (clock w + duration) fuel
               (announced interval duration w) _ KeyboardInterrupt
               ltac:(simpl; lia) Hloop2).
    reflexivity.
Qed.

Lemma interrupt_in_cycle_ends_loop_witness :
  monitor_continuous (Sample.env_of Sample.ctrl_c_in_query) 5 60 1 Sample.w0
  = Some (Ok tt,
          mkWorld 0
            ([starting_line 5 60; ("Press Ctrl+C to stop" ++ nl)%string]
             ++ header_block (Sample.env_of Sample.ctrl_c_in_query) 0
             ++ cpu_block (mkCpuRow (Some 20) (Some 70) (Some 10))
             ++ [stopped_line])
            [(0, EvConnect); (0, EvCursor); (0, EvExecute QCpu);
             (0, EvExecute QActive)]).
Proof.
  assert (Hprev : forall j, (j < 3)%nat ->
            call_failure (server_at (Sample.env_of Sample.ctrl_c_in_query)
                            (clock Sample.w0)) j = None).
  { intros [|[|[|j]]] Hj; [reflexivity | reflexivity | reflexivity | lia]. }
  assert (Hshow : displays_pass
                    (server_at (Sample.env_of Sample.ctrl_c_in_query)
                       (clock Sample.w0)) 3).
  { split; [|split]; intros Hi; [|lia|lia].
    exists [mkRing (Some 70) (Some 20) (Some 1)],
           (mkCpuRow (Some 20) (Some 70) (Some 10)).
    split; reflexivity. }
  destruct (interrupt_in_cycle_ends_loop
              (Sample.env_of Sample.ctrl_c_in_query) Sample.w0 3 5 0
              Hprev Hshow eq_refl) as (_ & _ & _ & Hrun).
  destruct (Hrun 60 ltac:(reflexivity)) as (Hret & _).
  rewrite Hret. reflexivity.
Defined.

(** ** How long the loop runs *)

Lemma time_sleep_ok (env : Env) (secs : Z) (w w' : World) (u : unit) :
  time_sleep env secs w = (Ok u, w') -> 0 <= secs /\ clock w' = clock w + secs.
Proof.
  unfold time_sleep. unfold_monad.
  destruct (secs <? 0) eqn:E; [discriminate|]. apply Z.ltb_ge in E.
  cbn [clock stdout trace].
  destruct (sleep_interrupt env (clock w)) as [d|];
    [destruct ((0 <=? d) && (d <? secs))|];
    try discriminate; intros [= _ <-]; simpl; split; lia.
Qed.

Lemma loop_body_ok_clock (env : Env) (interval : Z) (w w1 : World) (u : unit) :
  0 <= latency (server_at env (clock w)) ->
  loop_body env interval w = (Ok u, w1) ->
  0 <= interval /\ clock w + interval <= clock w1.
Proof.
  intros Hlat. unfold loop_body, bind, print.
  pose proof (monitor_once_shape env w) as (out & evs & k & _ & _ & Hc & _).
  destruct (monitor_once env w) as [[v|e] wa]; [|discriminate].
  simpl in Hc. intros H. apply time_sleep_ok in H. cbn [clock] in H.
  destruct H as (Hi & Hw1). split; [exact Hi|]. rewrite Hw1, Hc.
  assert (0 <= Z.of_nat k * latency (server_at env (clock w)))
    by (apply Z.mul_nonneg_nonneg; lia). lia.
Qed.

Lemma while_loop_cycles (env : Env) (interval end_time : Z) :
  0 < interval ->
  (forall t, latency (server_at env t) = 0) ->
  (forall t, quiet_server (server_at env t)) ->
  (forall t, sleep_interrupt env t = None) ->
  forall (n fuel : nat) (w : World),
    end_time <= clock w + Z.of_nat n * interval ->
    (n <> 0%nat -> clock w + (Z.of_nat n - 1) * interval < end_time) ->
    (n <= fuel)%nat ->
    exists w' evs,
      while_loop env interval end_time fuel w = Some (Ok tt, w') /\
      clock w' = clock w + Z.of_nat n * interval /\
      trace w' = (trace w ++ evs)%list /\
      connect_times evs
      = map (fun i => clock w + Z.of_nat i * interval) (seq 0 n).
Proof.
  intros Hi Hlat Hq Hs. induction n as [|n IH]; intros fuel w Hend Hlast Hfuel.
  - exists w, []. rewrite while_loop_stop by (simpl in Hend; lia).
    rewrite app_nil_r. repeat split; simpl; lia.
  - destruct fuel as [|fuel]; [lia|].
    rewrite Nat2Z.inj_succ in Hend, Hlast.
    assert (Hlt : clock w < end_time).
    { specialize (Hlast ltac:(discriminate)).
      assert (0 <= Z.of_nat n * interval) by (apply Z.mul_nonneg_nonneg; lia).
      lia. }
    destruct (loop_body_quiet env interval w ltac:(lia) (Hlat _) (Hq _) (Hs _))
      as (w1 & e1 & Hb & Hc1 & Ht1 & Hf1).
    rewrite (while_loop_step env interval end_time fuel w w1 Hlt Hb).
    destruct (IH fuel w1) as (w' & evs & Hrun & Hc & Ht & Hct).
    + rewrite Hc1. lia.
    + intros Hn. rewrite Hc1. specialize (Hlast ltac:(discriminate)). lia.
    + lia.
    + exists w', (e1 ++ evs)%list. split; [exact Hrun|].
      split; [rewrite Hc, Hc1, Nat2Z.inj_succ; lia|].
      split; [rewrite Ht, Ht1; now rewrite app_assoc|].
      unfold connect_times in *. rewrite filter_app, map_app, Hf1, Hct.
      cbn [map fst app seq]. f_equal; [lia|].
      rewrite <- seq_shift, map_map. apply map_ext. intros i.
      rewrite Hc1, Nat2Z.inj_succ. lia.
Qed.

(** X11: with a positive interval, cycles that take no time and no Ctrl+C,
    [monitor_continuous] runs exactly n cycles, where n is the least number
    of intervals that cover the duration (none for a duration of 0 or
    less), starts them at t, t + interval, ..., t + (n-1) * interval and
    returns at t + n * interval. *)
Theorem continuous_mode_runs_ceiling_many_cycles
  (env : Env) (interval duration : Z) (n fuel : nat) (w : World) :
  0 < interval ->
  (forall t, latency (server_at env t) = 0) ->
  (forall t, quiet_server (server_at env t)) ->
  (forall t, sleep_interrupt env t = None) ->
  duration <= Z.of_nat n * interval ->
  (n <> 0%nat -> (Z.of_nat n - 1) * interval < duration) ->
  (n <= fuel)%nat ->
  exists w' evs,
    monitor_continuous env interval duration fuel w = Some (Ok tt, w') /\
    clock w' = clock w + Z.of_nat n * interval /\
    trace w' = (trace w ++ evs)%list /\
    connect_times evs = map (fun i => clock w + Z.of_nat i * interval) (seq 0 n).
Proof.
  intros Hi Hlat Hq Hs Hd Hlast Hfuel. rewrite monitor_continuous_unfold.
  destruct (while_loop_cycles env interval (clock w + duration) Hi Hlat Hq Hs
              n fuel (announced interval duration w))
    as (w' & evs & Hrun & Hc & Ht & Hct).
  - simpl. lia.
  - intros Hn. specialize (Hlast Hn). simpl. lia.
  - exact Hfuel.
  - exists w', evs. rewrite Hrun. auto.
Qed.

Lemma continuous_mode_runs_ceiling_many_cycles_witness :
  exists w' evs,
    monitor_continuous (Sample.env_of Sample.healthy) 5 60 12 Sample.w0
    = Some (Ok tt, w') /\
    clock w' = 60 /\
    trace w' = evs /\
    connect_times evs = [0; 5; 10; 15; 20; 25; 30; 35; 40; 45; 50; 55].
Proof.
  assert (Hq : forall t : Z,
             quiet_server (server_at (Sample.env_of Sample.healthy) t))
    by (intros t; repeat split; discriminate).
  exact (continuous_mode_runs_ceiling_many_cycles
           (Sample.env_of Sample.healthy) 5 60 12 12 Sample.w0
           eq_refl (fun _ => eq_refl) Hq (fun _ => eq_refl)
           ltac:(vm_compute; discriminate) ltac:(intros _; reflexivity)
           (le_n 12)).
Defined.

Lemma while_loop_terminates (env : Env) (interval end_time : Z) :
  0 < interval ->
  (forall t, 0 <= latency (server_at env t)) ->
  forall (n fuel : nat) (w : World),
    end_time <= clock w + Z.of_nat n * interval ->
    (n <= fuel)%nat ->
    exists r w', while_loop env interval end_time fuel w = Some (r, w').
Proof.
  intros Hi Hlat. induction n as [|n IH]; intros fuel w Hend Hfuel.
  - exists (Ok tt), w. apply while_loop_stop. simpl in Hend. lia.
  - destruct fuel as [|fuel]; [lia|]. simpl.
    destruct (clock w <? end_time) eqn:E; [|now exists (Ok tt), w].
    destruct (loop_body env interval w) as [[[]|e] w1] eqn:Hb;
      [|now exists (Raise e), w1].
    apply IH; [|lia].
    destruct (loop_body_ok_clock env interval w w1 tt (Hlat _) Hb) as (_ & Hc).
    rewrite Nat2Z.inj_succ in Hend. lia.
Qed.

(** X12: with a positive interval and driver calls that do not run the clock
    backwards, [monitor_continuous] always comes to an end, whatever the
    server answers and whenever Ctrl+C arrives: it goes round the loop at
    most n times when n intervals cover the duration. *)
Theorem continuous_mode_terminates
  (env : Env) (interval duration : Z) (n fuel : nat) (w : World) :
  0 < interval ->
  (forall t, 0 <= latency (server_at env t)) ->
  duration <= Z.of_nat n * interval ->
  (n <= fuel)%nat ->
  exists r w', monitor_continuous env interval duration fuel w = Some (r, w').
Proof.
  intros Hi Hlat Hd Hfuel. rewrite monitor_continuous_unfold.
  destruct (while_loop_terminates env interval (clock w + duration) Hi Hlat
              n fuel (announced interval duration w)) as (r & w' & Hrun).
  - simpl. lia.
  - exact Hfuel.
  - rewrite Hrun. destruct r as [u|[cls msg|]]; unfold print;
      eexists; eexists; reflexivity.
Qed.

Lemma continuous_mode_terminates_witness :
  exists r w',
    monitor_continuous Sample.env_recovering 5 60 12 Sample.w0 = Some (r, w').
Proof.
  apply (continuous_mode_terminates Sample.env_recovering 5 60 12 12 Sample.w0).
  - reflexivity.
  - intros t. simpl. destruct (t <? 5); simpl; lia.
  - vm_compute. discriminate.
  - apply le_n.
Defined.

(** ** A failing cycle inside a run *)

Lemma loop_body_quiet_out (env : Env) (interval : Z) (w : World) :
  0 <= interval ->
  latency (server_at env (clock w)) = 0 ->
  quiet_server (server_at env (clock w)) ->
  sleep_interrupt env (clock w) = None ->
  exists w1,
    loop_body env interval w = (Ok tt, w1) /\
    clock w1 = clock w + interval /\
    stdout w1
    = (stdout (snd (monitor_once env w)) ++ [refreshing_line interval])%list.
Proof.
  intros Hi Hlat Hq Hs. unfold loop_body.
  pose proof (monitor_once_quiet env w Hq) as Hr.
  pose proof (monitor_once_shape env w) as (out & evs & k & _ & _ & Hc & _).
  rewrite Hlat, Z.mul_0_r, Z.add_0_r in Hc.
  unfold bind at 1. destruct (monitor_once env w) as [r wa].
  simpl in Hr, Hc. subst r.
  unfold bind at 1. unfold print at 1.
  set (wb := mkWorld (clock wa) (stdout wa ++ [refreshing_line interval]) (trace wa)).
  assert (Hsb : sleep_interrupt env (clock wb) = None) by (simpl; now rewrite Hc).
  rewrite (time_sleep_done env interval wb Hi Hsb).
  eexists. split; [reflexivity|]. subst wb. cbn [clock stdout trace snd].
  split; [now rewrite Hc | reflexivity].
Qed.

(** A line that the cycle due at the [j]-th scheduled time prints is among
    the lines of the whole stretch of [n] cycles. *)
Lemma while_loop_cycles_report (env : Env) (interval end_time : Z) (line : string) :
  0 < interval ->
  (forall t, latency (server_at env t) = 0) ->
  (forall t, quiet_server (server_at env t)) ->
  (forall t, sleep_interrupt env t = None) ->
  forall (n fuel : nat) (w : World) (j : nat),
    end_time <= clock w + Z.of_nat n * interval ->
    (n <> 0%nat -> clock w + (Z.of_nat n - 1) * interval < end_time) ->
    (n <= fuel)%nat ->
    (j < n)%nat ->
    (forall v, clock v = clock w + Z.of_nat j * interval ->
       exists o1 o2,
         stdout (snd (monitor_once env v)) = (stdout v ++ o1 ++ line :: o2)%list) ->
    exists w' out,
      while_loop env interval end_time fuel w = Some (Ok tt, w') /\
      stdout w' = (stdout w ++ out)%list /\
      In line out.
Proof.
  intros Hi Hlat Hq Hs.
  induction n as [|n IH]; intros fuel w j Hend Hlast Hfuel Hj Hline; [lia|].
  destruct fuel as [|fuel]; [lia|].
  rewrite Nat2Z.inj_succ in Hend, Hlast.
  assert (Hlt : clock w < end_time).
  { specialize (Hlast ltac:(discriminate)).
    assert (0 <= Z.of_nat n * interval) by (apply Z.mul_nonneg_nonneg; lia).
    lia. }
  destruct (loop_body_quiet_out env interval w ltac:(lia) (Hlat _) (Hq _) (Hs _))
    as (w1 & Hb & Hc1 & Ho1).
  rewrite (while_loop_step env interval end_time fuel w w1 Hlt Hb).
  destruct j as [|j].
  - destruct (while_loop_cycles env interval end_time Hi Hlat Hq Hs n fuel w1)
      as (w' & evs & Hrun & _).
    + rewrite Hc1. lia.
    + intros Hn. rewrite Hc1. specialize (Hlast ltac:(discriminate)). lia.
    + lia.
    + destruct (while_loop_inv _ _ _ _ _ _ _ Hrun) as (out & es & Ho & _).
      destruct (Hline w ltac:(simpl; lia)) as (o1 & o2 & Hl).
      exists w', (o1 ++ line :: o2 ++ [refreshing_line interval] ++ out)%list.
      split; [exact Hrun|]. split.
      * rewrite Ho, Ho1, Hl. rewrite <- !app_assoc. cbn [app]. reflexivity.
      * apply in_or_app. right. left. reflexivity.
  - destruct (IH fuel w1 j) as (w' & out & Hrun & Ho & Hin).
    + rewrite Hc1. lia.
    + intros Hn. rewrite Hc1. specialize (Hlast ltac:(discriminate)). lia.
    + lia.
    + lia.
    + intros v Hv. apply Hline. rewrite Hv, Hc1, Nat2Z.inj_succ. lia.
    + destruct (monitor_once_shape env w) as (out0 & _ & _ & Ho0 & _).
      exists w', (out0 ++ [refreshing_line interval] ++ out)%list.
      split; [exact Hrun|]. split.
      * rewrite Ho, Ho1, Ho0. now rewrite <- !app_assoc.
      * apply in_or_app. right. apply in_or_app. now right.
Qed.

(** A cycle whose first failing call raises an ordinary exception ends its
    output with the error line. *)
Lemma monitor_once_reports (env : Env) (v : World) (i : nat) (cls msg : string) :
  (forall k, (k < i)%nat -> call_failure (server_at env (clock v)) k = None) ->
  displays_pass (server_at env (clock v)) i ->
  call_failure (server_at env (clock v)) i = Some (PyException cls msg) ->
  exists o1,
    stdout (snd (monitor_once env v))
    = (stdout v ++ o1 ++ [(nl ++ "[ERROR] " ++ msg)%string])%list.
Proof.
  intros Hprev Hshow Hfail.
  destruct (cycle_body_fails_at env _ v i _ Hprev Hshow Hfail) as (Hr & _).
  destruct (cycle_body_shape env (server_at env (clock v)) v)
    as (out & _ & _ & Ho & _).
  destruct (cycle_body env (server_at env (clock v)) v) as [r v1] eqn:E.
  simpl in Hr, Ho. subst r.
  rewrite (monitor_once_catches env v v1 cls msg E). cbn [snd stdout].
  exists out. now rewrite Ho, <- app_assoc.
Qed.

(** C1: no ordinary exception leaves [monitor_once].  Whatever statement of
    the cycle raises it, the handler prints the one line "[ERROR] <message>"
    (after a blank line) and the cycle returns normally; a failed connection
    leaves exactly that on the output.  In the loop, after a failing cycle,
    the refresh notice is printed, the sleep is taken, and the loop goes on
    from the next deadline test.  In a run of n scheduled cycles that no
    Ctrl+C reaches and whose driver calls take no time, a cycle in which the
    connection or a query fails does not end the run: the run returns
    normally after all n cycles, each started on schedule, those after the
    failing one included, and the error line is among its output. *)
Theorem cycle_errors_are_reported_not_raised (env : Env) (w : World) :
  (forall cls msg, fst (monitor_once env w) <> Raise (PyException cls msg)) /\
  (forall cls msg w1,
      cycle_body env (server_at env (clock w)) w
      = (Raise (PyException cls msg), w1) ->
      monitor_once env w
      = (Ok tt,
         mkWorld (clock w1) (stdout w1 ++ [nl ++ "[ERROR] " ++ msg]) (trace w1))) /\
  (forall cls msg,
      connect (server_at env (clock w)) = Raise (PyException cls msg) ->
      monitor_once env w
      = (Ok tt,
         mkWorld (clock w + latency (server_at env (clock w)))
           (stdout w ++ [nl ++ "[ERROR] " ++ msg])
           (trace w ++ [(clock w, EvConnect)])) /\
      lines_of [nl ++ "[ERROR] " ++ "refused"] = [""; "[ERROR] refused"]) /\
  (forall interval end_time fuel cls msg w1,
      clock w < end_time ->
      0 <= interval ->
      cycle_body env (server_at env (clock w)) w
      = (Raise (PyException cls msg), w1) ->
      sleep_interrupt env (clock w1) = None ->
      while_loop env interval end_time (S fuel) w
      = while_loop env interval end_time fuel
          (mkWorld (clock w1 + interval)
             (stdout w1 ++ [nl ++ "[ERROR] " ++ msg; refreshing_line interval])
             (trace w1 ++ [(clock w1, EvSleep interval)]))) /\
  (forall interval duration (n fuel j i : nat) cls msg,
      0 < interval ->
      (forall t, latency (server_at env t) = 0) ->
      (forall t, quiet_server (server_at env t)) ->
      (forall t, sleep_interrupt env t = None) ->
      duration <= Z.of_nat n * interval ->
      (n <> 0%nat -> (Z.of_nat n - 1) * interval < duration) ->
      (n <= fuel)%nat ->
      (j < n)%nat ->
      let srv := server_at env (clock w + Z.of_nat j * interval) in
      (forall k, (k < i)%nat -> call_failure srv k = None) ->
      displays_pass srv i ->
      call_failure srv i = Some (PyException cls msg) ->
      exists w' out evs,
        monitor_continuous env interval duration fuel w = Some (Ok tt, w') /\
        clock w' = clock w + Z.of_nat n * interval /\
        stdout w' = (stdout w ++ out)%list /\
        In (nl ++ "[ERROR] " ++ msg) out /\
        trace w' = (trace w ++ evs)%list /\
        connect_times evs
        = map (fun c => clock w + Z.of_nat c * interval) (seq 0 n)).
Proof.
  split; [|split; [|split; [|split]]].
  - intros cls msg H. destruct (monitor_once_result env w) as [E|E];
      rewrite E in H; discriminate H.
  - intros cls msg w1. apply monitor_once_catches.
  - intros cls msg H. split; [|reflexivity].
    erewrite monitor_once_catches;
      [|apply (cycle_body_connect_fails env _ w _ H)]. reflexivity.
  - intros interval end_time fuel cls msg w1 Hlt Hi Hbody Hs.
    apply while_loop_step; [exact Hlt|].
    unfold loop_body. unfold bind at 1.
    rewrite (monitor_once_catches env w w1 cls msg Hbody).
    unfold bind at 1. unfold print at 1. cbn [clock stdout trace].
    rewrite time_sleep_done; [|exact Hi|exact Hs].
    cbn [clock stdout trace]. now rewrite app_assoc1.
  - intros interval duration n fuel j i cls msg Hi Hlat Hq Hs Hd Hlast Hfuel Hj
      srv Hprev Hshow Hfail.
    rewrite monitor_continuous_unfold.
    set (w0 := announced interval duration w).
    destruct (while_loop_cycles env interval (clock w + duration) Hi Hlat Hq Hs
                n fuel w0) as (w' & evs & Hrun & Hc & Ht & Hct).
    { simpl. lia. }
    { intros Hn. specialize (Hlast Hn). simpl. lia. }
    { exact Hfuel. }
    destruct (while_loop_cycles_report env interval (clock w + duration)
                (nl ++ "[ERROR] " ++ msg) Hi Hlat Hq Hs n fuel w0 j)
      as (w'' & out & Hrun' & Ho & Hin).
    { simpl. lia. }
    { intros Hn. specialize (Hlast Hn). simpl. lia. }
    { exact Hfuel. }
    { exact Hj. }
    { intros v Hv. change (clock w0) with (clock w) in Hv.
      destruct (monitor_once_reports env v i cls msg) as (o1 & Ho1).
      - rewrite Hv. exact Hprev.
      - rewrite Hv. exact Hshow.
      - rewrite Hv. exact Hfail.
      - exists o1, []. exact Ho1. }
    rewrite Hrun in Hrun'. injection Hrun' as <-.
    rewrite Hrun.
    exists w', ([starting_line interval duration;
                 ("Press Ctrl+C to stop" ++ nl)%string] ++ out)%list, evs.
    split; [reflexivity|]. split; [exact Hc|]. split.
    { rewrite Ho. unfold w0, announced. cbn [stdout].
      now rewrite <- !app_assoc. }
    split; [apply in_or_app; now right|].
    split; [exact Ht | exact Hct].
Qed.

Lemma cycle_errors_are_reported_not_raised_witness :
  monitor_once (Sample.env_of Sample.unreachable) Sample.w0
  = (Ok tt, mkWorld 0 [nl ++ "[ERROR] 08001: server not reachable"] [(0, EvConnect)]) /\
  exists w' out evs,
    monitor_continuous Sample.env_recovering 5 12 3 Sample.w0 = Some (Ok tt, w') /\
    clock w' = 15 /\
    stdout w' = out /\
    In (nl ++ "[ERROR] 08001: server not reachable") out /\
    trace w' = evs /\
    connect_times evs = [0; 5; 10].
Proof.
  split.
  - exact (proj1 (proj1 (proj2 (proj2 (cycle_errors_are_reported_not_raised
             (Sample.env_of Sample.unreachable) Sample.w0)))
             "pyodbc.OperationalError" "08001: server not reachable" eq_refl)).
  - assert (Hq : forall t : Z, quiet_server (server_at Sample.env_recovering t)).
    { intros t. simpl. destruct (t <? 5); repeat split; discriminate. }
    assert (Hlat : forall t : Z, latency (server_at Sample.env_recovering t) = 0).
    { intros t. simpl. now destruct (t <? 5). }
    exact (proj2 (proj2 (proj2 (proj2 (cycle_errors_are_reported_not_raised
             Sample.env_recovering Sample.w0))))
             5 12 3%nat 3%nat 0%nat 0%nat
             "pyodbc.OperationalError" "08001: server not reachable"
             eq_refl Hlat Hq (fun _ => eq_refl)
             ltac:(vm_compute; discriminate) ltac:(intros _; reflexivity)
             (le_n 3) ltac:(lia)
             ltac:(intros k Hk; lia)
             ltac:(split; [|split]; intros Hk; lia)
             eq_refl).
Defined.

Lemma monitor_once_takes_time (env : Env) (w : World) :
  0 <= latency (server_at env (clock w)) ->
  clock w + latency (server_at env (clock w)) <= clock (snd (monitor_once env w)).
Proof.
  intros Hlat.
  assert (Hbody : clock w + latency (server_at env (clock w))
                  <= clock (snd (cycle_body env (server_at env (clock w)) w))).
  { set (srv := server_at env (clock w)) in *.
    rewrite cycle_body_unfold. unfold get_connection.
    unfold bind at 1. unfold bind at 1. unfold log at 1. unfold bind at 1.
    unfold tick at 1. unfold lift at 1. cbn [clock stdout trace].
    set (w1 := mkWorld (clock w + latency srv) (stdout w)
                 (trace w ++ [(clock w, EvConnect)])).
    destruct (connect srv) as [u|e]; [|cbn; lia].
    destruct (frames_cycle_rest env srv w1) as (out & evs & k & _ & _ & Hc & _).
    rewrite Hc. subst w1. cbn [clock].
    assert (0 <= Z.of_nat k * latency srv) by (apply Z.mul_nonneg_nonneg; lia).
    lia. }
  unfold monitor_once, try_except_Exception.
  destruct (cycle_body env (server_at env (clock w)) w) as [[u|[cls msg|]] w1];
    exact Hbody.
Qed.

Lemma loop_body_takes_time (env : Env) (interval : Z) (w w1 : World) (u : unit) :
  0 <= latency (server_at env (clock w)) ->
  loop_body env interval w = (Ok u, w1) ->
  clock w + latency (server_at env (clock w)) + interval <= clock w1.
Proof.
  intros Hlat. unfold loop_body, bind, print.
  pose proof (monitor_once_takes_time env w Hlat) as Hc.
  destruct (monitor_once env w) as [[v|e] wa]; [|discriminate].
  cbn [snd] in Hc. intros H. apply time_sleep_ok in H. cbn [clock] in H. lia.
Qed.

Lemma while_loop_ends_by_latency (env : Env) (interval end_time lmin : Z) :
  0 <= interval ->
  0 < lmin ->
  (forall t, lmin <= latency (server_at env t)) ->
  forall (n fuel : nat) (w : World),
    end_time <= clock w + Z.of_nat n * (interval + lmin) ->
    (n <= fuel)%nat ->
    exists r w', while_loop env interval end_time fuel w = Some (r, w').
Proof.
  intros Hi Hl Hlat. induction n as [|n IH]; intros fuel w Hend Hfuel.
  - exists (Ok tt), w. apply while_loop_stop. simpl in Hend. lia.
  - destruct fuel as [|fuel]; [lia|]. simpl.
    destruct (clock w <? end_time) eqn:E; [|now exists (Ok tt), w].
    destruct (loop_body env interval w) as [[[]|e] w1] eqn:Hb;
      [|now exists (Raise e), w1].
    apply IH; [|lia].
    pose proof (Hlat (clock w)) as Hw.
    pose proof (loop_body_takes_time env interval w w1 tt ltac:(lia) Hb) as Hc.
    rewrite Nat2Z.inj_succ in Hend. lia.
Qed.

(** X13: an interval of 0 is accepted, and the loop then runs its cycles back
    to back; it still comes to an end, because the cycles themselves use up
    the duration.  When every driver round trip takes at least l > 0 seconds
    and the interval is 0 or more, [monitor_continuous] goes round the loop
    at most n times when n times (interval + l) covers the duration,
    whatever the server answers and whenever Ctrl+C arrives. *)
Theorem zero_interval_ends_when_cycles_take_time
  (env : Env) (interval duration lmin : Z) (n fuel : nat) (w : World) :
  0 <= interval ->
  0 < lmin ->
  (forall t, lmin <= latency (server_at env t)) ->
  duration <= Z.of_nat n * (interval + lmin) ->
  (n <= fuel)%nat ->
  exists r w', monitor_continuous env interval duration fuel w = Some (r, w').
Proof.
  intros Hi Hl Hlat Hd Hfuel. rewrite monitor_continuous_unfold.
  destruct (while_loop_ends_by_latency env interval (clock w + duration) lmin
              Hi Hl Hlat n fuel (announced interval duration w))
    as (r & w' & Hrun).
  - simpl. lia.
  - exact Hfuel.
  - rewrite Hrun. destruct r as [u|[cls msg|]]; unfold print;
      eexists; eexists; reflexivity.
Qed.

Lemma zero_interval_ends_when_cycles_take_time_witness :
  exists r w',
    monitor_continuous (Sample.env_of Sample.slow) 0 60 30 Sample.w0
    = Some (r, w').
Proof.
  apply (zero_interval_ends_when_cycles_take_time
           (Sample.env_of Sample.slow) 0 60 2 30 30 Sample.w0).
  - discriminate.
  - reflexivity.
  - intros t. discriminate.
  - discriminate.
  - apply le_n.
Defined.

(** X14: a negative interval is not rejected up front.  With a positive
    duration the first cycle runs; then [time.sleep] raises ValueError, which
    the KeyboardInterrupt handler does not catch: the call ends in that
    exception after exactly one cycle, without the stop message. *)
Theorem negative_interval_raises_after_one_cycle
  (env : Env) (interval duration : Z) (fuel : nat) (w : World) :
  interval < 0 ->
  0 < duration ->
  quiet_server (server_at env (clock w)) ->
  exists w' out evs,
    monitor_continuous env interval duration (S fuel) w
    = Some (Raise value_error, w') /\
    stdout w' = (stdout w ++ out)%list /\
    Forall not_stop out /\
    trace w' = (trace w ++ evs)%list /\
    connect_times evs = [clock w].
Proof.
  intros Hi Hd Hq. rewrite monitor_continuous_unfold.
  set (w0 := announced interval duration w).
  pose proof (monitor_once_quiet env w0 Hq) as Hr.
  pose proof (monitor_once_shape env w0) as (out & evs & k & Ho & He & _ & Hn & Hin).
  assert (Hbody : exists w1,
            loop_body env interval w0 = (Raise value_error, w1) /\
            stdout w1 = (stdout w0 ++ out ++ [refreshing_line interval])%list /\
            trace w1 = (trace w0 ++ ((clock w0, EvConnect) :: evs)
                        ++ [(clock (snd (monitor_once env w0)), EvSleep interval)])%list).
  { unfold loop_body. unfold bind at 1.
    destruct (monitor_once env w0) as [r wa]. simpl in Hr, Ho, He |- *. subst r.
    unfold bind at 1. unfold print at 1. unfold time_sleep. unfold_monad.
    replace (interval <? 0) with true by (symmetry; now apply Z.ltb_lt).
    eexists. split; [reflexivity|]. cbn [clock stdout trace].
    rewrite Ho, He. now rewrite <- !app_assoc. }
  destruct Hbody as (w1 & Hb & Ho1 & Ht1).
  rewrite (while_loop_raise env interval (clock w + duration) fuel w0 w1
             value_error ltac:(simpl; lia) Hb).
  exists w1,
    ([starting_line interval duration; ("Press Ctrl+C to stop" ++ nl)%string]
     ++ out ++ [refreshing_line interval])%list,
    (((clock w, EvConnect) :: evs)
     ++ [(clock (snd (monitor_once env w0)), EvSleep interval)])%list.
  split; [reflexivity|]. split; [rewrite Ho1; subst w0; simpl; now rewrite <- app_assoc|].
  split.
  { apply Forall_app. split; [apply not_stop_announcement|].
    apply Forall_app. split; [exact Hn|].
    constructor; [apply not_stop_refreshing_line | constructor]. }
  split; [exact Ht1|].
  unfold connect_times. rewrite filter_app. simpl.
  now rewrite filter_connect_inner.
Qed.

Lemma negative_interval_raises_after_one_cycle_witness :
  exists w',
    monitor_continuous (Sample.env_of Sample.healthy) (-1) 60 1 Sample.w0
    = Some (Raise value_error, w').
Proof.
  destruct (negative_interval_raises_after_one_cycle
              (Sample.env_of Sample.healthy) (-1) 60 0 Sample.w0
              eq_refl eq_refl ltac:(repeat split; discriminate))
    as (w' & _ & _ & H & _).
  now exists w'.
Defined.

(** X15: with a duration of 0 or less the deadline has passed before the
    first test: only the two announcement lines are printed, no cycle runs
    and no connection is attempted, whatever the interval. *)
Theorem nonpositive_duration_runs_no_cycle
  (env : Env) (interval duration : Z) (fuel : nat) (w : World) :
  duration <= 0 ->
  monitor_continuous env interval duration fuel w
  = Some (Ok tt,
          mkWorld (clock w)
            (stdout w ++ [starting_line interval duration;
                          "Press Ctrl+C to stop" ++ nl])
            (trace w)).
Proof.
  intros Hd. rewrite monitor_continuous_unfold.
  rewrite while_loop_stop by (simpl; lia). reflexivity.
Qed.

Lemma nonpositive_duration_runs_no_cycle_witness :
  monitor_continuous (Sample.env_of Sample.healthy) 5 0 0 Sample.w0
  = Some (Ok tt,
          mkWorld 0 [starting_line 5 0; "Press Ctrl+C to stop" ++ nl] []).
Proof.
  exact (nonpositive_duration_runs_no_cycle
           (Sample.env_of Sample.healthy) 5 0 0 Sample.w0
           ltac:(vm_compute; discriminate)).
Defined.

(** ** The entry point *)

Lemma main_menu (c : Console) :
  snd (at_console (print "SQL Server Health Monitor" ;;;
                   print "1. Single snapshot" ;;;
                   print "2. Continuous monitoring (60 seconds)") c)
  = mkConsole (mkWorld (clock (con_world c)) (stdout (con_world c) ++ menu)
                 (trace (con_world c)))
      (con_prompts c).
Proof.
  unfold at_console, menu. unfold_monad. cbn [snd clock stdout trace].
  now rewrite !app_assoc1.
Qed.

(** The console after the menu and the prompt. *)
Lemma main_prompt (strip : string -> string) (env : Env) (line : result string)
  (fuel : nat) (c : Console) :
  let c2 := mkConsole
              (mkWorld (clock (con_world c)) (stdout (con_world c) ++ menu)
                 (trace (con_world c)))
              (con_prompts c
               ++ [((List.length (stdout (con_world c)) + 3)%nat,
                    (nl ++ "Select option (1 or 2): ")%string)]) in
  main strip env line fuel c
  = match line with
    | Raise e => Some (Raise e, c2)
    | Ok text =>
        if String.eqb (strip text) "1" then Some (at_console (monitor_once env) c2)
        else if String.eqb (strip text) "2" then
          match monitor_continuous env 5 60 fuel (con_world c2) with
          | Some (r, w') => Some (r, mkConsole w' (con_prompts c2))
          | None => None
          end
        else Some (at_console (print "Invalid choice") c2)
    end.
Proof.
  intros c2. unfold main. rewrite main_menu. unfold input.
  cbn [con_world con_prompts stdout].
  replace (List.length (stdout (con_world c) ++ menu))
    with (List.length (stdout (con_world c)) + 3)%nat
    by (rewrite length_app; reflexivity).
  destruct line; reflexivity.
Qed.

(** X16: unless the line read, once stripped, is "1" or "2", [main] never
    touches the server.  A line that is neither prints the menu and
    "Invalid choice" and returns; a failed read (EOFError, or Ctrl+C at the
    prompt) is not handled and ends [main] in that exception right after the
    menu.  In both cases the prompt was written once, after the third menu
    line, and the loop bound plays no part. *)
Theorem main_without_a_choice_never_connects
  (strip : string -> string) (env : Env) (line : result string) (fuel : nat)
  (c : Console) :
  match line with
  | Ok text => strip text <> "1" /\ strip text <> "2"
  | Raise _ => True
  end ->
  main strip env line fuel c
  = Some (match line with Ok _ => Ok tt | Raise e => Raise e end,
          mkConsole
            (mkWorld (clock (con_world c))
               (stdout (con_world c) ++ menu
                ++ match line with Ok _ => ["Invalid choice"] | Raise _ => [] end)
               (trace (con_world c)))
            (con_prompts c
             ++ [((List.length (stdout (con_world c)) + 3)%nat,
                  (nl ++ "Select option (1 or 2): ")%string)])).
Proof.
  intros H. rewrite main_prompt. destruct line as [text|e].
  - destruct H as (H1 & H2).
    apply String.eqb_neq in H1, H2. rewrite H1, H2.
    unfold at_console, print. cbn [fst snd con_world con_prompts clock stdout trace].
    now rewrite <- app_assoc.
  - now rewrite app_nil_r.
Qed.

Lemma main_without_a_choice_never_connects_witness :
  main strip_spaces (Sample.env_of Sample.healthy) (Ok " 3 ") 0
    (mkConsole Sample.w0 [])
  = Some (Ok tt,
          mkConsole (mkWorld 0 (menu ++ ["Invalid choice"]) [])
            [(3%nat, (nl ++ "Select option (1 or 2): ")%string)]).
Proof.
  assert (H : strip_spaces " 3 " <> "1" /\ strip_spaces " 3 " <> "2")
    by (split; vm_compute; discriminate).
  rewrite (main_without_a_choice_never_connects strip_spaces
             (Sample.env_of Sample.healthy) (Ok " 3 ") 0
             (mkConsole Sample.w0 []) H).
  reflexivity.
Defined.

(** X17: with the choice "1", [main] runs one cycle and ends as the cycle
    does: it makes exactly one connection attempt, at the time it was
    started, and ends normally or in KeyboardInterrupt, never in an ordinary
    exception. *)
Theorem main_single_snapshot_runs_one_cycle
  (strip : string -> string) (env : Env) (text : string) (fuel : nat)
  (c : Console) :
  strip text = "1" ->
  exists r c' evs,
    main strip env (Ok text) fuel c = Some (r, c') /\
    (r = Ok tt \/ r = Raise KeyboardInterrupt) /\
    trace (con_world c') = (trace (con_world c) ++ evs)%list /\
    connect_times evs = [clock (con_world c)].
Proof.
  intros H. rewrite main_prompt. rewrite H, String.eqb_refl.
  set (w2 := mkWorld (clock (con_world c)) (stdout (con_world c) ++ menu)
               (trace (con_world c))).
  unfold at_console. cbn [con_world con_prompts].
  destruct (monitor_once_shape env w2) as (out & evs & k & _ & He & _ & _ & Hin).
  eexists. eexists. exists ((clock w2, EvConnect) :: evs).
  split; [reflexivity|]. split; [apply monitor_once_result|].
  cbn [con_world]. split; [exact He|].
  unfold connect_times. simpl. now rewrite filter_connect_inner.
Qed.

Lemma main_single_snapshot_runs_one_cycle_witness :
  exists r c' evs,
    main strip_spaces (Sample.env_of Sample.unreachable) (Ok "1 ") 0
      (mkConsole Sample.w0 [])
    = Some (r, c') /\
    (r = Ok tt \/ r = Raise KeyboardInterrupt) /\
    trace (con_world c') = evs /\
    connect_times evs = [0].
Proof.
  exact (main_single_snapshot_runs_one_cycle strip_spaces
           (Sample.env_of Sample.unreachable) "1 " 0 (mkConsole Sample.w0 [])
           eq_refl).
Defined.

(** X18: with the choice "2", cycles that take no time and no Ctrl+C, [main]
    monitors for the 60 seconds its menu announces: twelve cycles, started
    every 5 seconds from the start time on, and a normal return 60 seconds
    after the start. *)
Theorem main_continuous_runs_twelve_cycles
  (strip : string -> string) (env : Env) (text : string) (fuel : nat)
  (c : Console) :
  strip text = "2" ->
  (forall t, latency (server_at env t) = 0) ->
  (forall t, quiet_server (server_at env t)) ->
  (forall t, sleep_interrupt env t = None) ->
  (12 <= fuel)%nat ->
  exists c' evs,
    main strip env (Ok text) fuel c = Some (Ok tt, c') /\
    clock (con_world c') = clock (con_world c) + 60 /\
    trace (con_world c') = (trace (con_world c) ++ evs)%list /\
    connect_times evs
    = map (fun i => clock (con_world c) + Z.of_nat i * 5) (seq 0 12).
Proof.
  intros H Hlat Hq Hs Hfuel. rewrite main_prompt. rewrite H.
  change (String.eqb "2" "1") with false. rewrite String.eqb_refl.
  cbn [con_world con_prompts].
  set (w2 := mkWorld (clock (con_world c)) (stdout (con_world c) ++ menu)
               (trace (con_world c))).
  destruct (continuous_mode_runs_ceiling_many_cycles env 5 60 12 fuel w2
              ltac:(lia) Hlat Hq Hs ltac:(simpl; lia) ltac:(intros _; simpl; lia)
              Hfuel)
    as (w' & evs & Hrun & Hc & Ht & Hct).
  rewrite Hrun. exists (mkConsole w' (con_prompts c
     ++ [((List.length (stdout (con_world c)) + 3)%nat,
          (nl ++ "Select option (1 or 2): ")%string)])), evs.
  cbn [con_world]. repeat split; auto.
Qed.

Lemma main_continuous_runs_twelve_cycles_witness :
  exists c' evs,
    main strip_spaces (Sample.env_of Sample.healthy) (Ok "2") 12
      (mkConsole Sample.w0 [])
    = Some (Ok tt, c') /\
    clock (con_world c') = 60 /\
    trace (con_world c') = evs /\
    connect_times evs = [0; 5; 10; 15; 20; 25; 30; 35; 40; 45; 50; 55].
Proof.
  assert (Hq : forall t : Z,
             quiet_server (server_at (Sample.env_of Sample.healthy) t))
    by (intros t; repeat split; discriminate).
  exact (main_continuous_runs_twelve_cycles strip_spaces
           (Sample.env_of Sample.healthy) "2" 12 (mkConsole Sample.w0 [])
           eq_refl (fun _ => eq_refl) Hq (fun _ => eq_refl) (le_n 12)).
Defined.

(** ** The connection test script *)

Lemma tc_print_all (ls : list string) (t : TestConnection.Terminal) :
  TestConnection.print_all ls t
  = (Ok tt, TestConnection.mkTerminal (TestConnection.out t ++ ls)
              (TestConnection.calls t)).
Proof.
  revert t. induction ls as [|l ls IH]; intros t; simpl.
  - unfold TestConnection.ret. destruct t; simpl. now rewrite app_nil_r.
  - unfold TestConnection.bind, TestConnection.print. rewrite IH. simpl.
    now rewrite app_assoc1.
Qed.

Lemma tc_handle (cls msg : string) (t : TestConnection.Terminal) :
  TestConnection.handle (PyException cls msg) t
  = (Ok tt,
     TestConnection.mkTerminal
       (TestConnection.out t
        ++ if TestConnection.is_pyodbc_error cls
           then TestConnection.failure_block msg
           else [TestConnection.unexpected_line msg])
       (TestConnection.calls t)).
Proof.
  unfold TestConnection.handle.
  destruct (TestConnection.is_pyodbc_error cls); [apply tc_print_all|reflexivity].
Qed.

Lemma tc_unfold (srv : TestConnection.Server) (t : TestConnection.Terminal) :
  TestConnection.test_connection srv t
  = match TestConnection.attempt srv
            (TestConnection.mkTerminal
               (TestConnection.out t ++ TestConnection.banner)
               (TestConnection.calls t)) with
    | (Raise e, t') => TestConnection.handle e t'
    | other => other
    end.
Proof.
  unfold TestConnection.test_connection. unfold TestConnection.bind at 1.
  now rewrite tc_print_all.
Qed.

(** X19: [test_connection] never ends in an ordinary exception.  Whatever
    statement of its try block raises one, it returns normally after
    printing the failure block with the five troubleshooting tips when the
    exception is a pyodbc.Error, and the single "Unexpected error" line
    otherwise. *)
Theorem test_connection_reports_every_failure
  (srv : TestConnection.Server) (t : TestConnection.Terminal) :
  (forall cls msg,
      fst (TestConnection.test_connection srv t) <> Raise (PyException cls msg)) /\
  (forall cls msg t',
      TestConnection.attempt srv
        (TestConnection.mkTerminal
           (TestConnection.out t ++ TestConnection.banner)
           (TestConnection.calls t))
      = (Raise (PyException cls msg), t') ->
      TestConnection.test_connection srv t
      = (Ok tt,
         TestConnection.mkTerminal
           (TestConnection.out t'
            ++ if TestConnection.is_pyodbc_error cls
               then TestConnection.failure_block msg
               else [TestConnection.unexpected_line msg])
           (TestConnection.calls t'))).
Proof.
  split.
  - intros cls msg. rewrite tc_unfold.
    destruct (TestConnection.attempt srv _) as [[[]|[c m|]] t'];
      [discriminate | rewrite tc_handle; discriminate | discriminate].
  - intros cls msg t' H. rewrite tc_unfold, H. apply tc_handle.
Qed.

Lemma test_connection_reports_every_failure_witness :
  TestConnection.test_connection TestConnection.refused TestConnection.t0
  = (Ok tt,
     TestConnection.mkTerminal
       (TestConnection.banner ++ ["Attempting connection..."]
        ++ TestConnection.failure_block "08001: refused")
       [TestConnection.Connect]).
Proof.
  exact (proj2 (test_connection_reports_every_failure
                  TestConnection.refused TestConnection.t0)
           "pyodbc.OperationalError" "08001: refused"
           (TestConnection.mkTerminal
              (TestConnection.banner ++ ["Attempting connection..."])
              [TestConnection.Connect])
           eq_refl).
Defined.

Lemma tc_for_rows_shape (rows : list TestConnection.Db) (f : option exn)
  (t : TestConnection.Terminal) :
  exists r ls,
    TestConnection.for_rows rows f t
    = (r, TestConnection.mkTerminal (TestConnection.out t ++ ls)
            (TestConnection.calls t)).
Proof.
  revert t. induction rows as [|row rows IH]; intros t; simpl.
  - destruct f as [e|]; [exists (Raise e), [] | exists (Ok tt), []];
      destruct t; simpl; now rewrite app_nil_r.
  - unfold TestConnection.bind at 1. unfold TestConnection.lift at 1.
    destruct (TestConnection.database_line row) as [line|e].
    + unfold TestConnection.bind at 1. unfold TestConnection.print at 1.
      destruct (IH (TestConnection.mkTerminal (TestConnection.out t ++ [line])
                      (TestConnection.calls t))) as (r & ls & E).
      exists r, (line :: ls). rewrite E. simpl. now rewrite app_assoc1.
    + exists (Raise e), []. destruct t; simpl; now rewrite app_nil_r.
Qed.

Lemma tc_handle_calls (e : exn) (t : TestConnection.Terminal) :
  TestConnection.calls (snd (TestConnection.handle e t)) = TestConnection.calls t.
Proof.
  destruct e as [cls msg|]; [now rewrite tc_handle | reflexivity].
Qed.

Ltac tc_pick_prefix :=
  first [ exists 1%nat; repeat split; try lia; try discriminate; reflexivity
        | exists 2%nat; repeat split; try lia; try discriminate; reflexivity
        | exists 3%nat; repeat split; try lia; try discriminate; reflexivity
        | exists 4%nat; repeat split; try lia; try discriminate; reflexivity
        | exists 5%nat; repeat split; try lia; try discriminate; reflexivity ].

Lemma tc_attempt_calls (srv : TestConnection.Server) (t : TestConnection.Terminal) :
  exists n,
    TestConnection.calls (snd (TestConnection.attempt srv t))
    = (TestConnection.calls t ++ firstn n TestConnection.script_calls)%list /\
    (1 <= n <= 5)%nat /\
    (fst (TestConnection.attempt srv t) = Ok tt -> n = 5%nat) /\
    (n = 5%nat ->
     fst (TestConnection.attempt srv t) = TestConnection.close srv).
Proof.
  destruct srv as [c cu v d f cl].
  unfold TestConnection.attempt, TestConnection.first_column.
  unfold TestConnection.bind, TestConnection.print, TestConnection.call,
    TestConnection.lift, TestConnection.ret, TestConnection.raise.
  cbn [TestConnection.out TestConnection.calls TestConnection.connect
       TestConnection.cursor TestConnection.version TestConnection.databases
       TestConnection.fetch_failure TestConnection.close fst snd].
  destruct c as [[]|ec];
    [|cbn [fst snd TestConnection.calls]; tc_pick_prefix].
  destruct cu as [[]|ecu];
    [|cbn [fst snd TestConnection.calls]; rewrite <- !app_assoc; tc_pick_prefix].
  destruct v as [[ver|]|ev];
    [| cbn [fst snd TestConnection.calls]; rewrite <- !app_assoc; tc_pick_prefix
     | cbn [fst snd TestConnection.calls]; rewrite <- !app_assoc; tc_pick_prefix].
  destruct d as [rows|ed];
    [|cbn [fst snd TestConnection.calls]; rewrite <- !app_assoc; tc_pick_prefix].
  match goal with
  | |- context [TestConnection.for_rows ?r ?g ?u] =>
      destruct (tc_for_rows_shape r g u) as (res & ls & E); rewrite E
  end.
  destruct res as [[]|er];
    [|cbn [fst snd TestConnection.calls]; rewrite <- !app_assoc; tc_pick_prefix].
  destruct cl as [[]|ecl];
    cbn [fst snd TestConnection.calls TestConnection.close];
    rewrite <- !app_assoc; tc_pick_prefix.
Qed.

(** X20: the driver calls of the test are always an initial segment of
    connect, cursor, version query, databases query, close.  The connection
    is closed only when everything before went through, and the line
    "Connection closed successfully" is printed only after a close call that
    succeeded: a test that fails midway leaves its connection open. *)
Theorem test_connection_closes_only_at_the_end
  (srv : TestConnection.Server) (t : TestConnection.Terminal) :
  let t1 := TestConnection.mkTerminal
              (TestConnection.out t ++ TestConnection.banner)
              (TestConnection.calls t) in
  exists n,
    TestConnection.calls (snd (TestConnection.test_connection srv t))
    = (TestConnection.calls t ++ firstn n TestConnection.script_calls)%list /\
    (1 <= n <= 5)%nat /\
    (fst (TestConnection.attempt srv t1) = Ok tt ->
     n = 5%nat /\ TestConnection.close srv = Ok tt) /\
    (forall e, fst (TestConnection.attempt srv t1) = Raise e ->
               TestConnection.close srv <> Raise e -> (n < 5)%nat).
Proof.
  intros t1. destruct (tc_attempt_calls srv t1) as (n & Hc & Hn & Hok & Hlast).
  exists n. split; [|split; [exact Hn|split]].
  - rewrite tc_unfold. fold t1.
    destruct (TestConnection.attempt srv t1) as [[[]|e] t'] eqn:E;
      simpl in Hc; [exact Hc|]. now rewrite tc_handle_calls.
  - intros H. specialize (Hok H). split; [exact Hok|].
    now rewrite <- (Hlast Hok).
  - intros e He Hne. destruct (Nat.eq_dec n 5) as [->|]; [|lia].
    exfalso. apply Hne. now rewrite <- (Hlast eq_refl).
Qed.

Lemma test_connection_closes_only_at_the_end_witness :
  exists n,
    TestConnection.calls
      (snd (TestConnection.test_connection
              (TestConnection.mkServer (Ok tt) (Ok tt) (Ok None)
                 (Ok [TestConnection.master_db]) None (Ok tt))
              TestConnection.t0))
    = firstn n TestConnection.script_calls /\
    (n < 5)%nat.
Proof.
  destruct (test_connection_closes_only_at_the_end
              (TestConnection.mkServer (Ok tt) (Ok tt) (Ok None)
                 (Ok [TestConnection.master_db]) None (Ok tt))
              TestConnection.t0) as (n & Hc & _ & _ & Hopen).
  exists n. split; [exact Hc|].
  exact (Hopen (PyException "TypeError" "'NoneType' object is not subscriptable")
           eq_refl ltac:(discriminate)).
Defined.

Lemma tc_database_line_some (row : TestConnection.Db) :
  TestConnection.Status row <> None ->
  exists line, TestConnection.database_line row = Ok line.
Proof.
  unfold TestConnection.database_line, fmt_opt_str.
  destruct (TestConnection.Status row); [eexists; reflexivity | congruence].
Qed.

Lemma tc_database_lines_exist (rows : list TestConnection.Db) :
  Forall (fun row => TestConnection.Status row <> None) rows ->
  exists ls, Forall2 (fun row l => TestConnection.database_line row = Ok l) rows ls.
Proof.
  induction 1 as [|row rows Hrow Hrows (ls & IH)]; [exists []; constructor|].
  destruct (tc_database_line_some row Hrow) as (line & Hline).
  exists (line :: ls). now constructor.
Qed.

Lemma tc_for_rows_lines (pre : list TestConnection.Db) (ls : list string) :
  Forall2 (fun row l => TestConnection.database_line row = Ok l) pre ls ->
  forall rest f t,
    TestConnection.for_rows (pre ++ rest) f t
    = TestConnection.for_rows rest f
        (TestConnection.mkTerminal (TestConnection.out t ++ ls)
           (TestConnection.calls t)).
Proof.
  induction 1 as [|row line pre ls Hrow Hpre IH]; intros rest f t; simpl.
  - destruct t; simpl. now rewrite app_nil_r.
  - unfold TestConnection.bind at 1. unfold TestConnection.lift at 1.
    rewrite Hrow. unfold TestConnection.bind at 1.
    unfold TestConnection.print at 1. rewrite IH. simpl.
    now rewrite app_assoc1.
Qed.

(** The lines printed between the banner and the database rows. *)
Lemma tc_attempt_listing (srv : TestConnection.Server) (v : string)
  (rows : list TestConnection.Db) (t : TestConnection.Terminal) :
  TestConnection.connect srv = Ok tt ->
  TestConnection.cursor srv = Ok tt ->
  TestConnection.version srv = Ok (Some v) ->
  TestConnection.databases srv = Ok rows ->
  TestConnection.attempt srv t
  = TestConnection.bind
      (TestConnection.for_rows rows (TestConnection.fetch_failure srv))
      (fun _ =>
         TestConnection.bind (TestConnection.call TestConnection.Close) (fun _ =>
         TestConnection.bind (TestConnection.lift (TestConnection.close srv)) (fun _ =>
         TestConnection.bind
           (TestConnection.print (nl ++ "✓ Connection closed successfully"))
           (fun _ => TestConnection.print (str_mul "=" 70)))))
      (TestConnection.mkTerminal
         (TestConnection.out t
          ++ ["Attempting connection..."; (nl ++ "✓ CONNECTION SUCCESSFUL!")%string;
              str_mul "-" 70; "SQL Server Version:"; v; str_mul "-" 70;
              (nl ++ "Databases on this server:")%string;
              TestConnection.databases_header; str_mul "-" 70])
         (TestConnection.calls t
          ++ [TestConnection.Connect; TestConnection.Cursor;
              TestConnection.SelectVersion; TestConnection.SelectDatabases])).
Proof.
  destruct srv as [c cu ver d f cl].
  cbn [TestConnection.connect TestConnection.cursor TestConnection.version
       TestConnection.databases TestConnection.fetch_failure TestConnection.close].
  intros -> -> -> ->.
  unfold TestConnection.attempt, TestConnection.first_column.
  unfold TestConnection.print at 1 2 3 4 5 6 7 8 9.
  unfold TestConnection.call at 1 2 3 4.
  unfold TestConnection.bind at 1 2 3 4 5 6 7 8 9 10 11 12 13 14 15 16 17 18.
  unfold TestConnection.lift at 1 2 3 4. unfold TestConnection.ret.
  cbn [TestConnection.out TestConnection.calls TestConnection.connect
       TestConnection.cursor TestConnection.version TestConnection.databases
       TestConnection.fetch_failure TestConnection.close].
  now rewrite <- !app_assoc.
Qed.

(** X21: when every call succeeds, the version row is there, every database
    has a state and the cursor does not fail, the test prints the banner,
    the success block with the version, the table header and one line per
    database in the order received, then closes the connection and prints
    the two closing lines; the five driver calls were made in order. *)
Theorem test_connection_lists_every_database
  (srv : TestConnection.Server) (v : string) (rows : list TestConnection.Db)
  (t : TestConnection.Terminal) :
  TestConnection.connect srv = Ok tt ->
  TestConnection.cursor srv = Ok tt ->
  TestConnection.version srv = Ok (Some v) ->
  TestConnection.databases srv = Ok rows ->
  Forall (fun row => TestConnection.Status row <> None) rows ->
  TestConnection.fetch_failure srv = None ->
  TestConnection.close srv = Ok tt ->
  exists ls,
    Forall2 (fun row l => TestConnection.database_line row = Ok l) rows ls /\
    TestConnection.test_connection srv t
    = (Ok tt,
       TestConnection.mkTerminal
         (TestConnection.out t ++ TestConnection.banner
          ++ ["Attempting connection..."; (nl ++ "✓ CONNECTION SUCCESSFUL!")%string;
              str_mul "-" 70; "SQL Server Version:"; v; str_mul "-" 70;
              (nl ++ "Databases on this server:")%string;
              TestConnection.databases_header; str_mul "-" 70]
          ++ ls
          ++ [(nl ++ "✓ Connection closed successfully")%string; str_mul "=" 70])
         (TestConnection.calls t ++ TestConnection.script_calls)).
Proof.
  intros Hc Hcu Hv Hd Hrows Hf Hcl.
  destruct (tc_database_lines_exist rows Hrows) as (ls & Hls).
  exists ls. split; [exact Hls|].
  rewrite tc_unfold, (tc_attempt_listing srv v rows _ Hc Hcu Hv Hd).
  unfold TestConnection.bind at 1.
  rewrite <- (app_nil_r rows), (tc_for_rows_lines rows ls Hls [] _ _).
  rewrite Hf, Hcl. simpl TestConnection.for_rows.
  unfold TestConnection.ret, TestConnection.bind, TestConnection.call,
    TestConnection.lift, TestConnection.print.
  cbn [TestConnection.out TestConnection.calls].
  unfold TestConnection.script_calls. now rewrite <- !app_assoc.
Qed.

Lemma test_connection_lists_every_database_witness :
  exists ls,
    Forall2 (fun row l => TestConnection.database_line row = Ok l)
      [TestConnection.master_db] ls /\
    TestConnection.calls
      (snd (TestConnection.test_connection TestConnection.healthy
              TestConnection.t0))
    = TestConnection.script_calls.
Proof.
  destruct (test_connection_lists_every_database TestConnection.healthy
              "Microsoft SQL Server 2022" [TestConnection.master_db]
              TestConnection.t0 eq_refl eq_refl eq_refl eq_refl
              ltac:(repeat constructor; discriminate) eq_refl eq_refl)
    as (ls & Hls & Hrun).
  exists ls. split; [exact Hls|]. now rewrite Hrun.
Defined.

(** X22: a database whose state is NULL stops the listing: the rows before
    it are printed, formatting its state raises a TypeError, which is not a
    pyodbc.Error, so the test ends with the "Unexpected error" line and
    without the troubleshooting tips; the rows after it are not printed and
    the connection is not closed. *)
Theorem test_connection_stops_at_null_state
  (srv : TestConnection.Server) (v : string)
  (pre post : list TestConnection.Db) (row : TestConnection.Db)
  (t : TestConnection.Terminal) :
  TestConnection.connect srv = Ok tt ->
  TestConnection.cursor srv = Ok tt ->
  TestConnection.version srv = Ok (Some v) ->
  TestConnection.databases srv = Ok (pre ++ row :: post)%list ->
  Forall (fun r => TestConnection.Status r <> None) pre ->
  TestConnection.Status row = None ->
  exists ls,
    Forall2 (fun r l => TestConnection.database_line r = Ok l) pre ls /\
    TestConnection.test_connection srv t
    = (Ok tt,
       TestConnection.mkTerminal
         (TestConnection.out t ++ TestConnection.banner
          ++ ["Attempting connection..."; (nl ++ "✓ CONNECTION SUCCESSFUL!")%string;
              str_mul "-" 70; "SQL Server Version:"; v; str_mul "-" 70;
              (nl ++ "Databases on this server:")%string;
              TestConnection.databases_header; str_mul "-" 70]
          ++ ls
          ++ [TestConnection.unexpected_line
                "unsupported format string passed to NoneType.__format__"])
         (TestConnection.calls t
          ++ [TestConnection.Connect; TestConnection.Cursor;
              TestConnection.SelectVersion; TestConnection.SelectDatabases])).
Proof.
  intros Hc Hcu Hv Hd Hpre Hrow.
  destruct (tc_database_lines_exist pre Hpre) as (ls & Hls).
  exists ls. split; [exact Hls|].
  rewrite tc_unfold, (tc_attempt_listing srv v _ _ Hc Hcu Hv Hd).
  unfold TestConnection.bind at 1.
  rewrite (tc_for_rows_lines pre ls Hls (row :: post) _ _).
  simpl TestConnection.for_rows. unfold TestConnection.bind at 1.
  unfold TestConnection.lift at 1. unfold TestConnection.database_line.
  rewrite Hrow. cbn [fmt_opt_str]. rewrite tc_handle.
  cbn [TestConnection.out TestConnection.calls].
  change (TestConnection.is_pyodbc_error "TypeError") with false.
  cbn iota. now rewrite <- !app_assoc.
Qed.

Lemma test_connection_stops_at_null_state_witness :
  exists ls,
    Forall2 (fun r l => TestConnection.database_line r = Ok l)
      [TestConnection.master_db] ls /\
    TestConnection.calls
      (snd (TestConnection.test_connection
              (TestConnection.mkServer (Ok tt) (Ok tt) (Ok (Some "v"))
                 (Ok [TestConnection.master_db; TestConnection.restoring_db])
                 None (Ok tt))
              TestConnection.t0))
    = [TestConnection.Connect; TestConnection.Cursor;
       TestConnection.SelectVersion; TestConnection.SelectDatabases].
Proof.
  destruct (test_connection_stops_at_null_state
              (TestConnection.mkServer (Ok tt) (Ok tt) (Ok (Some "v"))
                 (Ok [TestConnection.master_db; TestConnection.restoring_db])
                 None (Ok tt))
              "v" [TestConnection.master_db] [] TestConnection.restoring_db
              TestConnection.t0 eq_refl eq_refl eq_refl eq_refl
              ltac:(repeat constructor; discriminate) eq_refl)
    as (ls & Hls & Hrun).
  exists ls. split; [exact Hls|]. now rewrite Hrun.
Defined.
